(** * critical-mineral-app: record store, validator, audit trail, sharing registry

    A shallow embedding of [lib/data_store.py], [lib/entities.py], the
    text-file helpers of [lib/app_utils.py] and the views of [app.py] that
    read and write the CSV collections, the audit log and the share
    registry, with the properties of the specification and further
    properties of the code stated over it.

    Modelling conventions.
    - A Python [str] is a [string]; every character stands for one code point
      below 256.
    - A CSV file that the program reads and writes through pandas is kept as
      the [DataFrame] pandas parses it to; the textual encoding of the file
      is beneath the model.  A cell is an integer, a piece of text or a
      missing value (NaN).
    - The audit log and the share registry are read and written as text;
      such a file is kept as the text Python's text layer hands to the
      program.
    - Handlers are computations in a state-and-exception monad over [World];
      an exception leaves the effects performed before it in place. *)

From Stdlib Require Import ZArith String Ascii List Lia Floats.SpecFloat.
From stdpp Require Import base option list gmap strings pretty.

Open Scope string_scope.
Open Scope list_scope.
Open Scope Z_scope.

(** ** Python string operations used by the program *)

Module PyStr.

(** [str.isspace] on one character (code points below 256). *)
Definition is_space (c : ascii) : bool :=
  let n := N_of_ascii c in
  ((9 <=? n) && (n <=? 13) || (28 <=? n) && (n <=? 32)
   || (n =? 133) || (n =? 160))%N.

(** The double quote, code 34. *)
Definition dquote : ascii := "034"%char.
Definition is_quote (c : ascii) : bool := Ascii.eqb c dquote.

Fixpoint lstrip_by (p : ascii → bool) (s : string) : string :=
  match s with
  | String c s' => if p c then lstrip_by p s' else s
  | EmptyString => EmptyString
  end.

Fixpoint rstrip_by (p : ascii → bool) (s : string) : string :=
  match s with
  | String c s' =>
      match rstrip_by p s' with
      | EmptyString => if p c then EmptyString else String c EmptyString
      | r => String c r
      end
  | EmptyString => EmptyString
  end.

(** [s.strip()] and [s.strip(chars)] for a one-character [chars]. *)
Definition strip_by (p : ascii → bool) (s : string) : string :=
  rstrip_by p (lstrip_by p s).
Definition strip (s : string) : string := strip_by is_space s.

(** [s.split(sep)] for a non-empty [sep]: occurrences are taken from the
    left and do not overlap.  [skip] counts the characters of the current
    occurrence still to be dropped. *)
Fixpoint split_from (sep : string) (skip : nat) (s : string) : list string :=
  match s with
  | EmptyString => [EmptyString]
  | String c s' =>
      match skip with
      | S k => split_from sep k s'
      | O =>
          if String.prefix sep s
          then EmptyString :: split_from sep (Nat.pred (String.length sep)) s'
          else match split_from sep O s' with
               | p :: ps => String c p :: ps
               | [] => [String c EmptyString]
               end
      end
  end.
Definition split (sep s : string) : list string := split_from sep O s.

(** [s.replace(old, new)] for a non-empty [old]. *)
Fixpoint replace_from (old new : string) (skip : nat) (s : string) : string :=
  match s with
  | EmptyString => EmptyString
  | String c s' =>
      match skip with
      | S k => replace_from old new k s'
      | O =>
          if String.prefix old s
          then new +:+ replace_from old new (Nat.pred (String.length old)) s'
          else String c (replace_from old new O s')
      end
  end.
Definition replace (old new s : string) : string := replace_from old new O s.

(** [f.readlines()]: the lines of a text, each with its terminator. *)
Fixpoint readlines (s : string) : list string :=
  match s with
  | EmptyString => []
  | String c s' =>
      if Ascii.eqb c "010"%char then String c EmptyString :: readlines s'
      else match readlines s' with
           | l :: ls => String c l :: ls
           | [] => [String c EmptyString]
           end
  end.

(** [os.path.join(a, b)] and [os.path.basename(p)] on POSIX paths. *)
Fixpoint ends_with_slash (s : string) : bool :=
  match s with
  | EmptyString => false
  | String c EmptyString => Ascii.eqb c "/"%char
  | String _ s' => ends_with_slash s'
  end.

Definition path_join (a b : string) : string :=
  if String.prefix "/" b then b
  else if String.eqb a "" || ends_with_slash a then a +:+ b
  else a +:+ "/" +:+ b.

Fixpoint basename (p : string) : string :=
  match p with
  | EmptyString => EmptyString
  | String c p' =>
      if Ascii.eqb c "/"%char then basename p'
      else if existsb (Ascii.eqb "/"%char) (list_ascii_of_string p')
           then basename p' else p
  end.

End PyStr.

(** ** Data frames *)

(** A cell of a frame: an integer, text, or a missing value. *)
Inductive cell :=
| CInt (z : Z)
| CStr (s : string)
| CNaN.

Global Instance cell_eq_dec : EqDecision cell.
Proof. solve_decision. Defined.

(** Python's [==] between two cell values; NaN equals nothing, and an
    integer never equals a text. *)
Definition cell_eqb (a b : cell) : bool :=
  match a, b with
  | CInt x, CInt y => Z.eqb x y
  | CStr x, CStr y => String.eqb x y
  | _, _ => false
  end.

(** A frame after [read_csv]: the column labels in file order and the rows
    in file order (the index is 0, 1, ..., so a label is a position).
    Every row of a frame the program builds has a cell for every column. *)
Record DataFrame := {
  columns : list string;
  rows : list (gmap string cell)
}.

Global Instance DataFrame_eq_dec : EqDecision DataFrame.
Proof. solve_decision. Defined.

(** [pd.DataFrame()] *)
Definition empty_frame : DataFrame := {| columns := []; rows := [] |}.

(** Exceptions raised by the modelled fragment. *)
Inductive exn :=
| KeyError (key : string)
| ValueError (msg : string)
| TypeError (msg : string)
| FileNotFoundError (path : string)
| OSError (path : string).

Inductive result (A : Type) :=
| Ok (a : A)
| Raised (e : exn).
Arguments Ok {A} a.
Arguments Raised {A} e.

Module Frame.

(** [df.empty]: some axis has length 0. *)
Definition empty (df : DataFrame) : bool :=
  match columns df, rows df with
  | [], _ | _, [] => true
  | _, _ => false
  end.

Definition get (r : gmap string cell) (col : string) : cell :=
  default CNaN (r !! col).

(** [df[col]]: the cells of a column, [KeyError] for an unknown label. *)
Definition getitem (df : DataFrame) (col : string) : result (list cell) :=
  if bool_decide (col ∈ columns df)
  then Ok ((λ r, get r col) <$> rows df)
  else Raised (KeyError col).

(** [df[df[col] != v]] once [col] is known to be a column: the rows that
    pass are kept in order. *)
Definition keep_ne (df : DataFrame) (col : string) (v : cell) : DataFrame :=
  {| columns := columns df;
     rows := List.filter (λ r, negb (cell_eqb (get r col) v)) (rows df) |}.

(** Position of the first row whose [col] equals [v]: [row.index[0]] for
    [row = df[df[col] == v]]; [None] when [row.empty]. *)
Fixpoint first_index (col : string) (v : cell)
    (rs : list (gmap string cell)) : option nat :=
  match rs with
  | [] => None
  | r :: rs' =>
      if cell_eqb (get r col) v then Some O
      else S <$> first_index col v rs'
  end.

(** The row that [df.loc[len(df)] = d] stores: the dict aligned to the
    columns, NaN where the dict has no entry. *)
Definition align (cols : list string) (d : gmap string cell)
    : gmap string cell :=
  list_to_map ((λ c, (c, default CNaN (d !! c))) <$> cols).

(** [df.loc[len(df)] = d] for a dict [d]: a new last row; pandas refuses
    to enlarge a frame that has no columns. *)
Definition loc_append (df : DataFrame) (d : gmap string cell)
    : result DataFrame :=
  match columns df with
  | [] => Raised (ValueError "cannot set a frame with no defined columns")
  | cols => Ok {| columns := cols; rows := rows df ++ [align cols d] |}
  end.

(** [df.at[idx, col]] *)
Definition at_get (df : DataFrame) (idx : nat) (col : string) : result cell :=
  if bool_decide (col ∈ columns df) then
    match rows df !! idx with
    | Some r => Ok (get r col)
    | None => Raised (KeyError (pretty idx))
    end
  else Raised (KeyError col).

(** [df.at[idx, col] = v] for an existing column and row. *)
Definition at_set (df : DataFrame) (idx : nat) (col : string) (v : cell)
    : DataFrame :=
  {| columns := columns df;
     rows := alter (λ r, <[col := v]> r) idx (rows df) |}.

(** [int(s.max())] for a column [s]: missing values are skipped; with no
    value left the maximum is NaN and [int] raises; text in the column
    is reported as the [TypeError] pandas raises for a mixed column. *)
Fixpoint max_acc (cs : list cell) (acc : option Z) : result (option Z) :=
  match cs with
  | [] => Ok acc
  | CInt z :: cs' =>
      max_acc cs' (Some (match acc with Some m => Z.max m z | None => z end))
  | CNaN :: cs' => max_acc cs' acc
  | CStr _ :: _ => Raised (TypeError "'>=' not supported between instances of 'str' and 'int'")
  end.

Definition int_max (cs : list cell) : result Z :=
  match max_acc cs None with
  | Ok (Some m) => Ok m
  | Ok None => Raised (ValueError "cannot convert float NaN to integer")
  | Raised e => Raised e
  end.

End Frame.

(** ** The world the program runs in *)

(** A text file: its text, or a file that exists but whose reading fails. *)
Inductive text_file :=
| Text (content : string)
| Unreadable.

Global Instance text_file_eq_dec : EqDecision text_file.
Proof. solve_decision. Defined.

(** The module-level frames of [app.py] that [reload_all_data] refreshes.
    The joined views [sites_full] and [prod_full] are recomputed from these
    by [merge] under a [try]; they feed the map and chart pages only and
    are not represented. *)
Record Globals := {
  users_df : DataFrame;
  roles_df : DataFrame;
  countries_df : DataFrame;
  minerals_df : DataFrame;
  sites_df : DataFrame;
  production_df : DataFrame
}.

Record World := {
  tables : gmap string DataFrame;   (* CSV files handled through pandas *)
  texts : gmap string text_file;    (* files handled as text *)
  written : list string;            (* paths opened for writing, oldest first *)
  globals : Globals;
  flashes : list (string * string); (* flash(message, category) *)
  clock : nat                       (* readings of the clock taken so far *)
}.

Definition set_tables (f : gmap string DataFrame → gmap string DataFrame)
    (w : World) : World :=
  {| tables := f (tables w); texts := texts w; written := written w;
     globals := globals w; flashes := flashes w; clock := clock w |}.
Definition set_texts (f : gmap string text_file → gmap string text_file)
    (w : World) : World :=
  {| tables := tables w; texts := f (texts w); written := written w;
     globals := globals w; flashes := flashes w; clock := clock w |}.
Definition log_write (p : string) (w : World) : World :=
  {| tables := tables w; texts := texts w; written := written w ++ [p];
     globals := globals w; flashes := flashes w; clock := clock w |}.
Definition set_globals (f : Globals → Globals) (w : World) : World :=
  {| tables := tables w; texts := texts w; written := written w;
     globals := f (globals w); flashes := flashes w; clock := clock w |}.
Definition add_flash (m : string * string) (w : World) : World :=
  {| tables := tables w; texts := texts w; written := written w;
     globals := globals w; flashes := flashes w ++ [m]; clock := clock w |}.
Definition tick (w : World) : World :=
  {| tables := tables w; texts := texts w; written := written w;
     globals := globals w; flashes := flashes w; clock := S (clock w) |}.

(** State and exceptions. *)
Definition M (A : Type) : Type := World → result A * World.

Global Instance M_ret : MRet M := λ A a w, (Ok a, w).
Global Instance M_bind : MBind M := λ A B f m w,
  match m w with
  | (Ok a, w') => f a w'
  | (Raised e, w') => (Raised e, w')
  end.

Definition raise {A} (e : exn) : M A := λ w, (Raised e, w).
Definition lift {A} (r : result A) : M A := λ w, (r, w).
Definition gets {A} (f : World → A) : M A := λ w, (Ok (f w), w).
Definition modify (f : World → World) : M unit := λ w, (Ok tt, f w).

(** [try: body except Exception as e: handler(e)] *)
Definition try_except {A} (body : M A) (handler : exn → M A) : M A := λ w,
  match body w with
  | (Ok a, w') => (Ok a, w')
  | (Raised e, w') => handler e w'
  end.

(** ** lib/data_store.py *)

Record CSVStore := {
  path : string;
  id_field : option string   (* [None] is Python's [None] *)
}.

(** [load_csv(path)] *)
Definition load_csv (p : string) : M DataFrame :=
  gets (λ w, default empty_frame (tables w !! p)).

(** [save_csv(df, path)]: the frame handed to [to_csv] is kept as what
    the next read of the file returns; the types that pandas infers anew
    from the written text are not represented. *)
Definition save_csv (df : DataFrame) (p : string) : M unit :=
  modify (λ w, log_write p (set_tables <[p := df]> w)).

Definition load (self : CSVStore) : M DataFrame := load_csv (path self).

Definition save (self : CSVStore) (df : DataFrame) : M unit :=
  save_csv df (path self).

Definition append_row (self : CSVStore) (row_dict : gmap string cell)
    : M DataFrame :=
  df ← load self;
  df ← lift (Frame.loc_append df row_dict);
  _ ← save self df;
  mret df.

Definition delete_by_id (self : CSVStore) (id_value : cell) : M DataFrame :=
  df ← load self;
  match id_field self with
  | None => mret df
  | Some f =>
      _ ← lift (Frame.getitem df f);
      let df := Frame.keep_ne df f id_value in
      _ ← save self df;
      mret df
  end.

(** [if self.id_field and not df.empty]: an empty field name is falsy. *)
Definition next_id (self : CSVStore) : M Z :=
  df ← load self;
  match id_field self with
  | Some f =>
      if negb (String.eqb f "") && negb (Frame.empty df) then
        col ← lift (Frame.getitem df f);
        m ← lift (Frame.int_max col);
        mret (m + 1)
      else mret 1
  | None => mret 1
  end.

(** What a method of the store hands back to its caller. *)
Inductive pyvalue :=
| PyInt (n : Z)
| PyFrame (df : DataFrame).

(** ** lib/entities.py *)

Record EntityCfg := {
  cfg_csv : string;
  cfg_id : string;
  cfg_fields : list string;
  cfg_title : string;
  (* foreign-key field -> (entity, id field, display field); absent = {} *)
  cfg_selects : list (string * (string * string * string))
}.

Definition fk_selects : list (string * (string * string * string)) :=
  [("CountryID", ("countries", "CountryID", "CountryName"));
   ("MineralID", ("minerals", "MineralID", "MineralName"))].

Definition users_cfg : EntityCfg :=
  {| cfg_csv := "users.csv"; cfg_id := "UserID";
     cfg_fields := ["UserID"; "Username"; "PasswordHash"; "RoleID"; "Email"];
     cfg_title := "Users"; cfg_selects := [] |}.

Definition countries_cfg : EntityCfg :=
  {| cfg_csv := "countries.csv"; cfg_id := "CountryID";
     cfg_fields := ["CountryID"; "CountryName"; "GDP_BillionUSD";
                    "MiningRevenue_BillionUSD"; "KeyProjects"];
     cfg_title := "Countries"; cfg_selects := [] |}.

Definition minerals_cfg : EntityCfg :=
  {| cfg_csv := "minerals.csv"; cfg_id := "MineralID";
     cfg_fields := ["MineralID"; "MineralName"; "Description";
                    "MarketPriceUSD_per_tonne"];
     cfg_title := "Minerals"; cfg_selects := [] |}.

Definition sites_cfg : EntityCfg :=
  {| cfg_csv := "sites.csv"; cfg_id := "SiteID";
     cfg_fields := ["SiteID"; "SiteName"; "CountryID"; "MineralID";
                    "Latitude"; "Longitude"; "Production_tonnes"];
     cfg_title := "Sites"; cfg_selects := fk_selects |}.

Definition production_cfg : EntityCfg :=
  {| cfg_csv := "production_stats.csv"; cfg_id := "StatID";
     cfg_fields := ["StatID"; "Year"; "CountryID"; "MineralID";
                    "Production_tonnes"; "ExportValue_BillionUSD"];
     cfg_title := "Production Stats"; cfg_selects := fk_selects |}.

Definition ENTITIES : gmap string EntityCfg :=
  list_to_map
    [("users", users_cfg); ("countries", countries_cfg);
     ("minerals", minerals_cfg); ("sites", sites_cfg);
     ("production", production_cfg)].

(** ** What the program takes from the interpreter and the machine *)

Record Runtime := {
  (* os.path.join(os.path.dirname(__file__), 'data') *)
  DATA_DIR : string;
  (* float(s) for a str; None when it raises *)
  py_float : string → option spec_float;
  (* datetime.utcnow().isoformat() at the n-th reading of the clock *)
  utcnow_isoformat : nat → string;
  (* datetime.utcnow().strftime('%Y%m%dT%H%M%SZ') at the n-th reading *)
  utcnow_stamp : nat → string;
  (* str(e) for a caught exception *)
  exn_str : exn → string
}.

(** A Python int as a float (binary64, round to nearest even). *)
Definition float_of_Z (z : Z) : spec_float := binary_normalize 53 1024 z 0 false.

(** ** app.py *)

Record Session := {
  logged_in : bool;
  sess_username : option string;
  sess_role : option string
}.

Record Request := {
  method : string;
  form : gmap string string
}.

(** The arguments handed to [render_template]. *)
Record Page := {
  template : string;
  page_role : string;
  page_title : string;
  page_fields : list string;
  page_item : option (gmap string (option cell));   (* inner None: Python's None *)
  base_endpoint : string;
  select_options : gmap string (list (gmap string cell));
  page_form : option (gmap string string);
  page_errors : option (list string)
}.

Inductive response :=
| Redirect (url : string)
| Render (page : Page).

Definition View : Type := Session → Request → M response.

(** Text-file primitives: [open(p,'r')], [f.read()], [open(p,'w')],
    [open(p,'a')], [f.write(s)] and [os.path.exists(p)]. *)
Definition open_r (p : string) : M unit := λ w,
  match texts w !! p with
  | Some _ => (Ok tt, w)
  | None => (Raised (FileNotFoundError p), w)
  end.

Definition read_text (p : string) : M string := λ w,
  match texts w !! p with
  | Some (Text s) => (Ok s, w)
  | Some Unreadable => (Raised (OSError p), w)
  | None => (Raised (FileNotFoundError p), w)
  end.

Definition open_w (p : string) : M unit :=
  modify (λ w, log_write p (set_texts <[p := Text ""]> w)).

Definition open_a (p : string) : M unit :=
  modify (λ w,
    log_write p
      (set_texts (λ t, match t !! p with
                       | Some _ => t
                       | None => <[p := Text ""]> t
                       end) w)).

Definition fwrite (p s : string) : M unit :=
  modify (set_texts (λ t, match t !! p with
                          | Some (Text old) => <[p := Text (old +:+ s)]> t
                          | _ => t
                          end)).

(** [with open(p,'a') as f: f.write(s)] *)
Definition append_text (p s : string) : M unit :=
  _ ← open_a p; fwrite p s.

Definition text_exists (p : string) : M bool :=
  gets (λ w, bool_decide (is_Some (texts w !! p))).

(** [pd.read_csv(p)] outside [load_csv]: a missing file raises. *)
Definition read_csv (p : string) : M DataFrame := λ w,
  match tables w !! p with
  | Some df => (Ok df, w)
  | None => (Raised (FileNotFoundError p), w)
  end.

Definition flash (message category : string) : M unit :=
  modify (add_flash (message, category)).

Definition quoted (s : string) : string :=
  String PyStr.dquote (s +:+ String PyStr.dquote EmptyString).

(** The separator the registry is split on: quote, comma, quote. *)
Definition field_separator : string :=
  String PyStr.dquote (String ","%char (String PyStr.dquote EmptyString)).

(** One line of quoted, comma-separated fields, as the f-strings build it. *)
Fixpoint csv_line (fs : list string) : string :=
  match fs with
  | [] => String "010"%char EmptyString
  | [f] => quoted f +:+ String "010"%char EmptyString
  | f :: fs' => quoted f +:+ "," +:+ csv_line fs'
  end.

Section App.

Variable rt : Runtime.

Definition data_file (name : string) : string :=
  PyStr.path_join (DATA_DIR rt) name.

Definition SHARES_CSV : string := data_file "dataset_shares.csv".
Definition AUDIT_LOG : string := data_file "audit_log.csv".

Definition now_isoformat : M string := λ w,
  (Ok (utcnow_isoformat rt (clock w)), tick w).
Definition now_stamp : M string := λ w,
  (Ok (utcnow_stamp rt (clock w)), tick w).

Definition add_dataset_share (shared_type shared_value shared_by : string)
    : M unit :=
  ts ← now_isoformat;
  append_text SHARES_CSV (csv_line [shared_type; shared_value; shared_by; ts]).

(** The fields of one line of the registry, as the loop parses them. *)
Definition share_parts (ln : string) : list string :=
  PyStr.strip_by PyStr.is_quote <$> PyStr.split field_separator (PyStr.strip ln).

(** The [for ln in lines] loop with its two early [return True]. *)
Fixpoint scan_shares (username role : string) (lines : list string) : bool :=
  match lines with
  | [] => false
  | ln :: rest =>
      let parts := share_parts ln in
      if (4 <=? length parts)%nat then
        match parts with
        | stype :: svalue :: _ =>
            if String.eqb stype "role" && String.eqb svalue role then true
            else if String.eqb stype "user" && String.eqb svalue username then true
            else scan_shares username role rest
        | _ => scan_shares username role rest
        end
      else scan_shares username role rest
  end.

Definition is_dataset_shared_for_user (username role : string) : M bool :=
  if String.eqb role "Administrator" then mret true
  else
    ex ← text_exists SHARES_CSV;
    if negb ex then mret false
    else
      try_except
        (content ← read_text SHARES_CSV;
         mret (scan_shares username role (tail (PyStr.readlines content))))
        (λ _, mret false).

Definition reload_all_data : M unit :=
  df ← read_csv (data_file "users.csv");
  _ ← modify (set_globals (λ g, {| users_df := df; roles_df := roles_df g;
         countries_df := countries_df g; minerals_df := minerals_df g;
         sites_df := sites_df g; production_df := production_df g |}));
  df ← read_csv (data_file "roles.csv");
  _ ← modify (set_globals (λ g, {| users_df := users_df g; roles_df := df;
         countries_df := countries_df g; minerals_df := minerals_df g;
         sites_df := sites_df g; production_df := production_df g |}));
  df ← read_csv (data_file "countries.csv");
  _ ← modify (set_globals (λ g, {| users_df := users_df g; roles_df := roles_df g;
         countries_df := df; minerals_df := minerals_df g;
         sites_df := sites_df g; production_df := production_df g |}));
  df ← read_csv (data_file "minerals.csv");
  _ ← modify (set_globals (λ g, {| users_df := users_df g; roles_df := roles_df g;
         countries_df := countries_df g; minerals_df := df;
         sites_df := sites_df g; production_df := production_df g |}));
  df ← read_csv (data_file "sites.csv");
  _ ← modify (set_globals (λ g, {| users_df := users_df g; roles_df := roles_df g;
         countries_df := countries_df g; minerals_df := minerals_df g;
         sites_df := df; production_df := production_df g |}));
  df ← read_csv (data_file "production_stats.csv");
  modify (set_globals (λ g, {| users_df := users_df g; roles_df := roles_df g;
         countries_df := countries_df g; minerals_df := minerals_df g;
         sites_df := sites_df g; production_df := df |})).

Definition log_event (username action path details : string) : M unit :=
  ts ← now_isoformat;
  append_text AUDIT_LOG (csv_line [ts; username; action; path; details]).

Definition admin_required (f : View) : View := λ sess req,
  if negb (logged_in sess) then mret (Redirect "/login")
  else if negb (bool_decide (sess_role sess = Some "Administrator")) then
    _ ← flash "Administrator access required." "danger";
    mret (Redirect "/dashboard")
  else f sess req.

(** [session['role']] and [session.get('username','admin')] *)
Definition session_role (sess : Session) : M string :=
  match sess_role sess with
  | Some r => mret r
  | None => raise (KeyError "role")
  end.
Definition session_user (sess : Session) : string :=
  default "admin" (sess_username sess).

Definition audit_header : string :=
  "Timestamp,Username,Action,Path,Details" +:+ String "010"%char EmptyString.

Definition admin_audit_clear : View := admin_required (λ sess req,
  stamp ← now_stamp;
  let backup := PyStr.replace ".csv" "" AUDIT_LOG +:+ "_" +:+ stamp +:+ ".bak.csv" in
  _ ← try_except
        (_ ← open_r AUDIT_LOG;
         _ ← open_w backup;
         content ← read_text AUDIT_LOG;
         _ ← fwrite backup content;
         _ ← open_w AUDIT_LOG;
         _ ← fwrite AUDIT_LOG audit_header;
         ts ← now_isoformat;
         _ ← fwrite AUDIT_LOG
               (csv_line [ts; session_user sess; "audit_cleared"; "/admin/audit/clear";
                          "Cleared recent audit log and backed up to "
                          +:+ PyStr.basename backup]);
         _ ← flash "Audit log cleared (backup created)." "success";
         log_event (session_user sess) "audit_clear" "/admin/audit/clear"
                   ("Backup: " +:+ PyStr.basename backup))
        (λ e, flash ("Failed to clear audit log: " +:+ exn_str rt e) "danger");
  mret (Redirect "/admin")).

Definition load_entity_df (entity : string) : M DataFrame :=
  match ENTITIES !! entity with
  | Some cfg => load_csv (data_file (cfg_csv cfg))
  | None => raise (KeyError entity)
  end.

(** The dropdown choices: for every foreign-key field of the entity the
    records of the referenced collection. *)
Fixpoint load_selects (sel : list (string * (string * string * string)))
    : M (gmap string (list (gmap string cell))) :=
  match sel with
  | [] => mret ∅
  | (k, (ent, _, _)) :: rest =>
      sel_df ← load_csv (data_file (ent +:+ ".csv"));
      m ← load_selects rest;
      mret (<[k := rows sel_df]> m)
  end.

(** [request.form.get(f, '')] *)
Definition form_get (req : Request) (f : string) : string :=
  default "" (form req !! f).

(** The three [try] blocks that validate a site, in order. *)
Definition check_latitude (req : Request) : list string :=
  match py_float rt (form_get req "Latitude") with
  | Some lat =>
      if negb (SFleb (float_of_Z (-90)) lat && SFleb lat (float_of_Z 90))
      then ["Latitude must be between -90 and 90"] else []
  | None => ["Latitude must be a valid number"]
  end.

Definition check_longitude (req : Request) : list string :=
  match py_float rt (form_get req "Longitude") with
  | Some lon =>
      if negb (SFleb (float_of_Z (-180)) lon && SFleb lon (float_of_Z 180))
      then ["Longitude must be between -180 and 180"] else []
  | None => ["Longitude must be a valid number"]
  end.

(** [float(request.form.get('Production_tonnes','0') or 0)] *)
Definition production_value (req : Request) : option spec_float :=
  let s := default "0" (form req !! "Production_tonnes") in
  if String.eqb s "" then Some (float_of_Z 0) else py_float rt s.

Definition check_production (req : Request) : list string :=
  match production_value req with
  | Some prod_val =>
      if SFltb prod_val (float_of_Z 0)
      then ["Production_tonnes must be non-negative"] else []
  | None => ["Production_tonnes must be a number"]
  end.

Definition validate (cfg : EntityCfg) (req : Request) : list string :=
  if String.eqb (cfg_csv cfg) "sites.csv"
  then check_latitude req ++ check_longitude req ++ check_production req
  else [].

Definition fields_but_id (cfg : EntityCfg) : list string :=
  List.filter (λ f, negb (String.eqb f (cfg_id cfg))) (cfg_fields cfg).

(** The [row] dict of an add: the new id under the id field, the
    submitted text (or '') under every other field. *)
Definition new_row (cfg : EntityCfg) (req : Request) (new_id : Z)
    : gmap string cell :=
  foldl (λ row f,
           if String.eqb f (cfg_id cfg) then <[f := CInt new_id]> row
           else <[f := CStr (form_get req f)]> row)
        ∅ (cfg_fields cfg).

Definition admin_entity_add (entity : string) : View := admin_required (λ sess req,
  match ENTITIES !! entity with
  | None => _ ← flash "Unknown entity" "warning"; mret (Redirect "/admin")
  | Some cfg =>
      df ← load_entity_df entity;
      if String.eqb (method req) "POST" then
        new_id ← (if negb (Frame.empty df) then
                    col ← lift (Frame.getitem df (cfg_id cfg));
                    m ← lift (Frame.int_max col);
                    mret (m + 1)
                  else mret 1);
        let row := new_row cfg req new_id in
        let errors := validate cfg req in
        match errors with
        | _ :: _ =>
            selects ← load_selects (cfg_selects cfg);
            role ← session_role sess;
            mret (Render {| template := "admin_edit_generic.html";
                            page_role := role;
                            page_title := "Add " +:+ cfg_title cfg;
                            page_fields := fields_but_id cfg;
                            page_item := None;
                            base_endpoint := entity;
                            select_options := selects;
                            page_form := Some (form req);
                            page_errors := Some errors |})
        | [] =>
            df ← lift (Frame.loc_append df row);
            _ ← save_csv df (data_file (cfg_csv cfg));
            _ ← reload_all_data;
            _ ← log_event (session_user sess) "entity_add"
                  ("/admin/" +:+ entity +:+ "/add")
                  ("Added " +:+ entity +:+ " " +:+ pretty new_id);
            _ ← flash "Added." "success";
            mret (Redirect ("/admin/" +:+ entity))
        end
      else
        selects ← load_selects (cfg_selects cfg);
        role ← session_role sess;
        mret (Render {| template := "admin_edit_generic.html";
                        page_role := role;
                        page_title := "Add " +:+ cfg_title cfg;
                        page_fields := fields_but_id cfg;
                        page_item := None;
                        base_endpoint := entity;
                        select_options := selects;
                        page_form := None;
                        page_errors := None |})
  end).

(** The loop [for f in cfg['fields']] of an edit: the id field is skipped,
    every other field takes the submitted text, or keeps its cell when
    the form has no such field.  The default [df.at[idx,f]] is evaluated
    whether or not the form has the field. *)
Fixpoint edit_fields (key : string) (idx : nat) (req : Request)
    (fs : list string) (df : DataFrame) : result DataFrame :=
  match fs with
  | [] => Ok df
  | f :: fs' =>
      if String.eqb f key then edit_fields key idx req fs' df
      else
        match Frame.at_get df idx f with
        | Ok old =>
            let v := match form req !! f with
                     | Some s => CStr s
                     | None => old
                     end in
            edit_fields key idx req fs' (Frame.at_set df idx f v)
        | Raised e => Raised e
        end
  end.

(** [{c: (request.form.get(c) if c!='SiteID' else obj_id) for c in fields}] *)
Definition resubmitted_item (cfg : EntityCfg) (req : Request) (obj_id : Z)
    : gmap string (option cell) :=
  foldl (λ item c,
           if String.eqb c "SiteID" then <[c := Some (CInt obj_id)]> item
           else <[c := CStr <$> form req !! c]> item)
        ∅ (cfg_fields cfg).

Definition admin_entity_edit (entity : string) (obj_id : Z) : View :=
  admin_required (λ sess req,
  match ENTITIES !! entity with
  | None => _ ← flash "Unknown entity" "warning"; mret (Redirect "/admin")
  | Some cfg =>
      df ← load_entity_df entity;
      _ ← lift (Frame.getitem df (cfg_id cfg));
      match Frame.first_index (cfg_id cfg) (CInt obj_id) (rows df) with
      | None =>
          _ ← flash "Not found" "warning";
          mret (Redirect ("/admin/" +:+ entity))
      | Some idx =>
          if String.eqb (method req) "POST" then
            df ← lift (edit_fields (cfg_id cfg) idx req (cfg_fields cfg) df);
            let errors := validate cfg req in
            match errors with
            | _ :: _ =>
                selects ← load_selects (cfg_selects cfg);
                let item := resubmitted_item cfg req obj_id in
                role ← session_role sess;
                mret (Render {| template := "admin_edit_generic.html";
                                page_role := role;
                                page_title := "Edit " +:+ cfg_title cfg;
                                page_fields := fields_but_id cfg;
                                page_item := Some item;
                                base_endpoint := entity;
                                select_options := selects;
                                page_form := Some (form req);
                                page_errors := Some errors |})
            | [] =>
                _ ← save_csv df (data_file (cfg_csv cfg));
                _ ← reload_all_data;
                _ ← log_event (session_user sess) "entity_edit"
                      ("/admin/" +:+ entity +:+ "/edit/" +:+ pretty obj_id)
                      ("Edited " +:+ entity +:+ " " +:+ pretty obj_id);
                _ ← flash "Updated." "success";
                mret (Redirect ("/admin/" +:+ entity))
            end
          else
            let item := match rows df !! idx with
                        | Some r => Some <$> r
                        | None => ∅
                        end in
            selects ← load_selects (cfg_selects cfg);
            role ← session_role sess;
            mret (Render {| template := "admin_edit_generic.html";
                            page_role := role;
                            page_title := "Edit " +:+ cfg_title cfg;
                            page_fields := fields_but_id cfg;
                            page_item := Some item;
                            base_endpoint := entity;
                            select_options := selects;
                            page_form := None;
                            page_errors := None |})
      end
  end).

Definition admin_entity_delete (entity : string) (obj_id : Z) : View :=
  admin_required (λ sess req,
  match ENTITIES !! entity with
  | None => _ ← flash "Unknown entity" "warning"; mret (Redirect "/admin")
  | Some cfg =>
      df ← load_entity_df entity;
      _ ← lift (Frame.getitem df (cfg_id cfg));
      let df := Frame.keep_ne df (cfg_id cfg) (CInt obj_id) in
      _ ← save_csv df (data_file (cfg_csv cfg));
      _ ← reload_all_data;
      _ ← log_event (session_user sess) "entity_delete"
            ("/admin/" +:+ entity +:+ "/delete/" +:+ pretty obj_id)
            ("Deleted " +:+ entity +:+ " " +:+ pretty obj_id);
      _ ← flash "Deleted." "success";
      mret (Redirect ("/admin/" +:+ entity))
  end).

End App.

(** ** A reference runtime for evaluating the handlers on concrete inputs *)

(** [float(s)] for a [str], following the grammar of the language
    reference: surrounding whitespace, an optional sign, then [inf],
    [infinity] or [nan] in any case, or a decimal number with an optional
    fraction and exponent, digits possibly grouped by single underscores.
    The value is the nearest binary64 number, ties to even. *)
Module PyFloat.

Definition is_digit (c : ascii) : bool :=
  let n := N_of_ascii c in ((48 <=? n) && (n <=? 57))%N.
Definition digit (c : ascii) : Z := Z.of_N (N_of_ascii c) - 48.

Definition lower (c : ascii) : ascii :=
  let n := N_of_ascii c in
  if ((65 <=? n) && (n <=? 90))%N then ascii_of_N (n + 32) else c.

(** A maximal [digitpart] at the head of [s]: its value, its number of
    digits, and what follows it. *)
Fixpoint scan_digits (s : list ascii) (acc : Z) (n : nat)
    : Z * nat * list ascii :=
  match s with
  | c :: s' =>
      if is_digit c then scan_digits s' (10 * acc + digit c) (S n)
      else if Ascii.eqb c "_"%char then
        match n, s' with
        | S _, d :: _ => if is_digit d then scan_digits s' acc n else (acc, n, s)
        | _, _ => (acc, n, s)
        end
      else (acc, n, s)
  | [] => (acc, n, s)
  end.

Definition scan_sign (s : list ascii) : bool * list ascii :=
  match s with
  | c :: s' =>
      if Ascii.eqb c "-"%char then (true, s')
      else if Ascii.eqb c "+"%char then (false, s')
      else (false, s)
  | [] => (false, s)
  end.

(** [number]: mantissa and the count of fraction digits. *)
Definition scan_number (s : list ascii) : option (Z * nat * list ascii) :=
  let '(ip, ni, r1) := scan_digits s 0 O in
  match r1 with
  | c :: r2 =>
      if Ascii.eqb c "."%char then
        let '(m, nf, r3) := scan_digits r2 ip O in
        match ni, nf with
        | O, O => None
        | _, _ => Some (m, nf, r3)
        end
      else match ni with O => None | _ => Some (ip, O, r1) end
  | [] => match ni with O => None | _ => Some (ip, O, r1) end
  end.

(** [exponent], when present. *)
Definition scan_exponent (s : list ascii) : option (Z * list ascii) :=
  match s with
  | c :: s' =>
      if Ascii.eqb (lower c) "e"%char then
        let '(neg, s'') := scan_sign s' in
        match scan_digits s'' 0 O with
        | (_, O, _) => None
        | (e, _, r) => Some (if neg then - e else e, r)
        end
      else Some (0, s)
  | [] => Some (0, s)
  end.

(** The binary64 number nearest to [m * 10^e] for [m > 0]. *)
Definition round_decimal (neg : bool) (m : positive) (e : Z) : spec_float :=
  if Z.leb 0 e then binary_normalize 53 1024
                    ((if neg then Z.neg m else Z.pos m) * 10 ^ e) 0 false
  else SFdiv 53 1024 (S754_finite neg m 0)
                     (S754_finite false (Z.to_pos (10 ^ (- e))) 0).

Definition of_string (s : string) : option spec_float :=
  let '(neg, body) := scan_sign (list_ascii_of_string (PyStr.strip s)) in
  let word := string_of_list_ascii (lower <$> body) in
  if String.eqb word "inf" || String.eqb word "infinity"
  then Some (S754_infinity neg)
  else if String.eqb word "nan" then Some S754_nan
  else
    match scan_number body with
    | Some (m, nf, r) =>
        match scan_exponent r with
        | Some (e, []) =>
            Some (match m with
                  | Z.pos p => round_decimal neg p (e - Z.of_nat nf)
                  | _ => S754_zero neg
                  end)
        | _ => None
        end
    | None => None
    end.

End PyFloat.

Definition sample_runtime : Runtime := {|
  DATA_DIR := "data";
  py_float := PyFloat.of_string;
  utcnow_isoformat := λ n, "2025-01-01T00:00:00." +:+ pretty n;
  utcnow_stamp := λ n, "20250101T000000Z";
  exn_str := λ e, match e with
                  | KeyError k => "'" +:+ k +:+ "'"
                  | ValueError m | TypeError m => m
                  | FileNotFoundError p | OSError p =>
                      "[Errno 2] No such file or directory: '" +:+ p +:+ "'"
                  end
|}.

(** ** Vocabulary of the specification *)

(** The collection a store holds: what [load] returns. *)
Definition stored (self : CSVStore) (w : World) : DataFrame :=
  default empty_frame (tables w !! path self).

(** The identifier of a record under the store's identifier field. *)
Definition has_id (f : string) (v : cell) (r : gmap string cell) : bool :=
  cell_eqb (Frame.get r f) v.

(** Number of records whose identifier equals [v]. *)
Definition count_id (f : string) (v : cell) (df : DataFrame) : nat :=
  length (List.filter (has_id f v) (rows df)).

(** The sample store of three records with ids 1, 2, 3. *)
Definition three_ids : DataFrame :=
  {| columns := ["ID"; "Name"];
     rows := [ {[ "ID" := CInt 1; "Name" := CStr "a" ]};
               {[ "ID" := CInt 2; "Name" := CStr "b" ]};
               {[ "ID" := CInt 3; "Name" := CStr "c" ]} ] |}.

Definition no_globals : Globals :=
  {| users_df := empty_frame; roles_df := empty_frame;
     countries_df := empty_frame; minerals_df := empty_frame;
     sites_df := empty_frame; production_df := empty_frame |}.

Definition world_of (t : gmap string DataFrame) (x : gmap string text_file)
    : World :=
  {| tables := t; texts := x; written := []; globals := no_globals;
     flashes := []; clock := O |}.

Definition sample_store : CSVStore := {| path := "t.csv"; id_field := Some "ID" |}.
Definition sample_world : World := world_of {[ "t.csv" := three_ids ]} ∅.

(** The identifier column holds integers only. *)
Definition wf_ids (f : string) (df : DataFrame) : Prop :=
  f ∈ columns df ∧ Forall (λ r, ∃ z, Frame.get r f = CInt z) (rows df).

(** What a caller of the store does: an append takes its identifier from
    [next_id]; a delete names the identifier to remove. *)
Inductive store_op :=
| Append (fields : gmap string cell)
| Delete (id_value : Z).

Definition run_op (self : CSVStore) (f : string) (op : store_op)
    (assigned : list Z) : M (list Z) :=
  match op with
  | Append fields =>
      n ← next_id self;
      _ ← append_row self (<[f := CInt n]> fields);
      mret (assigned ++ [n])%list
  | Delete v =>
      _ ← delete_by_id self (CInt v);
      mret assigned
  end.

(** Runs the operations in order and collects the identifiers assigned. *)
Fixpoint run_ops (self : CSVStore) (f : string) (ops : list store_op)
    (assigned : list Z) : M (list Z) :=
  match ops with
  | [] => mret assigned
  | op :: ops' => a ← run_op self f op assigned; run_ops self f ops' a
  end.

(** C7, as the specification words it. *)
Definition next_id_exceeds_assigned (self : CSVStore) (f : string)
    (ops : list store_op) (w : World) : Prop :=
  ∀ assigned w' n,
    run_ops self f ops [] w = (Ok assigned, w') →
    next_id self w' = (Ok n, w') →
    Forall (λ z, z < n) assigned.

Definition header_only : DataFrame := {| columns := ["ID"; "Name"]; rows := [] |}.
Definition fresh_world : World := world_of {[ "t.csv" := header_only ]} ∅.
Definition reuse_ops : list store_op :=
  [Append {[ "Name" := CStr "a" ]}; Append {[ "Name" := CStr "b" ]};
   Delete 2; Delete 1; Append {[ "Name" := CStr "c" ]}].

(** The rules of the validator, as the specification lists them: a value
    that parses and lies in its range. *)
Definition latitude_ok (rt : Runtime) (req : Request) : bool :=
  match py_float rt (form_get req "Latitude") with
  | Some x => SFleb (float_of_Z (-90)) x && SFleb x (float_of_Z 90)
  | None => false
  end.

Definition longitude_ok (rt : Runtime) (req : Request) : bool :=
  match py_float rt (form_get req "Longitude") with
  | Some x => SFleb (float_of_Z (-180)) x && SFleb x (float_of_Z 180)
  | None => false
  end.

(** [Production_tonnes >= 0], empty input counting as 0. *)
Definition production_ok (rt : Runtime) (req : Request) : bool :=
  match production_value rt req with
  | Some x => SFleb (float_of_Z 0) x
  | None => false
  end.

(** [Production_tonnes] parses to a negative number. *)
Definition production_negative (rt : Runtime) (req : Request) : bool :=
  match production_value rt req with
  | Some x => SFltb x (float_of_Z 0)
  | None => false
  end.

(** An add leaves the CSV files as they were. *)
Definition add_rejected (rt : Runtime) (entity : string) (sess : Session)
    (req : Request) (w : World) : Prop :=
  tables (snd (admin_entity_add rt entity sess req w)) = tables w.

(** C1, as the specification words it, for the ProductionStat entity. *)
Definition production_writes_validated (rt : Runtime) : Prop :=
  ∀ sess req w,
    logged_in sess = true → sess_role sess = Some "Administrator" →
    method req = "POST" → production_ok rt req = false →
    add_rejected rt "production" sess req w.

(** A data directory whose six collections exist and are empty. *)
Definition headers (cols : list string) : DataFrame :=
  {| columns := cols; rows := [] |}.

Definition empty_tables : gmap string DataFrame :=
  list_to_map
    [("data/users.csv", headers (cfg_fields users_cfg));
     ("data/roles.csv", headers ["RoleID"; "RoleName"]);
     ("data/countries.csv", headers (cfg_fields countries_cfg));
     ("data/minerals.csv", headers (cfg_fields minerals_cfg));
     ("data/sites.csv", headers (cfg_fields sites_cfg));
     ("data/production_stats.csv", headers (cfg_fields production_cfg))].

Definition demo_world : World :=
  world_of empty_tables
    {[ "data/audit_log.csv" := Text audit_header;
       "data/dataset_shares.csv" :=
         Text ("SharedType,SharedValue,SharedBy,Timestamp" +:+ String "010"%char "") ]}.

Definition admin_session : Session :=
  {| logged_in := true; sess_username := Some "root";
     sess_role := Some "Administrator" |}.

Definition post (fields : list (string * string)) : Request :=
  {| method := "POST"; form := list_to_map fields |}.

Definition negative_stat : Request :=
  post [("Year", "2024"); ("CountryID", "1"); ("MineralID", "1");
        ("Production_tonnes", "-5"); ("ExportValue_BillionUSD", "1")].

Definition nan_site : Request :=
  post [("SiteName", "Pit"); ("CountryID", "1"); ("MineralID", "1");
        ("Latitude", "0"); ("Longitude", "0"); ("Production_tonnes", "nan")].

Definition north_of_pole : Request :=
  post [("SiteName", "Pit"); ("CountryID", "1"); ("MineralID", "1");
        ("Latitude", "95"); ("Longitude", "0"); ("Production_tonnes", "7")].

Definition testland : Request :=
  post [("CountryName", "Testland"); ("GDP_BillionUSD", "10")].
Definition otherland : Request :=
  post [("CountryName", "Otherland"); ("GDP_BillionUSD", "5")].

(** The identifier and name of every stored country, in file order. *)
Definition country_ids_names (w : World) : list (cell * cell) :=
  (λ r, (Frame.get r "CountryID", Frame.get r "CountryName"))
    <$> rows (default empty_frame (tables w !! "data/countries.csv")).

(** The entries of a log or registry text: its lines after the header. *)
Definition entries (content : string) : list string :=
  tail (PyStr.readlines content).

(** C3, as the specification words it: after the clear the live log is the
    header followed by exactly one entry. *)
Definition cleared_log_has_one_entry (rt : Runtime) (sess : Session)
    (req : Request) (w : World) : Prop :=
  ∃ content,
    texts (snd (admin_audit_clear rt sess req w)) !! AUDIT_LOG rt
    = Some (Text content)
    ∧ length (entries content) = 1%nat.

Definition logged_world : World :=
  world_of empty_tables
    {[ "data/audit_log.csv" :=
         Text (audit_header
               +:+ csv_line ["2024-12-31T23:59:59"; "alice"; "login_success";
                             "/login"; "Successful login"]) ]}.

(** A parsed line of the registry grants visibility to the user or role. *)
Definition grants (username role : string) (parts : list string) : Prop :=
  (4 ≤ length parts)%nat
  ∧ (parts !! 0%nat = Some "role" ∧ parts !! 1%nat = Some role
     ∨ parts !! 0%nat = Some "user" ∧ parts !! 1%nat = Some username).

(** A data directory that holds one country. *)
Definition testland_row : gmap string cell :=
  {[ "CountryID" := CInt 1; "CountryName" := CStr "Testland";
     "GDP_BillionUSD" := CStr "10"; "MiningRevenue_BillionUSD" := CStr "";
     "KeyProjects" := CStr "" ]}.

Definition one_country : DataFrame :=
  {| columns := cfg_fields countries_cfg; rows := [testland_row] |}.

Definition one_country_world : World :=
  world_of (<["data/countries.csv" := one_country]> empty_tables) ∅.

Definition rename_request : Request := post [("CountryName", "Newland")].

(** C2, as the specification words it: the value handed back is the number
    of records removed. *)
Definition delete_returns_count (self : CSVStore) (f : string) (v : cell)
    (w : World) : Prop :=
  ∃ df w', delete_by_id self v w = (Ok df, w')
           ∧ PyFrame df = PyInt (Z.of_nat (count_id f v (stored self w))).

(** A computation that leaves the CSV files as they are. *)
Definition keeps_tables {A} (m : M A) : Prop :=
  ∀ w, tables (snd (m w)) = tables w.

(** The cell an edit leaves under column [c] of the edited record. *)
Definition edited_cell (key : string) (req : Request) (fs : list string)
    (r : gmap string cell) (c : string) : option cell :=
  if bool_decide (c ∈ fs ∧ c ≠ key)
  then Some (match form req !! c with
             | Some s => CStr s
             | None => Frame.get r c
             end)
  else r !! c.

(** The identifier an add computes, and the exceptions it may raise
    before anything is written. *)
Definition new_id_of (cfg : EntityCfg) (df : DataFrame) : M Z :=
  if negb (Frame.empty df) then
    lift (Frame.getitem df (cfg_id cfg)) ≫= λ col,
    lift (Frame.int_max col) ≫= λ m, mret (m + 1)
  else mret 1.

(** [s] ends with [suffix]. *)
Definition ends_with (suffix s : string) : Prop := ∃ x, s = x +:+ suffix.

(** The path of the backup that a clear started at clock reading [n]
    writes. *)
Definition backup_path (rt : Runtime) (n : nat) : string :=
  PyStr.replace ".csv" "" (AUDIT_LOG rt) +:+ "_" +:+ utcnow_stamp rt n
  +:+ ".bak.csv".

(** No character of [s] satisfies [p]. *)
Fixpoint free_of (p : ascii → bool) (s : string) : bool :=
  match s with
  | EmptyString => true
  | String c s' => negb (p c) && free_of p s'
  end.

Definition is_newline (c : ascii) : bool := Ascii.eqb c "010"%char.

(** What the text layer reads back as a line break: a line feed, or a
    carriage return, which universal newlines turn into one. *)
Definition is_break (c : ascii) : bool :=
  is_newline c || Ascii.eqb c "013"%char.

(** A field that a registry line carries unharmed: no double quote and no
    line break in it. *)
Definition plain (s : string) : Prop :=
  free_of PyStr.is_quote s = true ∧ free_of is_break s = true.

(** A text that is empty or ends in a line break. *)
Fixpoint terminated (s : string) : bool :=
  match s with
  | EmptyString => true
  | String c EmptyString => is_newline c
  | String _ s' => terminated s'
  end.

(** The entry names the caller: its scope is the role or the user. *)
Definition names_caller (username role stype svalue : string) : Prop :=
  stype = "role" ∧ svalue = role ∨ stype = "user" ∧ svalue = username.

(** ** The rest of the program *)

(** *** lib/data_store.py: the helper outside the class *)

(** [append_csv_row(path, row_dict)] *)
Definition append_csv_row (p : string) (row_dict : gmap string cell)
    : M DataFrame :=
  df ← load_csv p;
  df ← lift (Frame.loc_append df row_dict);
  _ ← save_csv df p;
  mret df.

(** *** lib/app_utils.py, on files kept as text *)

(** [ensure_csv_header(path, header_line)] *)
Definition ensure_csv_header (p header_line : string) : M unit :=
  ex ← text_exists p;
  if negb ex then
    _ ← open_w p;
    fwrite p (header_line +:+ String "010"%char EmptyString)
  else mret tt.

(** [s.rsplit('.', 1)]: what precedes and what follows the last dot of
    [s], when it has one. *)
Fixpoint rsplit_dot (s : string) : option (string * string) :=
  match s with
  | EmptyString => None
  | String c s' =>
      match rsplit_dot s' with
      | Some (a, b) => Some (String c a, b)
      | None => if Ascii.eqb c "."%char then Some (EmptyString, s') else None
      end
  end.

(** [path.rsplit('.', 1)[0]] *)
Definition rsplit_base (p : string) : string :=
  match rsplit_dot p with
  | Some (a, _) => a
  | None => p
  end.

(** What a view outside the generic form answers: [redirect(url)], or
    [render_template] with the context of its template. *)
Inductive reply (P : Type) :=
| Redirected (url : string)
| Rendered (page : P).
Arguments Redirected {P} url.
Arguments Rendered {P} page.

Section Pages.

Variable rt : Runtime.

(** [backup_file(path)] *)
Definition backup_file (p : string) : M string :=
  let base := rsplit_base p in
  ts ← now_stamp rt;
  let dest := base +:+ "_" +:+ ts +:+ ".bak.csv" in
  _ ← open_r p;
  _ ← open_w dest;
  content ← read_text p;
  _ ← fwrite dest content;
  mret dest.

(** *** app.py: the statements run when the module is loaded *)

Definition shares_header : string :=
  "SharedType,SharedValue,SharedBy,Timestamp" +:+ String "010"%char EmptyString.

(** [if not os.path.exists(SHARES_CSV): ...] *)
Definition create_shares_csv : M unit :=
  ex ← text_exists (SHARES_CSV rt);
  if negb ex then
    _ ← open_w (SHARES_CSV rt);
    fwrite (SHARES_CSV rt) shares_header
  else mret tt.

(** [if not os.path.exists(AUDIT_LOG): ...] *)
Definition create_audit_log : M unit :=
  ex ← text_exists (AUDIT_LOG rt);
  if negb ex then
    _ ← open_w (AUDIT_LOG rt);
    fwrite (AUDIT_LOG rt) audit_header
  else mret tt.

(** *** app.py: the views outside the generic form *)

(** [admin_required] around a view of any answer type. *)
Definition admin_required_as {R : Type} (to : string → R)
    (f : Session → Request → M R) : Session → Request → M R := λ sess req,
  if negb (logged_in sess) then mret (to "/login")
  else if negb (bool_decide (sess_role sess = Some "Administrator")) then
    _ ← flash "Administrator access required." "danger";
    mret (to "/dashboard")
  else f sess req.

(** The loop of [is_dataset_shared_for_user] when [role] is [None], which
    equals no string: only a share to the user can match. *)
Fixpoint scan_user_shares (username : string) (lines : list string) : bool :=
  match lines with
  | [] => false
  | ln :: rest =>
      let parts := share_parts ln in
      if (4 <=? length parts)%nat then
        match parts with
        | stype :: svalue :: _ =>
            if String.eqb stype "user" && String.eqb svalue username then true
            else scan_user_shares username rest
        | _ => scan_user_shares username rest
        end
      else scan_user_shares username rest
  end.

(** [is_dataset_shared_for_user(user, session.get('role'))]: a session
    without a role hands [None] to the function. *)
Definition shared_for_session (username : string) (role : option string)
    : M bool :=
  match role with
  | Some r => is_dataset_shared_for_user rt username r
  | None =>
      ex ← text_exists (SHARES_CSV rt);
      if negb ex then mret false
      else
        try_except
          (content ← read_text (SHARES_CSV rt);
           mret (scan_user_shares username (tail (PyStr.readlines content))))
          (λ _, mret false)
  end.

(** The context of [dataset.html]. *)
Record DatasetPage := {
  dataset_role : option string;
  dataset_records : list (gmap string cell);
  dataset_cols : list string
}.

(** [dataset_view]; [uploaded_df] is the module-level frame of that name
    as it stands when the view runs. *)
Definition dataset_view (uploaded_df : DataFrame) (sess : Session)
    : M (reply DatasetPage) :=
  if negb (logged_in sess) then mret (Redirected "/login")
  else
    let user := default "anonymous" (sess_username sess) in
    let role := sess_role sess in
    shared ← shared_for_session user role;
    if negb shared then
      _ ← flash "Dataset not shared with you." "warning";
      mret (Redirected "/dashboard")
    else
      _ ← log_event rt user "page_view" "/dataset" "Viewed uploaded dataset";
      let records :=
        if negb (Frame.empty uploaded_df) then rows uploaded_df else [] in
      let cols :=
        if negb (Frame.empty uploaded_df) then columns uploaded_df else [] in
      mret (Rendered {| dataset_role := role; dataset_records := records;
                        dataset_cols := cols |}).

(** [request.form[k]] *)
Definition form_item (req : Request) (k : string) : M string :=
  match form req !! k with
  | Some v => mret v
  | None => raise (KeyError k)
  end.

(** [admin_dataset_share]; the page of a GET carries [session.get('role')].
    [session.get('username')] is formatted into the line, [None] as the
    text None. *)
Definition admin_dataset_share : Session → Request → M (reply (option string)) :=
  admin_required_as Redirected (λ sess req,
    if String.eqb (method req) "POST" then
      shared_type ← form_item req "shared_type";
      shared_value ← form_item req "shared_value";
      _ ← add_dataset_share rt shared_type shared_value
            (default "None" (sess_username sess));
      _ ← log_event rt (session_user sess) "dataset_share" "/admin/dataset/share"
            ("Shared dataset with " +:+ shared_type +:+ ":" +:+ shared_value);
      _ ← flash "Dataset shared." "success";
      mret (Redirected "/admin")
    else mret (Rendered (sess_role sess))).

(** A row of the log table of [admin_dashboard]. *)
Record LogRow := {
  Timestamp : string;
  Username : string;
  Action : string;
  Path : string;
  Details : string
}.

(** [f.readlines()[-n:]] for a positive [n] *)
Definition last_lines (n : nat) (lines : list string) : list string :=
  drop (length lines - n) lines.

(** One turn of the loop of [admin_dashboard] over a line: the rows it
    appends to [logs]; [None] is the [IndexError] of [parts[4]] on a line
    of exactly four fields. *)
Definition dashboard_row (ln : string) : option (list LogRow) :=
  let parts := share_parts ln in
  if (4 <=? length parts)%nat then
    match parts with
    | p0 :: p1 :: p2 :: p3 :: p4 :: _ =>
        Some [ {| Timestamp := p0; Username := p1; Action := p2; Path := p3;
                  Details := PyStr.strip_by PyStr.is_quote p4 |} ]
    | _ => None
    end
  else Some [].

Fixpoint dashboard_rows (lines : list string) : option (list LogRow) :=
  match lines with
  | [] => Some []
  | ln :: rest =>
      match dashboard_row ln with
      | Some r => (λ rs, r ++ rs) <$> dashboard_rows rest
      | None => None
      end
  end.

(** The [logs] that [admin_dashboard] builds from the text of the audit
    log: the last 200 lines, the first of them skipped. *)
Definition dashboard_logs (content : string) : option (list LogRow) :=
  dashboard_rows (tail (last_lines 200 (PyStr.readlines content))).

(** [df[df[col] == v]] once [col] is known to be a column. *)
Definition keep_eq (df : DataFrame) (col : string) (v : cell) : DataFrame :=
  {| columns := columns df;
     rows := List.filter (λ r, cell_eqb (Frame.get r col) v) (rows df) |}.

(** The context of [admin_sites_by_country.html]. *)
Record SitesByCountryPage := {
  sbc_role : string;
  sbc_items : list (gmap string cell);
  sbc_country_id : Z;
  sbc_country_name : cell
}.

Definition admin_sites_by_country (country_id : Z)
    : Session → Request → M (reply SitesByCountryPage) :=
  admin_required_as Redirected (λ sess req,
    df ← load_entity_df rt "sites";
    country_df ← load_csv (data_file rt "countries.csv");
    _ ← lift (Frame.getitem country_df "CountryID");
    let country_row := keep_eq country_df "CountryID" (CInt country_id) in
    match rows country_row with
    | [] =>
        _ ← flash "Country not found." "warning";
        mret (Redirected "/admin/sites")
    | r :: _ =>
        _ ← lift (Frame.getitem country_row "CountryName");
        let country_name := Frame.get r "CountryName" in
        _ ← lift (Frame.getitem df "CountryID");
        let items := rows (keep_eq df "CountryID" (CInt country_id)) in
        role ← session_role sess;
        mret (Rendered {| sbc_role := role; sbc_items := items;
                          sbc_country_id := country_id;
                          sbc_country_name := country_name |})
    end).

Definition admin_sites_delete_by_country (country_id : Z)
    : Session → Request → M (reply unit) :=
  admin_required_as Redirected (λ sess req,
    match ENTITIES !! "sites" with
    | None => raise (KeyError "sites")
    | Some cfg =>
        df0 ← load_entity_df rt "sites";
        let before := Z.of_nat (length (rows df0)) in
        _ ← lift (Frame.getitem df0 "CountryID");
        let df := Frame.keep_ne df0 "CountryID" (CInt country_id) in
        _ ← save_csv df (data_file rt (cfg_csv cfg));
        _ ← reload_all_data rt;
        let after := Z.of_nat (length (rows df)) in
        let deleted := before - after in
        _ ← log_event rt (session_user sess) "entity_bulk_delete"
              ("/admin/sites/delete_by_country/" +:+ pretty country_id)
              ("Deleted " +:+ pretty deleted +:+ " sites for country "
               +:+ pretty country_id);
        _ ← flash ("Deleted " +:+ pretty deleted +:+ " site(s) for the country.")
              "success";
        mret (Redirected "/admin/sites")
    end).

End Pages.

(** ** Vocabulary of the further properties *)

(** The CSV files that [reload_all_data] reads, in the order it reads them. *)
Definition data_files : list string :=
  ["users.csv"; "roles.csv"; "countries.csv"; "minerals.csv"; "sites.csv";
   "production_stats.csv"].

(** The module-level frames are the stored collections. *)
Definition globals_mirror (rt : Runtime) (w : World) : Prop :=
  tables w !! data_file rt "users.csv" = Some (users_df (globals w))
  ∧ tables w !! data_file rt "roles.csv" = Some (roles_df (globals w))
  ∧ tables w !! data_file rt "countries.csv" = Some (countries_df (globals w))
  ∧ tables w !! data_file rt "minerals.csv" = Some (minerals_df (globals w))
  ∧ tables w !! data_file rt "sites.csv" = Some (sites_df (globals w))
  ∧ tables w !! data_file rt "production_stats.csv"
    = Some (production_df (globals w)).

(** The cells of a column, in row order. *)
Definition column (f : string) (df : DataFrame) : list cell :=
  (λ r, Frame.get r f) <$> rows df.

(** The record an add stores under the columns of the collection. *)
Definition added_cell (cfg : EntityCfg) (req : Request) (new_id : Z)
    (c : string) : cell :=
  if bool_decide (c ∈ cfg_fields cfg) then
    if String.eqb c (cfg_id cfg) then CInt new_id else CStr (form_get req c)
  else CNaN.

(** Sessions and requests for the examples: a logged-in investor, a
    visitor who is not logged in, and the form that shares the dataset
    with the investors. *)
Definition investor_bob : Session :=
  {| logged_in := true; sess_username := Some "bob";
     sess_role := Some "Investor" |}.

Definition guest_session : Session :=
  {| logged_in := false; sess_username := None; sess_role := None |}.

Definition share_with_investors : Request :=
  post [("shared_type", "role"); ("shared_value", "Investor")].

(** A request that the administrator gate turns away: a visitor who is
    not logged in is sent to the login page and nothing changes; a user
    of another role is sent to the dashboard with a flash and nothing
    else changes. *)
Definition refused {R : Type} (to : string → R) (sess : Session)
    (out : result R * World) (w : World) : Prop :=
  if logged_in sess then
    out = (Ok (to "/dashboard"),
           add_flash ("Administrator access required.", "danger") w)
  else out = (Ok (to "/login"), w).

(** The files are as they were. *)
Definition same_files (w' w : World) : Prop :=
  tables w' = tables w ∧ texts w' = texts w ∧ written w' = written w.

(** A parsed line of the registry shares the dataset with the user. *)
Definition user_grant (username : string) (parts : list string) : Prop :=
  (4 ≤ length parts)%nat
  ∧ parts !! 0%nat = Some "user" ∧ parts !! 1%nat = Some username.

(** Data directories for the examples: one without [roles.csv], and one
    with a country and two sites. *)
Definition no_roles_world : World :=
  world_of (delete "data/roles.csv"
              (<["data/countries.csv" := one_country]> empty_tables))
    {[ "data/audit_log.csv" := Text audit_header ]}.

Definition two_sites : DataFrame :=
  {| columns := cfg_fields sites_cfg;
     rows := [ {[ "SiteID" := CInt 1; "SiteName" := CStr "Pit";
                  "CountryID" := CInt 1; "MineralID" := CInt 1;
                  "Latitude" := CInt 0; "Longitude" := CInt 0;
                  "Production_tonnes" := CInt 5 ]};
               {[ "SiteID" := CInt 2; "SiteName" := CStr "Shaft";
                  "CountryID" := CInt 2; "MineralID" := CInt 1;
                  "Latitude" := CInt 1; "Longitude" := CInt 1;
                  "Production_tonnes" := CInt 7 ]} ] |}.

Definition sites_world : World :=
  world_of (<["data/sites.csv" := two_sites]>
              (<["data/countries.csv" := one_country]> empty_tables))
    {[ "data/audit_log.csv" := Text audit_header ]}.

(** A collection whose identifiers are all missing values. *)
Definition nan_ids : DataFrame :=
  {| columns := ["ID"; "Name"];
     rows := [ {[ "ID" := CNaN; "Name" := CStr "a" ]} ] |}.

(** An entry of the registry: what one call of [add_dataset_share] puts
    on a line. *)
Record Share := {
  scope_type : string;
  scope_value : string;
  granted_by : string;
  granted_at : string
}.

Definition share_line (e : Share) : string :=
  csv_line [scope_type e; scope_value e; granted_by e; granted_at e].

(** The text of the registry: the header written when the module is
    loaded, then the line of each share, oldest first. *)
Definition registry_of (es : list Share) : string :=
  foldl (λ text e, text +:+ share_line e) shares_header es.

Definition plain_share (e : Share) : Prop :=
  plain (scope_type e) ∧ plain (scope_value e)
  ∧ plain (granted_by e) ∧ plain (granted_at e).

(** The entry is for the role or for the user. *)
Definition names (username role : string) (e : Share) : Prop :=
  names_caller username role (scope_type e) (scope_value e).


(** A registry with one share, for the user bob. *)
Definition share_with_bob : Share :=
  {| scope_type := "user"; scope_value := "bob"; granted_by := "root";
     granted_at := "2025-01-01T00:00:00" |}.

Definition bob_world : World :=
  world_of empty_tables
    {[ "data/audit_log.csv" := Text audit_header;
       "data/dataset_shares.csv" := Text (registry_of [share_with_bob]) ]}.

Definition investor_carol : Session :=
  {| logged_in := true; sess_username := Some "carol";
     sess_role := Some "Investor" |}.





(** C9, as the specification words it: after the edit the stored record
    with the identifier holds, under every field but the identifier that
    was submitted, the submitted value. *)
Definition edit_stores_submitted (rt : Runtime) (cfg : EntityCfg)
    (obj_id : Z) (req : Request) (after : World) : Prop :=
  ∃ df' r',
    tables after !! data_file rt (cfg_csv cfg) = Some df'
    ∧ r' ∈ rows df' ∧ Frame.get r' (cfg_id cfg) = CInt obj_id
    ∧ ∀ f s, f ∈ cfg_fields cfg → f ≠ cfg_id cfg →
             form req !! f = Some s → Frame.get r' f = CStr s.

(** An edit of a site that submits a new name and the longitude, and
    leaves the latitude out. *)
Definition deepen_pit : Request :=
  post [("SiteName", "Deep Pit"); ("Longitude", "0")].

(** An edit of a site that submits a new name and both coordinates. *)
Definition move_pit : Request :=
  post [("SiteName", "Deep Pit"); ("Latitude", "10"); ("Longitude", "20")].

(** An audit log of 250 entries, and one of two. *)
Fixpoint repeat_text (n : nat) (s : string) : string :=
  match n with
  | O => EmptyString
  | S n' => s +:+ repeat_text n' s
  end.

Definition login_line : string :=
  csv_line ["2024-12-31T23:59:59"; "alice"; "login_success"; "/login";
            "Successful login"].

Definition login_row : LogRow :=
  {| Timestamp := "2024-12-31T23:59:59"; Username := "alice";
     Action := "login_success"; Path := "/login";
     Details := "Successful login" |}.

Definition long_log : string := audit_header +:+ repeat_text 250 login_line.
Definition short_log : string := audit_header +:+ repeat_text 2 login_line.

(** * Properties *)

Lemma load_stored self w : load self w = (Ok (stored self w), w).
Proof. reflexivity. Qed.

Lemma getitem_ok df f :
  f ∈ columns df → Frame.getitem df f = Ok ((λ r, Frame.get r f) <$> rows df).
Proof. intros H. unfold Frame.getitem. by rewrite bool_decide_eq_true_2. Qed.

Lemma getitem_raises df f :
  f ∉ columns df → Frame.getitem df f = Raised (KeyError f).
Proof. intros H. unfold Frame.getitem. by rewrite bool_decide_eq_false_2. Qed.

Lemma delete_by_id_run self f v w :
  id_field self = Some f → f ∈ columns (stored self w) →
  delete_by_id self v w =
    (Ok (Frame.keep_ne (stored self w) f v),
     log_write (path self)
       (set_tables <[path self := Frame.keep_ne (stored self w) f v]> w)).
Proof.
  intros Hf Hc. unfold delete_by_id, mbind, M_bind. rewrite load_stored, Hf.
  unfold lift. rewrite (getitem_ok _ _ Hc). reflexivity.
Qed.

Lemma stored_after_save self df w :
  stored self (log_write (path self) (set_tables <[path self := df]> w)) = df.
Proof. unfold stored. simpl. by rewrite lookup_insert_eq. Qed.

Lemma filter_length_split {A} (p : A → bool) (l : list A) :
  length l = (length (List.filter p l) + length (List.filter (λ x, negb (p x)) l))%nat.
Proof.
  induction l as [|x l IH]; simpl; [done|].
  destruct (p x); simpl; lia.
Qed.

Lemma filter_all {A} (p : A → bool) (l : list A) :
  (∀ x, x ∈ l → p x = true) → List.filter p l = l.
Proof.
  induction l as [|x l IH]; simpl; intros H; [done|].
  rewrite (H x) by left. f_equal. apply IH. intros y Hy. apply H. by right.
Qed.

(** C10: a store built without an identifier field: [delete_by_id] hands
    back the loaded collection for every id value and leaves the world,
    its log of writes included, as it was; [next_id] is 1 whatever the
    collection holds. *)
Theorem csvstore_without_id_field (self : CSVStore) (id_value : cell) (w : World) :
  id_field self = None →
  delete_by_id self id_value w = (Ok (stored self w), w)
  ∧ next_id self w = (Ok 1, w).
Proof.
  intros H. unfold delete_by_id, next_id, mbind, M_bind.
  rewrite load_stored, H. split; reflexivity.
Qed.

Lemma csvstore_without_id_field_witness :
  let self := {| path := "t.csv"; id_field := None |} in
  delete_by_id self (CInt 2) sample_world = (Ok three_ids, sample_world)
  ∧ next_id self sample_world = (Ok 1, sample_world).
Proof.
  exact (csvstore_without_id_field {| path := "t.csv"; id_field := None |}
           (CInt 2) sample_world eq_refl).
Defined.


(** C2 fails as stated: deleting id 2 from the records 1, 2, 3 removes one
    record and hands back the frame of the two records kept, not the
    number 1. *)
Lemma delete_by_id_returns_frame :
  count_id "ID" (CInt 2) (stored sample_store sample_world) = 1%nat
  ∧ fst (delete_by_id sample_store (CInt 2) sample_world)
    = Ok {| columns := ["ID"; "Name"];
            rows := [ {[ "ID" := CInt 1; "Name" := CStr "a" ]};
                      {[ "ID" := CInt 3; "Name" := CStr "c" ]} ] |}
  ∧ ¬ delete_returns_count sample_store "ID" (CInt 2) sample_world.
Proof.
  split; [reflexivity|]. split; [vm_compute; reflexivity|].
  intros (df & w' & _ & Heq). discriminate Heq.
Qed.

(** C2, amended: for a store with identifier field [f] whose collection
    has that column, [delete_by_id] keeps, in order, exactly the records
    whose identifier differs from the id value, writes that collection to
    the backing file, and hands back the collection it wrote; the number of
    records removed is the difference of the two lengths. *)
Theorem delete_by_id_removes_matching (self : CSVStore) (f : string)
    (v : cell) (w : World) :
  id_field self = Some f → f ∈ columns (stored self w) →
  ∃ df' w',
    delete_by_id self v w = (Ok df', w')
    ∧ columns df' = columns (stored self w)
    ∧ rows df' = List.filter (λ r, negb (has_id f v r)) (rows (stored self w))
    ∧ (∀ r, r ∈ rows df' ↔ r ∈ rows (stored self w) ∧ has_id f v r = false)
    ∧ tables w' = <[path self := df']> (tables w)
    ∧ stored self w' = df'
    ∧ written w' = (written w ++ [path self])%list
    ∧ (length (rows (stored self w)) =
         count_id f v (stored self w) + length (rows df'))%nat.
Proof.
  intros Hf Hc. eexists _, _. split; [apply (delete_by_id_run _ _ _ _ Hf Hc)|].
  split; [done|]. split; [done|]. split.
  { intros r. simpl. rewrite !list_elem_of_In, filter_In, negb_true_iff. done. }
  split; [done|]. split; [apply stored_after_save|]. split; [done|].
  unfold count_id. simpl. apply filter_length_split.
Qed.

Lemma delete_by_id_removes_matching_witness :
  ∃ df' w',
    delete_by_id sample_store (CInt 2) sample_world = (Ok df', w')
    ∧ columns df' = columns (stored sample_store sample_world)
    ∧ rows df' = List.filter (λ r, negb (has_id "ID" (CInt 2) r))
                   (rows (stored sample_store sample_world))
    ∧ (∀ r, r ∈ rows df' ↔ r ∈ rows (stored sample_store sample_world)
                            ∧ has_id "ID" (CInt 2) r = false)
    ∧ tables w' = <[path sample_store := df']> (tables sample_world)
    ∧ stored sample_store w' = df'
    ∧ written w' = (written sample_world ++ [path sample_store])%list
    ∧ (length (rows (stored sample_store sample_world)) =
         count_id "ID" (CInt 2) (stored sample_store sample_world)
         + length (rows df'))%nat.
Proof.
  apply (delete_by_id_removes_matching sample_store "ID" (CInt 2) sample_world).
  - reflexivity.
  - vm_compute. left.
Defined.




(** *** The maximum of an integer column *)

Lemma max_acc_ints (ids : list Z) (m0 : Z) :
  ∃ m, Frame.max_acc (CInt <$> ids) (Some m0) = Ok (Some m)
       ∧ (m = m0 ∨ m ∈ ids) ∧ m0 ≤ m ∧ Forall (λ z, z ≤ m) ids.
Proof.
  revert m0. induction ids as [|z ids IH]; intros m0; simpl.
  - exists m0. repeat split; [by left | lia | constructor].
  - destruct (IH (Z.max m0 z)) as (m & Hrun & Hin & Hle & Hall).
    exists m. split; [done|]. split; [|split; [lia|]].
    + destruct Hin as [->|Hin]; [|right; by right].
      destruct (Z.max_spec m0 z) as [[_ ->]|[_ ->]]; [right; left | by left].
    + constructor; [lia | done].
Qed.

Lemma int_max_ints (z : Z) (ids : list Z) :
  ∃ m, Frame.int_max (CInt <$> (z :: ids)) = Ok m
       ∧ m ∈ z :: ids ∧ Forall (λ i, i ≤ m) (z :: ids).
Proof.
  unfold Frame.int_max.
  change (Frame.max_acc (CInt <$> z :: ids) None)
    with (Frame.max_acc (CInt <$> ids) (Some z)).
  destruct (max_acc_ints ids z) as (m & -> & Hin & Hle & Hall).
  exists m. split; [done|]. split.
  - destruct Hin as [->|Hin]; [left | by right].
  - by constructor.
Qed.

Lemma wf_ids_column f df :
  wf_ids f df → ∃ ids, (λ r, Frame.get r f) <$> rows df = CInt <$> ids
                       ∧ length ids = length (rows df).
Proof.
  intros [_ H]. induction H as [|r rs [z Hz] _ (ids & IH & Hlen)].
  - by exists [].
  - exists (z :: ids). rewrite !fmap_cons, Hz, IH. simpl. by rewrite Hlen.
Qed.

Lemma empty_false df f :
  f ∈ columns df → rows df ≠ [] → Frame.empty df = false.
Proof.
  unfold Frame.empty. destruct (columns df), (rows df); try done.
  intros H. by apply elem_of_nil in H.
Qed.

Lemma empty_no_rows df : rows df = [] → Frame.empty df = true.
Proof. unfold Frame.empty. intros ->. by destruct (columns df). Qed.

Lemma next_id_empty self w :
  rows (stored self w) = [] → next_id self w = (Ok 1, w).
Proof.
  intros H. unfold next_id, mbind, M_bind. rewrite load_stored.
  destruct (id_field self) as [f|]; [|done].
  rewrite (empty_no_rows _ H), andb_false_r. done.
Qed.

Lemma next_id_ints self f w z ids :
  id_field self = Some f → f ≠ "" → f ∈ columns (stored self w) →
  (λ r, Frame.get r f) <$> rows (stored self w) = CInt <$> (z :: ids) →
  ∃ m, next_id self w = (Ok (m + 1), w)
       ∧ m ∈ z :: ids ∧ Forall (λ i, i ≤ m) (z :: ids).
Proof.
  intros Hf Hne Hc Hcol.
  destruct (int_max_ints z ids) as (m & Hm & Hin & Hall).
  exists m. split; [|done].
  unfold next_id, mbind, M_bind. rewrite load_stored, Hf.
  assert (String.eqb f "" = false) as -> by by apply String.eqb_neq.
  rewrite (empty_false _ f Hc).
  2:{ intros E. rewrite E in Hcol. discriminate Hcol. }
  simpl. unfold lift. rewrite (getitem_ok _ _ Hc), Hcol, Hm. done.
Qed.

(** *** Appending keeps the identifier column well formed *)

Lemma get_align cols d c :
  c ∈ cols → Frame.get (Frame.align cols d) c = default CNaN (d !! c).
Proof.
  unfold Frame.get, Frame.align. induction cols as [|x cols IH]; intros H.
  - by apply elem_of_nil in H.
  - simpl. destruct (decide (x = c)) as [->|Hne].
    + by rewrite lookup_insert_eq.
    + rewrite lookup_insert_ne by done. apply IH.
      apply elem_of_cons in H as [->|H]; done.
Qed.

Lemma append_row_run self row w :
  columns (stored self w) ≠ [] →
  let df' := {| columns := columns (stored self w);
                rows := (rows (stored self w)
                         ++ [Frame.align (columns (stored self w)) row])%list |} in
  append_row self row w
  = (Ok df', log_write (path self) (set_tables <[path self := df']> w)).
Proof.
  intros Hc. unfold append_row, mbind, M_bind. rewrite load_stored.
  unfold lift, Frame.loc_append. destruct (columns (stored self w)); done.
Qed.

Lemma run_op_wf self f op assigned w :
  id_field self = Some f → f ≠ "" → wf_ids f (stored self w) →
  ∃ a' w', run_op self f op assigned w = (Ok a', w') ∧ wf_ids f (stored self w').
Proof.
  intros Hf Hne Hwf. destruct op as [fields|v]; simpl.
  - assert (∃ n, next_id self w = (Ok n, w)) as [n Hn].
    { destruct (rows (stored self w)) as [|r rs] eqn:E.
      - eexists. by apply next_id_empty.
      - destruct (wf_ids_column _ _ Hwf) as (ids & Hids & Hlen).
        rewrite E in Hlen. destruct ids as [|z ids]; [done|].
        destruct (next_id_ints self f w z ids Hf Hne) as (m & Hm & _);
          [apply Hwf | done | eauto]. }
    unfold mbind, M_bind. rewrite Hn.
    assert (columns (stored self w) ≠ []) as Hc.
    { destruct Hwf as [Hin _]. intros E. rewrite E in Hin.
      by apply elem_of_nil in Hin. }
    rewrite (append_row_run _ _ _ Hc). eexists _, _. split; [done|].
    rewrite stored_after_save. destruct Hwf as [Hin Hall]. split; [done|]. simpl.
    apply Forall_app. split; [done|]. constructor; [|constructor].
    exists n. rewrite (get_align _ _ _ Hin), lookup_insert_eq. done.
  - unfold mbind, M_bind.
    rewrite (delete_by_id_run _ _ _ _ Hf (proj1 Hwf)). eexists _, _.
    split; [done|]. rewrite stored_after_save. destruct Hwf as [Hin Hall].
    split; [done|]. simpl. clear -Hall.
    induction Hall as [|r rs Hr _ IH]; simpl; [constructor|].
    destruct (negb _); [by constructor | done].
Qed.

Lemma run_ops_wf self f ops assigned w :
  id_field self = Some f → f ≠ "" → wf_ids f (stored self w) →
  ∃ a' w', run_ops self f ops assigned w = (Ok a', w') ∧ wf_ids f (stored self w').
Proof.
  intros Hf Hne. revert assigned w.
  induction ops as [|op ops IH]; intros assigned w Hwf; simpl.
  - by eexists _, _.
  - destruct (run_op_wf self f op assigned w Hf Hne Hwf) as (a1 & w1 & H1 & Hwf1).
    unfold mbind, M_bind. rewrite H1. apply IH, Hwf1.
Qed.

Lemma run_ops_app self f ops1 ops2 assigned w a1 w1 :
  run_ops self f ops1 assigned w = (Ok a1, w1) →
  run_ops self f (ops1 ++ ops2)%list assigned w = run_ops self f ops2 a1 w1.
Proof.
  revert assigned w. induction ops1 as [|op ops1 IH]; intros assigned w; simpl.
  - by intros [= -> ->].
  - unfold mbind, M_bind. destruct (run_op self f op assigned w) as [[a|e] w2].
    + apply IH.
    + done.
Qed.

(** C7 fails as stated: after two appends (ids 1 and 2), the deletion of
    both records and one more append (id 1 again), [next_id] is 2, an
    identifier that was assigned before. *)
Lemma next_id_reissues_deleted_ids :
  fst (run_ops sample_store "ID" reuse_ops [] fresh_world) = Ok [1; 2; 1]
  ∧ fst (next_id sample_store
           (snd (run_ops sample_store "ID" reuse_ops [] fresh_world))) = Ok 2
  ∧ ¬ next_id_exceeds_assigned sample_store "ID" reuse_ops fresh_world.
Proof.
  pose (r := run_ops sample_store "ID" reuse_ops [] fresh_world).
  assert (fst r = Ok [1; 2; 1]) as Ha by (vm_compute; reflexivity).
  assert (next_id sample_store (snd r) = (Ok 2, snd r)) as Hn
    by (vm_compute; reflexivity).
  split; [exact Ha|]. split; [fold r; by rewrite Hn|].
  intros H.
  specialize (H [1; 2; 1] (snd r) 2).
  assert (Forall (λ z, z < 2) [1; 2; 1]) as Hall.
  { apply H; [|done]. fold r. destruct r as [a w']. simpl in Ha. by subst. }
  inversion Hall as [|? ? _ Hall']. inversion Hall' as [|? ? Hlt _]. lia.
Qed.

(** C7, amended: for a store whose identifier column holds integers, after
    any sequence of appends and deletes that ends in an append, every
    caller's operation succeeds and [next_id] is strictly greater than the
    identifier of every record the collection holds at that point (an
    identifier whose record was deleted may be issued again). *)
Theorem next_id_exceeds_stored (self : CSVStore) (f : string)
    (ops : list store_op) (fields : gmap string cell) (w : World) :
  id_field self = Some f → f ≠ "" → wf_ids f (stored self w) →
  ∃ assigned w' n,
    run_ops self f (ops ++ [Append fields])%list [] w = (Ok assigned, w')
    ∧ next_id self w' = (Ok n, w')
    ∧ rows (stored self w') ≠ []
    ∧ ∀ r, r ∈ rows (stored self w') → ∃ z, Frame.get r f = CInt z ∧ z < n.
Proof.
  intros Hf Hne Hwf.
  destruct (run_ops_wf self f (ops ++ [Append fields])%list [] w Hf Hne Hwf)
    as (a & w' & Hrun & Hwf').
  assert (rows (stored self w') ≠ []) as Hrows.
  { destruct (run_ops_wf self f ops [] w Hf Hne Hwf) as (a1 & w1 & H1 & Hwf1).
    rewrite (run_ops_app _ _ _ _ _ _ _ _ H1) in Hrun. simpl in Hrun.
    unfold mbind, M_bind in Hrun.
    destruct (next_id self w1) as [[n1|e] w2] eqn:E1; [|done].
    assert (w2 = w1) as ->.
    { revert E1. unfold next_id, mbind, M_bind. rewrite load_stored.
      destruct (id_field self); [|by intros [= _ ->]].
      destruct (_ && _); [|by intros [= _ ->]].
      unfold lift. destruct (Frame.getitem _ _); [|by intros [=]].
      destruct (Frame.int_max _); by intros [=]. }
    assert (columns (stored self w1) ≠ []) as Hc.
    { destruct Hwf1 as [Hin _]. intros E. rewrite E in Hin.
      by apply elem_of_nil in Hin. }
    rewrite (append_row_run _ _ _ Hc) in Hrun. simpl in Hrun.
    injection Hrun as _ <-. rewrite stored_after_save. simpl.
    by destruct (rows (stored self w1)). }
  destruct (wf_ids_column _ _ Hwf') as (ids & Hids & Hlen).
  destruct ids as [|z ids].
  { destruct (rows (stored self w')); done. }
  destruct (next_id_ints self f w' z ids Hf Hne (proj1 Hwf') Hids)
    as (m & Hm & _ & Hall).
  exists a, w', (m + 1). split; [done|]. split; [done|]. split; [done|].
  intros r Hr. apply list_elem_of_lookup in Hr as [i Hi].
  assert (((λ r, Frame.get r f) <$> rows (stored self w')) !! i
          = Some (Frame.get r f)) as Hg by by rewrite list_lookup_fmap, Hi.
  rewrite Hids, list_lookup_fmap in Hg.
  destruct ((z :: ids) !! i) as [zi|] eqn:Ez; [|done].
  injection Hg as Hg. exists zi. split; [done|].
  rewrite Forall_forall in Hall.
  assert (zi ≤ m) by (apply Hall, list_elem_of_lookup; eauto). lia.
Qed.

Lemma next_id_exceeds_stored_witness :
  ∃ assigned w' n,
    run_ops sample_store "ID" ([Delete 2] ++ [Append ∅])%list [] sample_world
    = (Ok assigned, w')
    ∧ next_id sample_store w' = (Ok n, w')
    ∧ rows (stored sample_store w') ≠ []
    ∧ ∀ r, r ∈ rows (stored sample_store w') →
           ∃ z, Frame.get r "ID" = CInt z ∧ z < n.
Proof.
  apply (next_id_exceeds_stored sample_store "ID" [Delete 2] ∅ sample_world).
  - reflexivity.
  - discriminate.
  - split; [vm_compute; left|].
    repeat constructor; eexists; vm_compute; reflexivity.
Defined.

(** *** Running a computation step by step *)

Lemma bind_run {A B} (m : M A) (k : A → M B) w a w1 :
  m w = (Ok a, w1) → (m ≫= k) w = k a w1.
Proof. intros H. unfold mbind, M_bind. by rewrite H. Qed.

Lemma bind_raised {A B} (m : M A) (k : A → M B) w e w1 :
  m w = (Raised e, w1) → (m ≫= k) w = (Raised e, w1).
Proof. intros H. unfold mbind, M_bind. by rewrite H. Qed.

Lemma lift_run {A} (r : result A) w : lift r w = (r, w).
Proof. reflexivity. Qed.

(** *** Effects of the handlers' building blocks *)


Lemma keeps_tables_ret {A} (a : A) : keeps_tables (mret a).
Proof. by intros w. Qed.

Lemma keeps_tables_bind {A B} (m : M A) (k : A → M B) :
  keeps_tables m → (∀ a, keeps_tables (k a)) → keeps_tables (m ≫= k).
Proof.
  intros Hm Hk w. unfold mbind, M_bind. specialize (Hm w).
  destruct (m w) as [[a|e] w1]; simpl in *; [|done].
  by rewrite Hk.
Qed.

Lemma keeps_tables_read_csv p : keeps_tables (read_csv p).
Proof. intros w. unfold read_csv. by destruct (tables w !! p). Qed.

Lemma keeps_tables_modify f :
  (∀ w, tables (f w) = tables w) → keeps_tables (modify f).
Proof. intros H w. apply H. Qed.

Lemma keeps_tables_flash m c : keeps_tables (flash m c).
Proof. by apply keeps_tables_modify. Qed.

Lemma keeps_tables_append_text p s : keeps_tables (append_text p s).
Proof. by intros w. Qed.

Create HintDb frame_db.
#[local] Hint Resolve keeps_tables_ret keeps_tables_read_csv keeps_tables_flash
  keeps_tables_append_text : frame_db.

#[local] Ltac keeps_tables :=
  repeat first
    [ apply keeps_tables_bind; [|intros ?]
    | apply keeps_tables_modify; intros ?; reflexivity
    | solve [auto with frame_db] ].

Lemma keeps_tables_reload rt : keeps_tables (reload_all_data rt).
Proof. unfold reload_all_data. keeps_tables. Qed.

Lemma keeps_tables_log_event rt u a p d : keeps_tables (log_event rt u a p d).
Proof.
  unfold log_event. apply keeps_tables_bind; [by intros w|].
  intros ts. apply keeps_tables_append_text.
Qed.

#[local] Hint Resolve keeps_tables_reload keeps_tables_log_event : frame_db.

Lemma admin_gate (f : View) sess req :
  logged_in sess = true → sess_role sess = Some "Administrator" →
  admin_required f sess req = f sess req.
Proof.
  intros Hl Hr. unfold admin_required. rewrite Hl, Hr. reflexivity.
Qed.

Lemma load_entity_df_run rt entity cfg w :
  ENTITIES !! entity = Some cfg →
  load_entity_df rt entity w
  = (Ok (default empty_frame (tables w !! data_file rt (cfg_csv cfg))), w).
Proof. intros H. unfold load_entity_df. by rewrite H. Qed.

(** *** The field loop of an edit *)

Lemma at_get_ok df idx f r :
  f ∈ columns df → rows df !! idx = Some r →
  Frame.at_get df idx f = Ok (Frame.get r f).
Proof.
  intros Hc Hr. unfold Frame.at_get. by rewrite bool_decide_eq_true_2, Hr.
Qed.


Lemma edit_fields_spec key idx req fs : ∀ df r,
  (∀ f, f ∈ fs → f ≠ key → f ∈ columns df) →
  rows df !! idx = Some r →
  ∃ df' r',
    edit_fields key idx req fs df = Ok df'
    ∧ columns df' = columns df
    ∧ length (rows df') = length (rows df)
    ∧ rows df' !! idx = Some r'
    ∧ (∀ j, j ≠ idx → rows df' !! j = rows df !! j)
    ∧ (∀ c, r' !! c = edited_cell key req fs r c).
Proof.
  induction fs as [|f fs IH]; intros df r Hcols Hr; simpl.
  - exists df, r. do 5 (split; [done|]).
    intros c. unfold edited_cell. rewrite bool_decide_eq_false_2; [done|].
    intros [H _]. by apply elem_of_nil in H.
  - destruct (String.eqb f key) eqn:Ek.
    + apply String.eqb_eq in Ek as ->.
      destruct (IH df r) as (df' & r' & H1 & H2 & H3 & H4 & H5 & H6);
        [intros; apply Hcols; [by right | done] | done |].
      exists df', r'. repeat split; try done.
      intros c. rewrite H6. unfold edited_cell.
      destruct (decide (c ∈ fs ∧ c ≠ key)) as [[? ?]|Hn].
      * rewrite !bool_decide_eq_true_2; [done | by split; [right|] | done].
      * rewrite !bool_decide_eq_false_2; [done | | done].
        intros [Hin Hne]. apply Hn. split; [|done].
        apply elem_of_cons in Hin as [->|]; done.
    + apply String.eqb_neq in Ek.
      rewrite (at_get_ok df idx f r); [|apply Hcols; [by left | done] | done].
      set (v := match form req !! f with
                | Some s => CStr s | None => Frame.get r f end).
      destruct (IH (Frame.at_set df idx f v) (<[f := v]> r))
        as (df' & r' & H1 & H2 & H3 & H4 & H5 & H6).
      { intros g Hg Hne. simpl. apply Hcols; [by right | done]. }
      { simpl. by rewrite list_lookup_alter_eq, Hr. }
      exists df', r'. split; [done|]. split; [done|].
      split; [by rewrite H3; simpl; rewrite length_alter|].
      split; [done|]. split.
      { intros j Hj. rewrite (H5 j Hj). simpl.
        by rewrite list_lookup_alter_ne. }
      intros c. rewrite H6. unfold edited_cell.
      destruct (decide (c = f)) as [->|Hcf].
      * rewrite (bool_decide_eq_true_2 (f ∈ f :: fs ∧ f ≠ key));
          [|by split; [left|]].
        case_bool_decide as Hin.
        -- unfold Frame.get. rewrite lookup_insert_eq. simpl.
           subst v. by destruct (form req !! f).
        -- by rewrite lookup_insert_eq.
      * rewrite lookup_insert_ne by done.
        unfold Frame.get. rewrite lookup_insert_ne by done.
        destruct (decide (c ∈ fs ∧ c ≠ key)) as [[? ?]|Hn].
        -- rewrite !bool_decide_eq_true_2; [done | by split; [right|] | done].
        -- rewrite !bool_decide_eq_false_2; [done | | done].
           intros [Hin Hne]. apply Hn. split; [|done].
           apply elem_of_cons in Hin as [->|]; done.
Qed.

Lemma first_index_lookup col v rs idx :
  Frame.first_index col v rs = Some idx →
  ∃ r, rs !! idx = Some r ∧ cell_eqb (Frame.get r col) v = true
       ∧ ∀ j r', (j < idx)%nat → rs !! j = Some r' →
                 cell_eqb (Frame.get r' col) v = false.
Proof.
  revert idx. induction rs as [|r rs IH]; intros idx; simpl; [done|].
  destruct (cell_eqb (Frame.get r col) v) eqn:E.
  - intros [= <-]. exists r. repeat split; [done|]. intros j r' Hj. lia.
  - destruct (Frame.first_index col v rs) as [i|]; [|done].
    intros [= <-]. destruct (IH i eq_refl) as (r0 & H1 & H2 & H3).
    exists r0. repeat split; [done..|].
    intros [|j] r' Hj; simpl; [by intros [= <-]|].
    apply H3. lia.
Qed.

Section Handlers.

Variable rt : Runtime.

(** What follows the [save_csv] of a successful write leaves the CSV
    files alone. *)
Lemma after_save_keeps_tables {A} (k : M A) df p w :
  keeps_tables k →
  tables (snd ((save_csv df p ≫= λ _, k) w)) = <[p := df]> (tables w).
Proof.
  intros Hk. unfold mbind, M_bind, save_csv, modify. by rewrite Hk.
Qed.

(** C9: an accepted edit of the record with identifier [obj_id] (the
    first one, at position [idx]) stores, under every non-identifier
    field of the entity, the submitted text, or the cell the record had
    when the form lacks the field; the identifier cell, the cells of
    columns outside the entity's fields and every other record stay as
    they were. *)
Theorem admin_edit_overwrites (entity : string) (cfg : EntityCfg)
    (obj_id : Z) (sess : Session) (req : Request) (w : World)
    (df : DataFrame) (idx : nat) :
  ENTITIES !! entity = Some cfg →
  logged_in sess = true → sess_role sess = Some "Administrator" →
  method req = "POST" →
  tables w !! data_file rt (cfg_csv cfg) = Some df →
  (∀ f, f ∈ cfg_id cfg :: cfg_fields cfg → f ∈ columns df) →
  Frame.first_index (cfg_id cfg) (CInt obj_id) (rows df) = Some idx →
  validate rt cfg req = [] →
  ∃ df' r r',
    tables (snd (admin_entity_edit rt entity obj_id sess req w))
    = <[data_file rt (cfg_csv cfg) := df']> (tables w)
    ∧ columns df' = columns df
    ∧ length (rows df') = length (rows df)
    ∧ rows df !! idx = Some r ∧ rows df' !! idx = Some r'
    ∧ Frame.get r (cfg_id cfg) = CInt obj_id
    ∧ (∀ f, f ∈ cfg_fields cfg → f ≠ cfg_id cfg →
         r' !! f = Some (match form req !! f with
                         | Some s => CStr s
                         | None => Frame.get r f
                         end))
    ∧ r' !! cfg_id cfg = r !! cfg_id cfg
    ∧ (∀ c, c ∉ cfg_fields cfg → r' !! c = r !! c)
    ∧ (∀ j, j ≠ idx → rows df' !! j = rows df !! j).
Proof.
  intros Hent Hl Hr Hpost Hdf Hcols Hidx Hval.
  destruct (first_index_lookup _ _ _ _ Hidx) as (r & Hrow & Hid & _).
  destruct (edit_fields_spec (cfg_id cfg) idx req (cfg_fields cfg) df r)
    as (df' & r' & H1 & H2 & H3 & H4 & H5 & H6);
    [intros; apply Hcols; by right | done |].
  exists df', r, r'.
  split.
  { unfold admin_entity_edit. rewrite admin_gate by done. rewrite Hent.
    erewrite bind_run by (by apply load_entity_df_run).
    rewrite Hdf. simpl default.
    erewrite bind_run
      by (rewrite lift_run, getitem_ok; [done | apply Hcols; by left]).
    rewrite Hidx, Hpost, String.eqb_refl.
    erewrite bind_run by (by rewrite lift_run, H1).
    cbv zeta. rewrite Hval.
    apply after_save_keeps_tables. keeps_tables. }
  split; [done|]. split; [done|]. split; [done|]. split; [done|].
  split.
  { destruct (Frame.get r (cfg_id cfg)) as [z| |]; try done.
    simpl in Hid. apply Z.eqb_eq in Hid. by subst. }
  split.
  { intros f Hf Hne. rewrite H6. unfold edited_cell.
    by rewrite bool_decide_eq_true_2. }
  split.
  { rewrite H6. unfold edited_cell. rewrite bool_decide_eq_false_2; [done|].
    by intros [_ ?]. }
  split; [|done].
  intros c Hc. rewrite H6. unfold edited_cell.
  rewrite bool_decide_eq_false_2; [done|]. by intros [? _].
Qed.

End Handlers.

Section Validation.

Variable rt : Runtime.

Lemma validate_sites_nil req :
  validate rt sites_cfg req = [] ↔
  latitude_ok rt req = true ∧ longitude_ok rt req = true
  ∧ production_value rt req ≠ None ∧ production_negative rt req = false.
Proof.
  unfold validate, check_latitude, check_longitude, check_production,
    latitude_ok, longitude_ok, production_negative. simpl String.eqb. cbv iota.
  destruct (py_float rt (form_get req "Latitude")) as [lat|];
    [destruct (_ && _)|];
  (destruct (py_float rt (form_get req "Longitude")) as [lon|];
    [destruct (_ && _)|]);
  (destruct (production_value rt req) as [p|]; [destruct (SFltb _ _)|]);
  simpl; split; try done; intros (? & ? & ? & ?); done.
Qed.

Lemma validate_other cfg req :
  cfg_csv cfg ≠ "sites.csv" → validate rt cfg req = [].
Proof.
  intros H. unfold validate.
  by destruct (String.eqb_spec (cfg_csv cfg) "sites.csv").
Qed.

Lemma load_selects_run sel w :
  ∃ m, load_selects rt sel w = (Ok m, w).
Proof.
  induction sel as [|[k [[ent a] b]] sel [m IH]]; simpl.
  - by eexists.
  - unfold mbind, M_bind, load_csv, gets. rewrite IH. by eexists.
Qed.

Lemma session_role_run sess w r :
  sess_role sess = Some r → session_role sess w = (Ok r, w).
Proof. intros H. unfold session_role. by rewrite H. Qed.


Lemma new_id_of_pure cfg df w :
  ∃ r, new_id_of cfg df w = (r, w).
Proof.
  unfold new_id_of. destruct (negb _); [|by eexists].
  unfold mbind, M_bind, lift.
  destruct (Frame.getitem _ _); [|by eexists].
  destruct (Frame.int_max _); by eexists.
Qed.

Lemma new_id_of_ok cfg df w :
  rows df = [] ∨ wf_ids (cfg_id cfg) df →
  ∃ n, new_id_of cfg df w = (Ok n, w).
Proof.
  intros Hdf. unfold new_id_of. destruct (rows df) as [|r rs] eqn:E.
  - rewrite (empty_no_rows _ E). by eexists.
  - destruct Hdf as [|Hwf]; [done|].
    rewrite (empty_false _ _ (proj1 Hwf)) by by rewrite E.
    destruct (wf_ids_column _ _ Hwf) as ([|z ids] & Hids & Hlen);
      [by rewrite E in Hlen|].
    destruct (int_max_ints z ids) as (m & Hm & _).
    unfold mbind, M_bind, lift. rewrite (getitem_ok _ _ (proj1 Hwf)).
    rewrite Hids, Hm. by eexists.
Qed.

(** The page shown again after a failed validation. *)
Lemma error_page_run cfg sess title item entity req errs w :
  sess_role sess = Some "Administrator" →
  ∃ page,
    (load_selects rt (cfg_selects cfg) ≫= λ selects,
     session_role sess ≫= λ role,
     mret (Render {| template := "admin_edit_generic.html";
                     page_role := role;
                     page_title := title;
                     page_fields := fields_but_id cfg;
                     page_item := item;
                     base_endpoint := entity;
                     select_options := selects;
                     page_form := Some (form req);
                     page_errors := Some errs |})) w
    = (Ok (Render page), w)
    ∧ page_errors page = Some errs ∧ page_form page = Some (form req).
Proof.
  intros Hr. destruct (load_selects_run (cfg_selects cfg) w) as [m Hm].
  erewrite bind_run by done.
  erewrite bind_run by (by apply session_role_run).
  by eexists.
Qed.

(** An add that fails validation: the world stays as it was, and on a
    collection that is empty or has an integer identifier column the
    answer is the form with the error list. *)
Lemma add_invalid entity cfg sess req w :
  ENTITIES !! entity = Some cfg →
  logged_in sess = true → sess_role sess = Some "Administrator" →
  method req = "POST" → validate rt cfg req ≠ [] →
  let df := default empty_frame (tables w !! data_file rt (cfg_csv cfg)) in
  snd (admin_entity_add rt entity sess req w) = w
  ∧ (rows df = [] ∨ wf_ids (cfg_id cfg) df →
     ∃ page, fst (admin_entity_add rt entity sess req w) = Ok (Render page)
             ∧ page_errors page = Some (validate rt cfg req)
             ∧ page_form page = Some (form req)).
Proof.
  intros Hent Hl Hr Hpost Hval df. unfold admin_entity_add.
  rewrite admin_gate by done. rewrite Hent.
  erewrite bind_run by (by apply load_entity_df_run).
  fold df. rewrite Hpost, String.eqb_refl.
  change (if negb (Frame.empty df) then _ else _) with (new_id_of cfg df).
  destruct (validate rt cfg req) as [|e es] eqn:Ev; [done|].
  split.
  - destruct (new_id_of_pure cfg df w) as [[n|ex] Hn].
    + erewrite bind_run by done. cbv beta iota zeta.
      edestruct error_page_run as (page & -> & _); done.
    + by erewrite bind_raised by done.
  - intros Hdf. destruct (new_id_of_ok cfg df w Hdf) as [n Hn].
    erewrite bind_run by done. cbv beta iota zeta.
    edestruct error_page_run as (page & -> & ? & ?); [done|]. by eexists.
Qed.

(** An edit that fails validation: the files stay as they were, and for
    an existing record of a collection that has the entity's columns
    the world stays as it was and the answer is the form with the error
    list. *)
Lemma edit_invalid entity cfg obj_id sess req w :
  ENTITIES !! entity = Some cfg →
  logged_in sess = true → sess_role sess = Some "Administrator" →
  method req = "POST" → validate rt cfg req ≠ [] →
  let w' := snd (admin_entity_edit rt entity obj_id sess req w) in
  (tables w' = tables w ∧ texts w' = texts w ∧ written w' = written w)
  ∧ (∀ df idx,
       tables w !! data_file rt (cfg_csv cfg) = Some df →
       (∀ f, f ∈ cfg_id cfg :: cfg_fields cfg → f ∈ columns df) →
       Frame.first_index (cfg_id cfg) (CInt obj_id) (rows df) = Some idx →
       ∃ page,
         admin_entity_edit rt entity obj_id sess req w = (Ok (Render page), w)
         ∧ page_errors page = Some (validate rt cfg req)
         ∧ page_form page = Some (form req)).
Proof.
  intros Hent Hl Hr Hpost Hval. unfold admin_entity_edit.
  rewrite admin_gate by done. rewrite Hent.
  erewrite bind_run by (by apply load_entity_df_run).
  set (df0 := default empty_frame _).
  destruct (validate rt cfg req) as [|e es] eqn:Ev; [done|].
  split.
  - destruct (Frame.getitem df0 (cfg_id cfg)) as [col|ex] eqn:Eg.
    2:{ by erewrite bind_raised by apply lift_run. }
    erewrite bind_run by apply lift_run.
    destruct (Frame.first_index _ _ _) as [idx|]; [|done].
    rewrite Hpost, String.eqb_refl.
    destruct (edit_fields (cfg_id cfg) idx req (cfg_fields cfg) df0)
      as [df'|ex] eqn:Ee.
    2:{ by erewrite bind_raised by apply lift_run. }
    erewrite bind_run by apply lift_run.
    cbv beta iota zeta.
    edestruct error_page_run as (page & -> & _); done.
  - intros df idx Hdf Hcols Hidx. subst df0. rewrite Hdf. simpl default.
    destruct (first_index_lookup _ _ _ _ Hidx) as (r & Hrow & _).
    destruct (edit_fields_spec (cfg_id cfg) idx req (cfg_fields cfg) df r)
      as (df' & r' & H1 & _); [intros; apply Hcols; by right | done |].
    erewrite bind_run
      by (rewrite lift_run, getitem_ok; [done | apply Hcols; by left]).
    rewrite Hidx, Hpost, String.eqb_refl.
    erewrite bind_run by (by rewrite lift_run, H1).
    cbv beta iota zeta.
    edestruct error_page_run as (page & -> & ? & ?); [done|]. by eexists.
Qed.

End Validation.

(** C1 fails as stated: no validator runs on a ProductionStat write; an
    add with [Production_tonnes = -5] violates [Production_tonnes >= 0]
    and is stored. *)
Lemma production_add_skips_validation :
  production_ok sample_runtime negative_stat = false
  ∧ (λ r, Frame.get r "Production_tonnes")
      <$> rows (default empty_frame
                  (tables (snd (admin_entity_add sample_runtime "production"
                                  admin_session negative_stat demo_world))
                   !! "data/production_stats.csv"))
    = [CStr "-5"]
  ∧ ¬ production_writes_validated sample_runtime.
Proof.
  split; [vm_compute; reflexivity|]. split; [vm_compute; reflexivity|].
  intros H.
  specialize (H admin_session negative_stat demo_world eq_refl eq_refl eq_refl).
  unfold add_rejected in H.
  assert (production_ok sample_runtime negative_stat = false) as Hv
    by (vm_compute; reflexivity).
  apply H in Hv.
  apply (f_equal (λ t, length (rows (default empty_frame
                                       (t !! "data/production_stats.csv")))))
    in Hv.
  vm_compute in Hv. discriminate Hv.
Qed.

(** C1, amended: the validator runs on every Site write.  A Site add or
    edit whose Latitude or Longitude does not parse or lies outside its
    range, or whose Production_tonnes does not parse or is negative, gets
    a non-empty error list, writes no file, and (on a well-formed
    collection) is answered with the form and that list.  A ProductionStat
    write gets no validation. *)
Theorem site_writes_validated (rt : Runtime) (sess : Session) (req : Request)
    (w : World) (obj_id : Z) :
  logged_in sess = true → sess_role sess = Some "Administrator" →
  method req = "POST" →
  latitude_ok rt req = false ∨ longitude_ok rt req = false
  ∨ production_value rt req = None ∨ production_negative rt req = true →
  let df := default empty_frame (tables w !! data_file rt "sites.csv") in
  let w' := snd (admin_entity_edit rt "sites" obj_id sess req w) in
  validate rt sites_cfg req ≠ []
  ∧ snd (admin_entity_add rt "sites" sess req w) = w
  ∧ (rows df = [] ∨ wf_ids "SiteID" df →
     ∃ page, fst (admin_entity_add rt "sites" sess req w) = Ok (Render page)
             ∧ page_errors page = Some (validate rt sites_cfg req)
             ∧ page_form page = Some (form req))
  ∧ (tables w' = tables w ∧ texts w' = texts w ∧ written w' = written w)
  ∧ (∀ idx,
       tables w !! data_file rt "sites.csv" = Some df →
       (∀ f, f ∈ cfg_fields sites_cfg → f ∈ columns df) →
       Frame.first_index "SiteID" (CInt obj_id) (rows df) = Some idx →
       ∃ page,
         admin_entity_edit rt "sites" obj_id sess req w = (Ok (Render page), w)
         ∧ page_errors page = Some (validate rt sites_cfg req)
         ∧ page_form page = Some (form req))
  ∧ (∀ req', validate rt production_cfg req' = []).
Proof.
  intros Hl Hr Hpost Hbad df w'.
  assert (validate rt sites_cfg req ≠ []) as Hval.
  { rewrite validate_sites_nil. intros (H1 & H2 & H3 & H4).
    destruct Hbad as [?|[?|[?|?]]]; congruence. }
  assert (ENTITIES !! "sites" = Some sites_cfg) as Hent by reflexivity.
  destruct (add_invalid rt "sites" sites_cfg sess req w Hent Hl Hr Hpost Hval)
    as [Ha1 Ha2].
  destruct (edit_invalid rt "sites" sites_cfg obj_id sess req w
              Hent Hl Hr Hpost Hval) as [He1 He2].
  split; [done|]. split; [done|]. split; [done|]. split; [done|].
  split; [|done].
  intros idx Hdf Hcols Hidx. apply (He2 df idx); [done| |done].
  intros f Hf. apply Hcols. simpl in Hf.
  apply elem_of_cons in Hf as [->|Hf]; [by left | done].
Qed.

Lemma site_writes_validated_witness :
  latitude_ok sample_runtime north_of_pole = false
  ∧ snd (admin_entity_add sample_runtime "sites" admin_session
           north_of_pole demo_world) = demo_world.
Proof.
  split; [vm_compute; reflexivity|].
  apply (site_writes_validated sample_runtime admin_session north_of_pole
           demo_world 1 eq_refl eq_refl eq_refl).
  left. vm_compute. reflexivity.
Defined.

(** C4 at its failing input: a Site add whose Production_tonnes is the
    text [nan] parses to a NaN, which is not [>= 0]; the handler finds no
    error, stores the record and redirects. *)
Lemma site_add_stores_nan_production :
  let res := admin_entity_add sample_runtime "sites" admin_session
               nan_site demo_world in
  production_value sample_runtime nan_site = Some S754_nan
  ∧ production_ok sample_runtime nan_site = false
  ∧ validate sample_runtime sites_cfg nan_site = []
  ∧ fst res = Ok (Redirect "/admin/sites")
  ∧ (λ r, (Frame.get r "SiteID", Frame.get r "Production_tonnes"))
      <$> rows (default empty_frame (tables (snd res) !! "data/sites.csv"))
    = [(CInt 1, CStr "nan")]
  ∧ written (snd res) = ["data/sites.csv"; "data/audit_log.csv"].
Proof. vm_compute. repeat split; reflexivity. Qed.

(** C6: for a store with an identifier field, [next_id] is 1 on a
    collection without records and one more than the largest stored
    identifier otherwise; and starting from an empty Country collection,
    adding Testland and then Otherland stores them in that order with
    CountryID 1 and 2. *)
Theorem next_id_and_country_scenario :
  (∀ (self : CSVStore) (f : string) (w : World),
     id_field self = Some f → f ≠ "" →
     (rows (stored self w) = [] → next_id self w = (Ok 1, w))
     ∧ (∀ z ids,
          f ∈ columns (stored self w) →
          (λ r, Frame.get r f) <$> rows (stored self w) = CInt <$> (z :: ids) →
          ∃ m, next_id self w = (Ok (m + 1), w)
               ∧ m ∈ z :: ids ∧ Forall (λ i, i ≤ m) (z :: ids)))
  ∧ (let r1 := admin_entity_add sample_runtime "countries" admin_session
                 testland demo_world in
     let r2 := admin_entity_add sample_runtime "countries" admin_session
                 otherland (snd r1) in
     country_ids_names demo_world = []
     ∧ fst r1 = Ok (Redirect "/admin/countries")
     ∧ country_ids_names (snd r1) = [(CInt 1, CStr "Testland")]
     ∧ fst r2 = Ok (Redirect "/admin/countries")
     ∧ country_ids_names (snd r2)
       = [(CInt 1, CStr "Testland"); (CInt 2, CStr "Otherland")]).
Proof.
  split.
  - intros self f w Hf Hne. split.
    + apply next_id_empty.
    + intros z ids Hc Hcol. by apply (next_id_ints self f w z ids).
  - vm_compute. repeat split; reflexivity.
Qed.

Lemma next_id_and_country_scenario_witness :
  next_id sample_store fresh_world = (Ok 1, fresh_world)
  ∧ ∃ m, next_id sample_store sample_world = (Ok (m + 1), sample_world)
         ∧ m ∈ [1; 2; 3] ∧ Forall (λ i, i ≤ m) [1; 2; 3].
Proof.
  destruct next_id_and_country_scenario as [H _]. split.
  - apply (H sample_store "ID" fresh_world eq_refl); [discriminate | reflexivity].
  - apply (H sample_store "ID" sample_world eq_refl); [discriminate | | reflexivity].
    vm_compute. left.
Defined.

(** *** Facts about strings *)

Lemma append_cons (x : ascii) (a b : string) :
  String x a +:+ b = String x (a +:+ b).
Proof. reflexivity. Qed.

Lemma append_assoc_s (a b c : string) : (a +:+ b) +:+ c = a +:+ (b +:+ c).
Proof.
  induction a as [|x a IH]; [done|]. by rewrite !append_cons, IH.
Qed.

Lemma length_append_s (a b : string) :
  String.length (a +:+ b) = (String.length a + String.length b)%nat.
Proof.
  induction a as [|x a IH]; [done|]. rewrite append_cons. simpl. by rewrite IH.
Qed.

Lemma append_suffix_inj (x y a b : string) :
  String.length a = String.length b → x +:+ a = y +:+ b → a = b.
Proof.
  revert y. induction x as [|c x IH]; intros [|d y] Hlen H.
  - done.
  - exfalso. apply (f_equal String.length) in H.
    rewrite append_cons in H. simpl in H. rewrite !length_append_s in H.
    simpl in H. lia.
  - exfalso. apply (f_equal String.length) in H.
    rewrite append_cons in H. simpl in H. rewrite !length_append_s in H.
    simpl in H. lia.
  - rewrite !append_cons in H. injection H as _ H. by apply (IH y).
Qed.


Lemma ends_with_append suffix a b : ends_with suffix b → ends_with suffix (a +:+ b).
Proof. intros [x ->]. exists (a +:+ x). by rewrite append_assoc_s. Qed.

Lemma ends_with_clash a b s :
  String.length a = String.length b → a ≠ b → ends_with a s → ¬ ends_with b s.
Proof.
  intros Hlen Hne [x ->] [y H]. apply Hne. by apply (append_suffix_inj x y).
Qed.

Section Audit.

Variable rt : Runtime.


Lemma audit_log_suffix : ends_with "_log.csv" (AUDIT_LOG rt).
Proof.
  unfold AUDIT_LOG, data_file, PyStr.path_join.
  change (String.prefix "/" "audit_log.csv") with false. cbv iota.
  destruct (_ || _).
  - exists (DATA_DIR rt +:+ "audit"). by rewrite append_assoc_s.
  - exists (DATA_DIR rt +:+ "/audit"). by rewrite append_assoc_s.
Qed.

Lemma backup_ne_log n : backup_path rt n ≠ AUDIT_LOG rt.
Proof.
  intros H.
  apply (ends_with_clash ".bak.csv" "_log.csv" (AUDIT_LOG rt));
    [done | done | | apply audit_log_suffix].
  rewrite <- H. unfold backup_path.
  do 2 apply ends_with_append. by exists (utcnow_stamp rt n).
Qed.

Lemma try_except_ok {A} (body : M A) (h : exn → M A) w a w' :
  body w = (Ok a, w') → try_except body h w = (Ok a, w').
Proof. intros H. unfold try_except. by rewrite H. Qed.

Lemma read_text_run p s w :
  texts w !! p = Some (Text s) → read_text p w = (Ok s, w).
Proof. intros H. unfold read_text. by rewrite H. Qed.

Lemma open_r_run p x w : texts w !! p = Some x → open_r p w = (Ok tt, w).
Proof. intros H. unfold open_r. by rewrite H. Qed.

Lemma fwrite_run p s old w :
  texts w !! p = Some (Text old) →
  fwrite p s w = (Ok tt, set_texts <[p := Text (old +:+ s)]> w).
Proof.
  intros H. unfold fwrite, modify, set_texts. by rewrite H.
Qed.

Lemma append_text_run p s old w :
  texts w !! p = Some (Text old) →
  append_text p s w
  = (Ok tt, set_texts <[p := Text (old +:+ s)]> (log_write p w)).
Proof.
  intros H. unfold append_text, open_a, modify.
  erewrite bind_run by reflexivity.
  unfold fwrite, modify, set_texts, log_write. simpl. by rewrite !H.
Qed.

(** The body of the [try] of [admin_audit_clear], started right after
    the clock reading that names the backup. *)
Lemma audit_clear_body_run (sess : Session) (w : World) (old : string) :
  texts w !! AUDIT_LOG rt = Some (Text old) →
  let backup := backup_path rt (clock w) in
  let cleared :=
    csv_line [utcnow_isoformat rt (S (clock w)); session_user sess;
              "audit_cleared"; "/admin/audit/clear";
              "Cleared recent audit log and backed up to "
              +:+ PyStr.basename backup] in
  let logged :=
    csv_line [utcnow_isoformat rt (S (S (clock w))); session_user sess;
              "audit_clear"; "/admin/audit/clear";
              "Backup: " +:+ PyStr.basename backup] in
  ∃ w1,
    (open_r (AUDIT_LOG rt) ≫= λ _,
     open_w backup ≫= λ _,
     read_text (AUDIT_LOG rt) ≫= λ content,
     fwrite backup content ≫= λ _,
     open_w (AUDIT_LOG rt) ≫= λ _,
     fwrite (AUDIT_LOG rt) audit_header ≫= λ _,
     now_isoformat rt ≫= λ ts,
     fwrite (AUDIT_LOG rt)
       (csv_line [ts; session_user sess; "audit_cleared"; "/admin/audit/clear";
                  "Cleared recent audit log and backed up to "
                  +:+ PyStr.basename backup]) ≫= λ _,
     flash "Audit log cleared (backup created)." "success" ≫= λ _,
     log_event rt (session_user sess) "audit_clear" "/admin/audit/clear"
       ("Backup: " +:+ PyStr.basename backup)) (tick w)
    = (Ok tt, w1)
    ∧ texts w1
      = <[AUDIT_LOG rt := Text ((audit_header +:+ cleared) +:+ logged)]>
          (<[backup := Text old]> (texts w))
    ∧ tables w1 = tables w
    ∧ flashes w1
      = flashes w ++ [("Audit log cleared (backup created).", "success")].
Proof.
  intros Hlog backup cleared logged.
  pose proof (backup_ne_log (clock w)) as Hne. fold backup in Hne.
  eexists.
  erewrite bind_run by (by eapply open_r_run).
  erewrite bind_run by reflexivity.
  erewrite bind_run
    by (apply read_text_run; simpl; by rewrite lookup_insert_ne).
  erewrite bind_run
    by (apply fwrite_run; simpl; by rewrite lookup_insert_eq).
  erewrite bind_run by reflexivity.
  erewrite bind_run
    by (apply fwrite_run; simpl; by rewrite lookup_insert_eq).
  erewrite bind_run by reflexivity.
  erewrite bind_run
    by (apply fwrite_run; simpl; by rewrite lookup_insert_eq).
  erewrite bind_run by reflexivity.
  unfold log_event. erewrite bind_run by reflexivity.
  split; [apply append_text_run; simpl; by rewrite lookup_insert_eq|].
  simpl. split; [|done].
  apply map_eq. intros p.
  destruct (decide (p = AUDIT_LOG rt)) as [->|HpA];
    [|destruct (decide (p = backup)) as [->|HpB]];
    repeat first [ rewrite lookup_insert_eq
                 | rewrite lookup_insert_ne by done ];
    reflexivity.
Qed.

(** C3, amended: after a clear by an administrator of a readable log,
    the backup file holds the text of the log as it was, and the live
    log is the header followed by two new entries, the synthetic
    [audit_cleared] entry and the [audit_clear] event logged right after
    it; nothing of the earlier log remains, and no other file changes. *)
Theorem audit_clear_backup_and_two_entries (sess : Session) (req : Request)
    (w : World) (old : string) :
  logged_in sess = true → sess_role sess = Some "Administrator" →
  texts w !! AUDIT_LOG rt = Some (Text old) →
  let backup := backup_path rt (clock w) in
  let cleared :=
    csv_line [utcnow_isoformat rt (S (clock w)); session_user sess;
              "audit_cleared"; "/admin/audit/clear";
              "Cleared recent audit log and backed up to "
              +:+ PyStr.basename backup] in
  let logged :=
    csv_line [utcnow_isoformat rt (S (S (clock w))); session_user sess;
              "audit_clear"; "/admin/audit/clear";
              "Backup: " +:+ PyStr.basename backup] in
  let res := admin_audit_clear rt sess req w in
  fst res = Ok (Redirect "/admin")
  ∧ texts (snd res) !! backup = Some (Text old)
  ∧ texts (snd res) !! AUDIT_LOG rt
    = Some (Text ((audit_header +:+ cleared) +:+ logged))
  ∧ (∀ p, p ≠ backup → p ≠ AUDIT_LOG rt →
          texts (snd res) !! p = texts w !! p)
  ∧ tables (snd res) = tables w
  ∧ flashes (snd res)
    = flashes w ++ [("Audit log cleared (backup created).", "success")].
Proof.
  intros Hl Hr Hlog backup cleared logged res.
  destruct (audit_clear_body_run sess w old Hlog)
    as (w1 & Hbody & Htexts & Htables & Hflashes).
  assert (res = (Ok (Redirect "/admin"), w1)) as ->.
  { subst res. unfold admin_audit_clear. rewrite admin_gate by done.
    erewrite bind_run by reflexivity.
    cbv zeta. erewrite bind_run by (apply try_except_ok, Hbody). done. }
  pose proof (backup_ne_log (clock w)) as Hne.
  simpl. rewrite Htexts. split; [done|]. split.
  { rewrite lookup_insert_ne by done. by rewrite lookup_insert_eq. }
  split; [by rewrite lookup_insert_eq|]. split; [|done].
  intros p Hp1 Hp2. by rewrite !lookup_insert_ne by done.
Qed.

End Audit.

Lemma audit_clear_backup_and_two_entries_witness :
  let res := admin_audit_clear sample_runtime admin_session (post []) logged_world in
  texts logged_world !! AUDIT_LOG sample_runtime
  = Some (Text (audit_header
                +:+ csv_line ["2024-12-31T23:59:59"; "alice"; "login_success";
                              "/login"; "Successful login"]))
  ∧ texts (snd res) !! backup_path sample_runtime (clock logged_world)
    = Some (Text (audit_header
                  +:+ csv_line ["2024-12-31T23:59:59"; "alice"; "login_success";
                                "/login"; "Successful login"])).
Proof.
  split; [reflexivity|].
  apply (audit_clear_backup_and_two_entries sample_runtime admin_session
           (post []) logged_world _ eq_refl eq_refl eq_refl).
Defined.

(** C3 fails as stated: after the clear the live log holds two entries
    after the header (the synthetic [audit_cleared] entry and the logged
    [audit_clear] event), not one. *)
Lemma audit_clear_leaves_two_entries :
  (∃ content,
     texts (snd (admin_audit_clear sample_runtime admin_session (post [])
                   logged_world)) !! AUDIT_LOG sample_runtime
     = Some (Text content)
     ∧ length (entries content) = 2%nat)
  ∧ ¬ cleared_log_has_one_entry sample_runtime admin_session (post [])
        logged_world.
Proof.
  assert (∃ content,
     texts (snd (admin_audit_clear sample_runtime admin_session (post [])
                   logged_world)) !! AUDIT_LOG sample_runtime
     = Some (Text content)
     ∧ length (entries content) = 2%nat) as H.
  { eexists. split; [vm_compute; reflexivity | vm_compute; reflexivity]. }
  split; [done|].
  destruct H as (c & Hc & Hlen). intros (c' & Hc' & Hlen').
  rewrite Hc in Hc'. injection Hc' as <-. rewrite Hlen in Hlen'. done.
Qed.

(** *** The sharing registry *)

Lemma scan_shares_cons username role ln rest :
  scan_shares username role (ln :: rest) = true
  ↔ grants username role (share_parts ln)
    ∨ scan_shares username role rest = true.
Proof.
  unfold grants. simpl scan_shares.
  destruct (share_parts ln) as [|a [|b [|c [|d ps]]]]; simpl;
    try (split; [by right | intros [[? _]|?]; [lia | done]]).
  destruct (String.eqb_spec a "role") as [->|Ha];
    destruct (String.eqb_spec b role) as [->|Hb]; simpl;
    try (split; [intros _; left; split; [lia | by left] | done]).
  - destruct (String.eqb_spec "role" "user") as [?|_]; [done|]. simpl.
    split; [by right|]. intros [[_ [[_ [= ?]]|[[= ?] _]]]|?]; done.
  - destruct (String.eqb_spec a "user") as [->|Ha'];
      destruct (String.eqb_spec role username) as [->|Hu]; simpl.
    + split; [intros _; left; split; [lia | by right] | done].
    + split; [by right|]. intros [[_ [[[= ?] _]|[_ [= ?]]]]|?]; done.
    + split; [by right|]. intros [[_ [[[= ?] _]|[[= ?] _]]]|?]; done.
    + split; [by right|]. intros [[_ [[[= ?] _]|[[= ?] _]]]|?]; done.
  - destruct (String.eqb_spec a "user") as [->|Ha'];
      destruct (String.eqb_spec b username) as [->|Hu]; simpl.
    + split; [intros _; left; split; [lia | by right] | done].
    + split; [by right|]. intros [[_ [[[= ?] _]|[_ [= ?]]]]|?]; done.
    + split; [by right|]. intros [[_ [[[= ?] _]|[[= ?] _]]]|?]; done.
    + split; [by right|]. intros [[_ [[[= ?] _]|[[= ?] _]]]|?]; done.
Qed.

Lemma scan_shares_spec username role lines :
  scan_shares username role lines = true
  ↔ ∃ parts, parts ∈ share_parts <$> lines ∧ grants username role parts.
Proof.
  induction lines as [|ln rest IH].
  - simpl. split; [done|]. intros (parts & Hin & _). by apply elem_of_nil in Hin.
  - rewrite scan_shares_cons, IH, fmap_cons. split.
    + intros [H|(parts & Hin & H)].
      * exists (share_parts ln). split; [by left | done].
      * exists parts. split; [by right | done].
    + intros (parts & Hin & H). apply elem_of_cons in Hin as [->|Hin].
      * by left.
      * right. by exists parts.
Qed.

(** *** Reading back a line of the registry *)

Lemma free_of_append p a b :
  free_of p (a +:+ b) = free_of p a && free_of p b.
Proof.
  induction a as [|x a IH]; [done|].
  rewrite append_cons. simpl. rewrite IH. by rewrite andb_assoc.
Qed.

Lemma lstrip_free p s : free_of p s = true → PyStr.lstrip_by p s = s.
Proof.
  destruct s as [|c s]; [done|]. simpl.
  intros [Hc _]%andb_true_iff. apply negb_true_iff in Hc. by rewrite Hc.
Qed.

Lemma rstrip_free p s : free_of p s = true → PyStr.rstrip_by p s = s.
Proof.
  induction s as [|c s IH]; [done|]. simpl.
  intros [Hc Hs]%andb_true_iff. apply negb_true_iff in Hc.
  rewrite (IH Hs). destruct s; [by rewrite Hc | done].
Qed.

Lemma rstrip_snoc p s d :
  p d = true →
  PyStr.rstrip_by p (s +:+ String d EmptyString) = PyStr.rstrip_by p s.
Proof.
  intros Hd. induction s as [|c s IH].
  - simpl. by rewrite Hd.
  - rewrite append_cons. simpl. by rewrite IH.
Qed.

Lemma rstrip_last p s d :
  p d = false →
  PyStr.rstrip_by p (s +:+ String d EmptyString) = s +:+ String d EmptyString.
Proof.
  intros Hd. induction s as [|c s IH].
  - simpl. by rewrite Hd.
  - rewrite append_cons. simpl. rewrite IH. by destruct s.
Qed.

Lemma strip_quotes_left s :
  free_of PyStr.is_quote s = true →
  PyStr.strip_by PyStr.is_quote (String PyStr.dquote s) = s.
Proof.
  intros H. unfold PyStr.strip_by.
  change (PyStr.lstrip_by PyStr.is_quote (String PyStr.dquote s))
    with (PyStr.lstrip_by PyStr.is_quote s).
  by rewrite (lstrip_free _ _ H), (rstrip_free _ _ H).
Qed.

Lemma strip_quotes_right s :
  free_of PyStr.is_quote s = true →
  PyStr.strip_by PyStr.is_quote (s +:+ String PyStr.dquote EmptyString) = s.
Proof.
  intros H. unfold PyStr.strip_by. destruct s as [|c s]; [reflexivity|].
  assert (PyStr.is_quote c = false) as Hc.
  { simpl in H. apply andb_true_iff in H as [Hc _]. by apply negb_true_iff. }
  rewrite append_cons. simpl PyStr.lstrip_by. rewrite Hc.
  rewrite <- append_cons, rstrip_snoc by reflexivity. by apply rstrip_free.
Qed.

Lemma strip_quotes_plain s :
  free_of PyStr.is_quote s = true → PyStr.strip_by PyStr.is_quote s = s.
Proof.
  intros H. unfold PyStr.strip_by.
  by rewrite (lstrip_free _ _ H), (rstrip_free _ _ H).
Qed.

Lemma prefix_nil s : String.prefix "" s = true.
Proof. by destruct s. Qed.

Lemma split_from_cons sep c s :
  PyStr.split_from sep O (String c s)
  = if String.prefix sep (String c s)
    then EmptyString :: PyStr.split_from sep (Nat.pred (String.length sep)) s
    else match PyStr.split_from sep O s with
         | p :: ps => String c p :: ps
         | [] => [String c EmptyString]
         end.
Proof. reflexivity. Qed.

Lemma prefix_cons a s1 b s2 :
  String.prefix (String a s1) (String b s2)
  = if Ascii.ascii_dec a b then String.prefix s1 s2 else false.
Proof. reflexivity. Qed.

Lemma prefix_separator_here rest :
  String.prefix field_separator (field_separator +:+ rest) = true.
Proof.
  cbv [String.append field_separator]. rewrite !prefix_cons.
  repeat (destruct (Ascii.ascii_dec _ _); [|done]). apply prefix_nil.
Qed.

Lemma prefix_separator_other c s :
  PyStr.is_quote c = false → String.prefix field_separator (String c s) = false.
Proof.
  intros Hc. unfold field_separator. rewrite prefix_cons.
  destruct (Ascii.ascii_dec PyStr.dquote c) as [<-|Hne]; [|done].
  discriminate Hc.
Qed.

(** Splitting: a field without quotes runs up to the next separator. *)
Lemma split_field x rest :
  free_of PyStr.is_quote x = true →
  PyStr.split_from field_separator O (x +:+ field_separator +:+ rest)
  = x :: PyStr.split_from field_separator O rest.
Proof.
  induction x as [|c x IH]; intros H.
  - change ("" +:+ field_separator +:+ rest) with (field_separator +:+ rest).
    pose proof (prefix_separator_here rest) as Hp. revert Hp.
    cbv [String.append field_separator]. rewrite split_from_cons.
    by intros ->.
  - simpl in H. apply andb_true_iff in H as [Hc Hx].
    apply negb_true_iff in Hc.
    rewrite append_cons, split_from_cons, prefix_separator_other by done.
    by rewrite (IH Hx).
Qed.

Lemma split_last x :
  free_of PyStr.is_quote x = true →
  PyStr.split_from field_separator O (x +:+ String PyStr.dquote EmptyString)
  = [x +:+ String PyStr.dquote EmptyString].
Proof.
  induction x as [|c x IH]; intros H.
  - reflexivity.
  - simpl in H. apply andb_true_iff in H as [Hc Hx].
    apply negb_true_iff in Hc.
    rewrite append_cons, split_from_cons, prefix_separator_other by done.
    by rewrite (IH Hx).
Qed.

Lemma separator_not_first t rest :
  free_of PyStr.is_quote t = true → t ≠ "," →
  String.prefix (String ","%char (String PyStr.dquote EmptyString))
    (t +:+ field_separator +:+ rest) = false.
Proof.
  intros Hq Hne. destruct t as [|c t].
  - cbv [String.append field_separator]. rewrite prefix_cons.
    by destruct (Ascii.ascii_dec _ _).
  - rewrite append_cons, prefix_cons.
    destruct (Ascii.ascii_dec ","%char c) as [<-|_]; [|done].
    destruct t as [|d t]; [done|].
    rewrite append_cons, prefix_cons.
    destruct (Ascii.ascii_dec PyStr.dquote d) as [<-|_]; [|done].
    discriminate Hq.
Qed.

(** The shape of a line of four quoted fields. *)
Lemma csv_line_shape t v b ts :
  csv_line [t; v; b; ts]
  = String PyStr.dquote
      (t +:+ field_separator +:+ v +:+ field_separator +:+ b
       +:+ field_separator +:+ ts +:+ String PyStr.dquote EmptyString)
    +:+ String "010"%char EmptyString.
Proof.
  unfold csv_line, quoted, field_separator.
  repeat first [ rewrite append_cons | rewrite append_assoc_s ].
  reflexivity.
Qed.

Lemma strip_line body :
  PyStr.strip (String PyStr.dquote (body +:+ String PyStr.dquote EmptyString)
               +:+ String "010"%char EmptyString)
  = String PyStr.dquote (body +:+ String PyStr.dquote EmptyString).
Proof.
  unfold PyStr.strip, PyStr.strip_by.
  change (PyStr.lstrip_by PyStr.is_space
            (String PyStr.dquote (body +:+ String PyStr.dquote "") +:+ String "010" ""))
    with (String PyStr.dquote (body +:+ String PyStr.dquote "") +:+ String "010" "").
  rewrite rstrip_snoc by reflexivity.
  rewrite <- append_cons. by apply rstrip_last.
Qed.

(** A line written with plain fields reads back as its fields. *)
Lemma share_parts_line t v b ts :
  free_of PyStr.is_quote t = true → free_of PyStr.is_quote v = true →
  free_of PyStr.is_quote b = true → free_of PyStr.is_quote ts = true →
  t ≠ "," →
  share_parts (csv_line [t; v; b; ts]) = [t; v; b; ts].
Proof.
  intros Ht Hv Hb Hts Hne. unfold share_parts.
  rewrite csv_line_shape.
  rewrite <- !append_assoc_s, strip_line, !append_assoc_s.
  unfold PyStr.split. rewrite split_from_cons.
  unfold field_separator at 1. rewrite prefix_cons.
  destruct (Ascii.ascii_dec PyStr.dquote PyStr.dquote) as [_|?]; [|done].
  rewrite separator_not_first by done.
  rewrite !split_field, split_last by done.
  rewrite !fmap_cons, fmap_nil.
  by rewrite strip_quotes_left, strip_quotes_right, !strip_quotes_plain.
Qed.

(** *** Lines of a text *)

Lemma readlines_cons c s :
  PyStr.readlines (String c s)
  = if Ascii.eqb c "010"%char then String c EmptyString :: PyStr.readlines s
    else match PyStr.readlines s with
         | l :: ls => String c l :: ls
         | [] => [String c EmptyString]
         end.
Proof. reflexivity. Qed.

Lemma readlines_nonempty c s : PyStr.readlines (String c s) ≠ [].
Proof.
  rewrite readlines_cons. destruct (Ascii.eqb _ _); [done|].
  by destruct (PyStr.readlines s).
Qed.

Lemma readlines_app a b :
  terminated a = true →
  PyStr.readlines (a +:+ b) = PyStr.readlines a ++ PyStr.readlines b.
Proof.
  induction a as [|c a IH]; intros H; [done|].
  rewrite append_cons, !readlines_cons.
  destruct (Ascii.eqb c "010"%char) eqn:Ec.
  - rewrite IH; [done|]. destruct a; [done|]. exact H.
  - destruct a as [|d a].
    + simpl in H. unfold is_newline in H. congruence.
    + rewrite IH by exact H.
      pose proof (readlines_nonempty d a) as Hn.
      by destruct (PyStr.readlines (String d a)).
Qed.

Lemma readlines_line x :
  free_of is_newline x = true →
  PyStr.readlines (x +:+ String "010"%char EmptyString)
  = [x +:+ String "010"%char EmptyString].
Proof.
  induction x as [|c x IH]; intros H; [done|].
  simpl in H. apply andb_true_iff in H as [Hc Hx]. apply negb_true_iff in Hc.
  rewrite append_cons, readlines_cons. unfold is_newline in Hc.
  by rewrite Hc, (IH Hx).
Qed.

Lemma entries_append content x :
  content ≠ "" → terminated content = true → free_of is_newline x = true →
  entries (content +:+ x +:+ String "010"%char EmptyString)
  = entries content ++ [x +:+ String "010"%char EmptyString].
Proof.
  intros Hne Ht Hx. unfold entries.
  rewrite readlines_app, readlines_line by done.
  destruct content as [|c s]; [done|].
  pose proof (readlines_nonempty c s) as Hn.
  by destruct (PyStr.readlines (String c s)).
Qed.

Lemma free_of_weaken (p q : ascii → bool) s :
  (∀ c, q c = true → p c = true) → free_of p s = true → free_of q s = true.
Proof.
  intros Hpq. induction s as [|c s IH]; [done|]. simpl.
  intros [Hc Hs]%andb_true_iff. apply negb_true_iff in Hc.
  rewrite (IH Hs), andb_true_r. apply negb_true_iff.
  destruct (q c) eqn:E; [|done]. by rewrite (Hpq c E) in Hc.
Qed.

Lemma plain_one_line s : plain s → free_of is_newline s = true.
Proof.
  intros [_ H]. apply (free_of_weaken is_break); [|done].
  intros c Hc. unfold is_break. by rewrite Hc.
Qed.

Lemma csv_line_newline_free t v b ts :
  free_of is_newline t = true → free_of is_newline v = true →
  free_of is_newline b = true → free_of is_newline ts = true →
  ∃ x, csv_line [t; v; b; ts] = x +:+ String "010"%char EmptyString
       ∧ free_of is_newline x = true.
Proof.
  intros Ht Hv Hb Hts. eexists. split; [apply csv_line_shape|].
  simpl. rewrite !free_of_append, Ht, Hv, Hb, Hts. reflexivity.
Qed.

Lemma grants_fields username role t v b ts :
  grants username role [t; v; b; ts] ↔ names_caller username role t v.
Proof.
  unfold grants, names_caller. simpl. split.
  - intros [_ [[[= ->] [= ->]]|[[= ->] [= ->]]]]; [by left | by right].
  - intros [[-> ->]|[-> ->]]; (split; [lia|]); [by left | by right].
Qed.

Lemma scan_shares_snoc username role lines ln :
  scan_shares username role (lines ++ [ln]) = true
  ↔ scan_shares username role lines = true
    ∨ grants username role (share_parts ln).
Proof.
  rewrite !scan_shares_spec. split.
  - intros (parts & Hin & Hg). rewrite fmap_app in Hin.
    apply elem_of_app in Hin as [Hin|Hin].
    + left. by exists parts.
    + right. apply list_elem_of_singleton in Hin. by subst.
  - intros [(parts & Hin & Hg)|Hg].
    + exists parts. split; [|done]. rewrite fmap_app. apply elem_of_app. by left.
    + exists (share_parts ln). split; [|done]. rewrite fmap_app.
      apply elem_of_app. right. by left.
Qed.

Section Sharing.

Variable rt : Runtime.

Lemma add_dataset_share_run shared_type shared_value shared_by w content :
  texts w !! SHARES_CSV rt = Some (Text content) →
  add_dataset_share rt shared_type shared_value shared_by w
  = (Ok tt,
     set_texts
       <[SHARES_CSV rt :=
           Text (content +:+ csv_line [shared_type; shared_value; shared_by;
                                       utcnow_isoformat rt (clock w)])]>
       (log_write (SHARES_CSV rt) (tick w))).
Proof.
  intros H. unfold add_dataset_share.
  erewrite bind_run by reflexivity. by apply append_text_run.
Qed.

Lemma visibility_run username role w content :
  texts w !! SHARES_CSV rt = Some (Text content) →
  is_dataset_shared_for_user rt username role w
  = (Ok (String.eqb role "Administrator"
         || scan_shares username role (entries content)), w).
Proof.
  intros H. unfold is_dataset_shared_for_user, entries.
  destruct (String.eqb role "Administrator"); [reflexivity|].
  unfold mbind, M_bind, text_exists, gets, try_except, read_text.
  rewrite H. simpl. rewrite H. reflexivity.
Qed.

(** X1: Sharing is monotonic: after [add_dataset_share] with plain fields on a
    registry that has its header, the caller sees the dataset exactly when
    they saw it before or the new entry names their role or their name. *)
Theorem share_then_visible (shared_type shared_value shared_by : string)
    (username role : string) (w : World) (content : string) :
  texts w !! SHARES_CSV rt = Some (Text content) →
  content ≠ "" → terminated content = true →
  plain shared_type → plain shared_value → plain shared_by →
  plain (utcnow_isoformat rt (clock w)) → shared_type ≠ "," →
  let w' := snd (add_dataset_share rt shared_type shared_value shared_by w) in
  ∃ before after,
    is_dataset_shared_for_user rt username role w = (Ok before, w)
    ∧ is_dataset_shared_for_user rt username role w' = (Ok after, w')
    ∧ (after = true
       ↔ before = true ∨ names_caller username role shared_type shared_value).
Proof.
  intros Hfile Hne Hterm Ht Hv Hb Hs Hcomma w'.
  pose proof (plain_one_line _ Ht) as Htn.
  pose proof (plain_one_line _ Hv) as Hvn.
  pose proof (plain_one_line _ Hb) as Hbn.
  pose proof (plain_one_line _ Hs) as Hsn.
  destruct Ht as [Htq _], Hv as [Hvq _], Hb as [Hbq _], Hs as [Hsq _].
  subst w'. rewrite (add_dataset_share_run _ _ _ _ _ Hfile). simpl snd.
  eexists _, _. split; [by apply visibility_run|].
  split.
  { apply (visibility_run _ _ _
             (content +:+ csv_line [shared_type; shared_value; shared_by;
                                    utcnow_isoformat rt (clock w)])).
    apply lookup_insert_eq. }
  destruct (csv_line_newline_free shared_type shared_value shared_by
              (utcnow_isoformat rt (clock w)) Htn Hvn Hbn Hsn)
    as (x & Hx & Hfree).
  rewrite !orb_true_iff. rewrite Hx, entries_append by done.
  rewrite scan_shares_snoc, <- Hx, share_parts_line, grants_fields by done.
  tauto.
Qed.

End Sharing.

Lemma share_then_visible_example :
  let w' := snd (add_dataset_share sample_runtime "role" "Investor" "root"
                   demo_world) in
  fst (is_dataset_shared_for_user sample_runtime "bob" "Investor" demo_world)
  = Ok false
  ∧ fst (is_dataset_shared_for_user sample_runtime "bob" "Investor" w') = Ok true
  ∧ fst (is_dataset_shared_for_user sample_runtime "bob" "Guest" w') = Ok false.
Proof. vm_compute. repeat split; reflexivity. Qed.

Lemma share_then_visible_witness :
  ∃ before after,
    is_dataset_shared_for_user sample_runtime "bob" "Investor" demo_world
    = (Ok before, demo_world)
    ∧ is_dataset_shared_for_user sample_runtime "bob" "Investor"
        (snd (add_dataset_share sample_runtime "role" "Investor" "root"
                demo_world))
      = (Ok after,
         snd (add_dataset_share sample_runtime "role" "Investor" "root"
                demo_world))
    ∧ (after = true
       ↔ before = true ∨ names_caller "bob" "Investor" "role" "Investor").
Proof.
  apply (share_then_visible sample_runtime "role" "Investor" "root" "bob"
           "Investor" demo_world
           ("SharedType,SharedValue,SharedBy,Timestamp"
            +:+ String "010"%char ""));
    [vm_compute; reflexivity | discriminate | reflexivity
    | split; vm_compute; reflexivity ..
    | discriminate].
Defined.

Section DeleteHandler.

Variable rt : Runtime.

(** The handler behind [/admin/<entity>/delete/<id>] stores the collection
  without the records whose identifier equals [obj_id]. *)
Lemma admin_entity_delete_removes (entity : string) (cfg : EntityCfg)
  (obj_id : Z) (sess : Session) (req : Request) (w : World) (df : DataFrame) :
ENTITIES !! entity = Some cfg →
logged_in sess = true → sess_role sess = Some "Administrator" →
tables w !! data_file rt (cfg_csv cfg) = Some df →
cfg_id cfg ∈ columns df →
tables (snd (admin_entity_delete rt entity obj_id sess req w))
= <[data_file rt (cfg_csv cfg) := Frame.keep_ne df (cfg_id cfg) (CInt obj_id)]>
    (tables w).
Proof.
intros Hent Hl Hr Hdf Hc. unfold admin_entity_delete.
rewrite admin_gate by done. rewrite Hent.
erewrite bind_run by (by apply load_entity_df_run).
rewrite Hdf. simpl default.
erewrite bind_run by (by rewrite lift_run, getitem_ok).
apply after_save_keeps_tables. keeps_tables.
Qed.

End DeleteHandler.

Lemma admin_edit_overwrites_witness :
  (validate sample_runtime countries_cfg rename_request = []
   ∧ ∃ df' r',
       tables (snd (admin_entity_edit sample_runtime "countries" 1
                      admin_session rename_request one_country_world))
       !! "data/countries.csv" = Some df'
       ∧ rows df' !! 0%nat = Some r'
       ∧ r' !! "CountryName" = Some (CStr "Newland")
       ∧ r' !! "GDP_BillionUSD" = Some (CStr "10")
       ∧ r' !! "CountryID" = Some (CInt 1))
  ∧ (validate sample_runtime sites_cfg move_pit = []
     ∧ ∃ df' r',
         tables (snd (admin_entity_edit sample_runtime "sites" 1
                        admin_session move_pit sites_world))
         !! "data/sites.csv" = Some df'
         ∧ rows df' !! 0%nat = Some r'
         ∧ rows df' !! 1%nat = rows two_sites !! 1%nat
         ∧ r' !! "SiteName" = Some (CStr "Deep Pit")
         ∧ r' !! "Latitude" = Some (CStr "10")
         ∧ r' !! "Production_tonnes" = Some (CInt 5)
         ∧ r' !! "SiteID" = Some (CInt 1)).
Proof.
  split.
  - split; [vm_compute; reflexivity|].
    assert (ENTITIES !! "countries" = Some countries_cfg) as Hent
      by (vm_compute; reflexivity).
    assert (tables one_country_world
              !! data_file sample_runtime (cfg_csv countries_cfg)
            = Some one_country) as Hdf by (vm_compute; reflexivity).
    assert (∀ f, f ∈ cfg_id countries_cfg :: cfg_fields countries_cfg
                 → f ∈ columns one_country) as Hcols.
    { intros f Hf. apply elem_of_cons in Hf as [->|Hf]; [left | exact Hf]. }
    assert (Frame.first_index (cfg_id countries_cfg) (CInt 1)
              (rows one_country) = Some O) as Hidx
      by (vm_compute; reflexivity).
    assert (validate sample_runtime countries_cfg rename_request = []) as Hval
      by (vm_compute; reflexivity).
    destruct (admin_edit_overwrites sample_runtime "countries" countries_cfg 1
                admin_session rename_request one_country_world one_country O
                Hent eq_refl eq_refl eq_refl Hdf Hcols Hidx Hval)
      as (df' & r & r' & Ht & _ & _ & Hr & Hr' & _ & Hf & Hid & _).
    exists df', r'. split.
    { rewrite Ht. apply lookup_insert_eq. }
    split; [exact Hr'|].
    assert (r = testland_row) as -> by (injection Hr as <-; reflexivity).
    split.
    { rewrite (Hf "CountryName"); [reflexivity | right; left | discriminate]. }
    split.
    { rewrite (Hf "GDP_BillionUSD");
        [reflexivity | right; right; left | discriminate]. }
    exact Hid.
  - split; [vm_compute; reflexivity|].
    assert (ENTITIES !! "sites" = Some sites_cfg) as Hent
      by (vm_compute; reflexivity).
    assert (tables sites_world !! data_file sample_runtime (cfg_csv sites_cfg)
            = Some two_sites) as Hdf by (vm_compute; reflexivity).
    assert (∀ f, f ∈ cfg_id sites_cfg :: cfg_fields sites_cfg
                 → f ∈ columns two_sites) as Hcols.
    { intros f Hf. apply elem_of_cons in Hf as [->|Hf]; [left | exact Hf]. }
    assert (Frame.first_index (cfg_id sites_cfg) (CInt 1) (rows two_sites)
            = Some O) as Hidx by (vm_compute; reflexivity).
    assert (validate sample_runtime sites_cfg move_pit = []) as Hval
      by (vm_compute; reflexivity).
    destruct (admin_edit_overwrites sample_runtime "sites" sites_cfg 1
                admin_session move_pit sites_world two_sites O
                Hent eq_refl eq_refl eq_refl Hdf Hcols Hidx Hval)
      as (df' & r & r' & Ht & _ & _ & Hr & Hr' & _ & Hf & Hid & _ & Hrest).
    exists df', r'. split.
    { rewrite Ht. apply lookup_insert_eq. }
    split; [exact Hr'|].
    split; [apply Hrest; discriminate|].
    injection Hr as <-.
    split.
    { rewrite (Hf "SiteName"); [reflexivity | right; left | discriminate]. }
    split.
    { rewrite (Hf "Latitude");
        [reflexivity | do 4 right; left | discriminate]. }
    split.
    { rewrite (Hf "Production_tonnes");
        [reflexivity | do 6 right; left | discriminate]. }
    exact Hid.
Defined.

(** ** Further properties of the program *)

(** *** Reading back a line of the audit log *)

Lemma csv_line_shape5 ts u a p d :
  csv_line [ts; u; a; p; d]
  = String PyStr.dquote
      (ts +:+ field_separator +:+ u +:+ field_separator +:+ a
       +:+ field_separator +:+ p +:+ field_separator +:+ d
       +:+ String PyStr.dquote EmptyString)
    +:+ String "010"%char EmptyString.
Proof.
  unfold csv_line, quoted, field_separator.
  repeat first [ rewrite append_cons | rewrite append_assoc_s ].
  reflexivity.
Qed.

Lemma log_parts_line ts u a p d :
  free_of PyStr.is_quote ts = true → free_of PyStr.is_quote u = true →
  free_of PyStr.is_quote a = true → free_of PyStr.is_quote p = true →
  free_of PyStr.is_quote d = true → ts ≠ "," →
  share_parts (csv_line [ts; u; a; p; d]) = [ts; u; a; p; d].
Proof.
  intros Hts Hu Ha Hp Hd Hne. unfold share_parts.
  rewrite csv_line_shape5.
  rewrite <- !append_assoc_s, strip_line, !append_assoc_s.
  unfold PyStr.split. rewrite split_from_cons.
  unfold field_separator at 1. rewrite prefix_cons.
  destruct (Ascii.ascii_dec PyStr.dquote PyStr.dquote) as [_|?]; [|done].
  rewrite separator_not_first by done.
  rewrite !split_field, split_last by done.
  rewrite !fmap_cons, fmap_nil.
  by rewrite strip_quotes_left, strip_quotes_right, !strip_quotes_plain.
Qed.

Lemma csv_line_newline_free5 ts u a p d :
  free_of is_newline ts = true → free_of is_newline u = true →
  free_of is_newline a = true → free_of is_newline p = true →
  free_of is_newline d = true →
  ∃ x, csv_line [ts; u; a; p; d] = x +:+ String "010"%char EmptyString
       ∧ free_of is_newline x = true.
Proof.
  intros Hts Hu Ha Hp Hd. eexists. split; [apply csv_line_shape5|].
  simpl. rewrite !free_of_append, Hts, Hu, Ha, Hp, Hd. reflexivity.
Qed.

Lemma dashboard_row_line ts u a p d :
  free_of PyStr.is_quote ts = true → free_of PyStr.is_quote u = true →
  free_of PyStr.is_quote a = true → free_of PyStr.is_quote p = true →
  free_of PyStr.is_quote d = true → ts ≠ "," →
  dashboard_row (csv_line [ts; u; a; p; d])
  = Some [ {| Timestamp := ts; Username := u; Action := a; Path := p;
              Details := d |} ].
Proof.
  intros Hts Hu Ha Hp Hd Hne. unfold dashboard_row.
  rewrite log_parts_line by done. simpl.
  by rewrite strip_quotes_plain.
Qed.

Lemma dashboard_rows_app l1 l2 :
  dashboard_rows (l1 ++ l2)
  = match dashboard_rows l1, dashboard_rows l2 with
    | Some a, Some b => Some (a ++ b)
    | _, _ => None
    end.
Proof.
  induction l1 as [|ln l1 IH]; simpl.
  - by destruct (dashboard_rows l2).
  - destruct (dashboard_row ln) as [r|]; [|done]. rewrite IH.
    destruct (dashboard_rows l1), (dashboard_rows l2); simpl; try done.
    by rewrite app_assoc.
Qed.

Lemma dashboard_row_length ln r :
  dashboard_row ln = Some r → (length r ≤ 1)%nat.
Proof.
  unfold dashboard_row. destruct (_ <=? _)%nat.
  - destruct (share_parts ln) as [|? [|? [|? [|? [|? ?]]]]]; try done.
    intros [= <-]. simpl. lia.
  - intros [= <-]. simpl. lia.
Qed.

Lemma dashboard_rows_length lines rows :
  dashboard_rows lines = Some rows → (length rows ≤ length lines)%nat.
Proof.
  revert rows. induction lines as [|ln lines IH]; intros rows; simpl.
  - intros [= <-]. simpl. lia.
  - destruct (dashboard_row ln) as [r|] eqn:Er; [|done].
    destruct (dashboard_rows lines) as [rs|]; [|done]. simpl.
    intros [= <-]. rewrite length_app.
    pose proof (dashboard_row_length _ _ Er). specialize (IH rs eq_refl). lia.
Qed.

Lemma tail_drop {A} (l : list A) : tail l = drop 1 l.
Proof. by destruct l. Qed.

(** X8: The dashboard lists at most 199 entries of the audit log, however long
    the log is: of the last 200 lines the first is skipped as if it were
    the header.  A log of at most 200 lines is listed in full. *)
Theorem dashboard_lists_at_most_199 (content : string) (logs : list LogRow) :
  dashboard_logs content = Some logs →
  (length logs ≤ 199)%nat
  ∧ ((length (PyStr.readlines content) ≤ 200)%nat →
     dashboard_rows (entries content) = Some logs).
Proof.
  unfold dashboard_logs, last_lines, entries. intros H. split.
  - apply dashboard_rows_length in H.
    rewrite length_tl, length_drop in H. lia.
  - intros Hlen. rewrite <- H.
    replace (length (PyStr.readlines content) - 200)%nat with O by lia.
    reflexivity.
Qed.

Lemma window_drop (L : list string) :
  tail (last_lines 200 L) = drop (S (length L - 200)) L.
Proof.
  unfold last_lines. rewrite tail_drop, drop_drop. f_equal. lia.
Qed.

Lemma dashboard_rows_none lines :
  dashboard_rows lines = None
  ↔ ∃ ln, ln ∈ lines ∧ length (share_parts ln) = 4%nat.
Proof.
  induction lines as [|ln lines IH]; simpl.
  - split; [done|]. intros (ln & Hin & _). by apply elem_of_nil in Hin.
  - destruct (dashboard_row ln) as [r|] eqn:Er.
    + rewrite fmap_None, IH. split.
      * intros (l & Hin & Hl). exists l. split; [by right | done].
      * intros (l & Hin & Hl). apply elem_of_cons in Hin as [->|Hin].
        -- exfalso. revert Er. unfold dashboard_row.
           destruct (share_parts ln) as [|? [|? [|? [|? [|? ?]]]]]; done.
        -- by exists l.
    + split; [intros _ | done]. exists ln. split; [by left|].
      revert Er. unfold dashboard_row.
      destruct (share_parts ln) as [|? [|? [|? [|? [|? ?]]]]]; done.
Qed.

(** X9: The dashboard fails with [IndexError] exactly when one of the lines it
    examines (the last 200 of the log but the first) has exactly four
    fields. *)
Theorem dashboard_fails_iff_four_fields (content : string) :
  dashboard_logs content = None
  ↔ ∃ ln, ln ∈ tail (last_lines 200 (PyStr.readlines content))
          ∧ length (share_parts ln) = 4%nat.
Proof. apply dashboard_rows_none. Qed.

Section AuditTrail.

Variable rt : Runtime.

Lemma log_event_run username action path details w content :
  texts w !! AUDIT_LOG rt = Some (Text content) →
  log_event rt username action path details w
  = (Ok tt,
     set_texts
       <[AUDIT_LOG rt :=
           Text (content +:+ csv_line [utcnow_isoformat rt (clock w); username;
                                       action; path; details])]>
       (log_write (AUDIT_LOG rt) (tick w))).
Proof.
  intros H. unfold log_event.
  erewrite bind_run by reflexivity. by apply append_text_run.
Qed.

(** X6: While the audit log has fewer than 200 lines, an event logged with
    plain fields is appended as one entry and is the last row of the
    dashboard, after the rows listed before. *)
Theorem log_event_listed (username action path details : string) (w : World)
    (content : string) (logs : list LogRow) :
  let ts := utcnow_isoformat rt (clock w) in
  texts w !! AUDIT_LOG rt = Some (Text content) →
  content ≠ "" → terminated content = true →
  (length (PyStr.readlines content) < 200)%nat →
  plain ts → plain username → plain action → plain path → plain details →
  ts ≠ "," →
  dashboard_logs content = Some logs →
  ∃ content',
    texts (snd (log_event rt username action path details w)) !! AUDIT_LOG rt
    = Some (Text content')
    ∧ entries content'
      = entries content ++ [csv_line [ts; username; action; path; details]]
    ∧ dashboard_logs content'
      = Some (logs ++ [ {| Timestamp := ts; Username := username;
                           Action := action; Path := path;
                           Details := details |} ]).
Proof.
  intros ts Hfile Hne Hterm Hlen Hts Hu Ha Hp Hd Hcomma Hlogs.
  rewrite (log_event_run _ _ _ _ _ _ Hfile). simpl snd.
  exists (content +:+ csv_line [ts; username; action; path; details]).
  split; [apply lookup_insert_eq|].
  destruct (csv_line_newline_free5 ts username action path details)
    as (x & Hx & Hfree); try by apply plain_one_line.
  assert (entries (content +:+ csv_line [ts; username; action; path; details])
          = entries content ++ [csv_line [ts; username; action; path; details]])
    as Hentries.
  { rewrite Hx. by apply entries_append. }
  split; [done|].
  assert (∀ c, (length (PyStr.readlines c) ≤ 200)%nat →
               dashboard_logs c = dashboard_rows (entries c)) as Hshort.
  { intros c Hc. unfold dashboard_logs, last_lines, entries.
    by replace (length (PyStr.readlines c) - 200)%nat with O by lia. }
  rewrite Hshort in Hlogs by lia.
  rewrite Hshort.
  - rewrite Hentries, dashboard_rows_app, Hlogs.
    destruct Hts as [Hts _], Hu as [Hu _], Ha as [Ha _], Hp as [Hp _],
      Hd as [Hd _].
    cbn [dashboard_rows]. by rewrite dashboard_row_line.
  - rewrite Hx, readlines_app, readlines_line, length_app by done. simpl. lia.
Qed.

End AuditTrail.

Lemma log_event_listed_witness :
  ∃ content',
    texts (snd (log_event sample_runtime "alice" "logout" "/logout"
                  "User logged out" demo_world)) !! AUDIT_LOG sample_runtime
    = Some (Text content')
    ∧ entries content'
      = entries audit_header
        ++ [csv_line ["2025-01-01T00:00:00.0"; "alice"; "logout"; "/logout";
                      "User logged out"]]
    ∧ dashboard_logs content'
      = Some ([] ++ [ {| Timestamp := "2025-01-01T00:00:00.0";
                         Username := "alice"; Action := "logout";
                         Path := "/logout"; Details := "User logged out" |} ]).
Proof.
  apply (log_event_listed sample_runtime "alice" "logout" "/logout"
           "User logged out" demo_world audit_header []);
    [ vm_compute; reflexivity | discriminate | reflexivity
    | vm_compute; lia
    | split; vm_compute; reflexivity ..
    | discriminate
    | vm_compute; reflexivity ].
Defined.

(** *** A line break inside a logged field *)

Lemma lstrip_keeps_free p q s :
  free_of q s = true → free_of q (PyStr.lstrip_by p s) = true.
Proof.
  induction s as [|c s IH]; [done|]. simpl. intros H.
  destruct (p c); [|done]. apply IH.
  by apply andb_true_iff in H as [_ H].
Qed.

Lemma lstrip_app p a c b :
  p c = false →
  PyStr.lstrip_by p (a +:+ String c b) = PyStr.lstrip_by p a +:+ String c b.
Proof.
  intros Hc. induction a as [|x a IH].
  - simpl. by rewrite Hc.
  - rewrite append_cons. simpl. destruct (p x); [done|]. by rewrite append_cons.
Qed.

(** The second line of an entry whose second field holds a line break:
    four fields. *)
Lemma broken_entry_four_fields u2 a p d :
  free_of PyStr.is_quote u2 = true → free_of PyStr.is_quote a = true →
  free_of PyStr.is_quote p = true → free_of PyStr.is_quote d = true →
  length (share_parts
            (u2 +:+ field_separator +:+ a +:+ field_separator +:+ p
             +:+ field_separator +:+ d +:+ String PyStr.dquote EmptyString
             +:+ String "010"%char EmptyString)) = 4%nat.
Proof.
  intros Hu Ha Hp Hd. unfold share_parts, PyStr.strip, PyStr.strip_by.
  set (rest := a +:+ field_separator +:+ p +:+ field_separator +:+ d
               +:+ String PyStr.dquote EmptyString
               +:+ String "010"%char EmptyString).
  assert (PyStr.lstrip_by PyStr.is_space (u2 +:+ field_separator +:+ rest)
          = PyStr.lstrip_by PyStr.is_space u2 +:+ field_separator +:+ rest)
    as ->.
  { change (field_separator +:+ rest)
      with (String PyStr.dquote
              (String ","%char (String PyStr.dquote EmptyString) +:+ rest)).
    by apply lstrip_app. }
  set (u := PyStr.lstrip_by PyStr.is_space u2).
  assert (free_of PyStr.is_quote u = true) as Hu' by by apply lstrip_keeps_free.
  subst rest. rewrite <- !append_assoc_s.
  rewrite rstrip_snoc by reflexivity.
  rewrite rstrip_last by reflexivity.
  rewrite !append_assoc_s.
  unfold PyStr.split.
  by rewrite !split_field, split_last by done.
Qed.

Lemma csv_line_broken ts u1 u2 a p d :
  csv_line [ts; u1 +:+ String "010"%char u2; a; p; d]
  = (String PyStr.dquote (ts +:+ field_separator +:+ u1)
     +:+ String "010"%char EmptyString)
    +:+ ((u2 +:+ field_separator +:+ a +:+ field_separator +:+ p
          +:+ field_separator +:+ d +:+ String PyStr.dquote EmptyString)
         +:+ String "010"%char EmptyString).
Proof.
  rewrite csv_line_shape5.
  repeat first [ rewrite append_cons | rewrite append_assoc_s ].
  reflexivity.
Qed.

Lemma terminated_line x : terminated (x +:+ String "010"%char EmptyString) = true.
Proof.
  induction x as [|c x IH]; [done|]. rewrite append_cons.
  destruct x; [done|]. exact IH.
Qed.

Lemma window_last (L : list string) (x : string) :
  L ≠ [] → x ∈ tail (last_lines 200 (L ++ [x])).
Proof.
  intros HL. rewrite window_drop, length_app. simpl.
  assert (1 ≤ length L)%nat by (destruct L; [done | simpl; lia]).
  rewrite drop_app_le by lia. apply elem_of_app. right. by left.
Qed.

Section BrokenEntry.

Variable rt : Runtime.

(** X7: An event logged with a line break inside its user name is written as
    two lines, the second of four fields, and the dashboard fails on the
    log from then on. *)
Theorem line_break_in_username_breaks_dashboard
    (u1 u2 action path details : string) (w : World) (content : string) :
  texts w !! AUDIT_LOG rt = Some (Text content) →
  content ≠ "" → terminated content = true →
  free_of is_break (utcnow_isoformat rt (clock w)) = true →
  free_of is_break u1 = true →
  plain u2 → plain action → plain path → plain details →
  ∃ content',
    texts (snd (log_event rt (u1 +:+ String "010"%char u2) action path
                  details w)) !! AUDIT_LOG rt
    = Some (Text content')
    ∧ length (entries content') = (length (entries content) + 2)%nat
    ∧ dashboard_logs content' = None.
Proof.
  intros Hfile Hne Hterm Hts Hu1 Hu2 Ha Hp Hd.
  rewrite (log_event_run _ _ _ _ _ _ _ Hfile). simpl snd.
  exists (content +:+ csv_line [utcnow_isoformat rt (clock w);
                                u1 +:+ String "010"%char u2; action; path;
                                details]).
  split; [apply lookup_insert_eq|].
  rewrite csv_line_broken.
  set (l1 := String PyStr.dquote
               (utcnow_isoformat rt (clock w) +:+ field_separator +:+ u1)).
  set (l2 := u2 +:+ field_separator +:+ action +:+ field_separator +:+ path
             +:+ field_separator +:+ details +:+ String PyStr.dquote EmptyString).
  assert (∀ s, free_of is_break s = true → free_of is_newline s = true) as Hweak.
  { intros s. apply free_of_weaken. intros c Hc. unfold is_break. by rewrite Hc. }
  assert (free_of is_newline l1 = true) as Hl1.
  { subst l1. simpl. by rewrite !free_of_append, (Hweak _ Hts), (Hweak _ Hu1). }
  assert (free_of is_newline l2 = true) as Hl2.
  { subst l2. simpl.
    by rewrite !free_of_append, (plain_one_line _ Hu2), (plain_one_line _ Ha),
      (plain_one_line _ Hp), (plain_one_line _ Hd). }
  assert (PyStr.readlines
            (content +:+ (l1 +:+ String "010"%char EmptyString)
             +:+ (l2 +:+ String "010"%char EmptyString))
          = (PyStr.readlines content
             ++ [l1 +:+ String "010"%char EmptyString])
            ++ [l2 +:+ String "010"%char EmptyString]) as Hlines.
  { rewrite readlines_app by done.
    rewrite readlines_app by apply terminated_line.
    by rewrite !readlines_line, app_assoc by done. }
  assert (PyStr.readlines content ≠ []) as Hnonempty.
  { destruct content; [done | apply readlines_nonempty]. }
  split.
  - unfold entries.
    rewrite Hlines, !length_tl, !length_app. simpl.
    destruct (PyStr.readlines content); [done | simpl; lia].
  - apply dashboard_rows_none.
    exists (l2 +:+ String "010"%char EmptyString). split.
    + rewrite Hlines. apply window_last.
      by destruct (PyStr.readlines content).
    + subst l2. rewrite !append_assoc_s.
      destruct Hu2 as [Hu2 _], Ha as [Ha _], Hp as [Hp _], Hd as [Hd _].
      by apply broken_entry_four_fields.
Qed.

End BrokenEntry.

Lemma line_break_in_username_breaks_dashboard_witness :
  ∃ content',
    texts (snd (log_event sample_runtime ("eve" +:+ String "010"%char "x")
                  "login_failed" "/login" "Unknown username" demo_world))
    !! AUDIT_LOG sample_runtime
    = Some (Text content')
    ∧ length (entries content') = (length (entries audit_header) + 2)%nat
    ∧ dashboard_logs content' = None.
Proof.
  apply (line_break_in_username_breaks_dashboard sample_runtime "eve" "x"
           "login_failed" "/login" "Unknown username" demo_world audit_header);
    [ vm_compute; reflexivity | discriminate | reflexivity
    | vm_compute; reflexivity | vm_compute; reflexivity
    | split; vm_compute; reflexivity .. ].
Defined.

(** *** Creating and copying text files *)

Lemma text_exists_run p w :
  text_exists p w = (Ok (bool_decide (is_Some (texts w !! p))), w).
Proof. reflexivity. Qed.

Lemma create_text_run p s w :
  (open_w p ≫= λ _, fwrite p s) w
  = (Ok tt, set_texts <[p := Text s]> (log_write p w)).
Proof.
  erewrite bind_run by reflexivity.
  unfold fwrite, modify, set_texts, log_write. simpl.
  rewrite lookup_insert_eq. simpl. by rewrite insert_insert_eq.
Qed.

(** X11: [ensure_csv_header] writes the header line to a file that is missing
    and to no other: a file that exists, whatever it holds, is left as it
    is, so a second call changes nothing. *)
Theorem ensure_csv_header_once (p header_line : string) (w : World) :
  ∃ w1,
    ensure_csv_header p header_line w = (Ok tt, w1)
    ∧ (is_Some (texts w !! p) → w1 = w)
    ∧ (texts w !! p = None →
       texts w1
       = <[p := Text (header_line +:+ String "010"%char EmptyString)]> (texts w))
    ∧ is_Some (texts w1 !! p)
    ∧ ensure_csv_header p header_line w1 = (Ok tt, w1)
    ∧ tables w1 = tables w.
Proof.
  unfold ensure_csv_header.
  erewrite bind_run by apply text_exists_run.
  destruct (texts w !! p) as [x|] eqn:E.
  - rewrite bool_decide_eq_true_2 by done. simpl. exists w.
    split; [done|]. split; [done|]. split; [done|]. split; [by rewrite E|].
    split; [|done].
    erewrite bind_run by apply text_exists_run.
    rewrite E. by rewrite bool_decide_eq_true_2.
  - rewrite bool_decide_eq_false_2 by (by intros [? ?]).
    exists (set_texts
              <[p := Text (header_line +:+ String "010"%char EmptyString)]>
              (log_write p w)).
    split; [exact (create_text_run _ _ _)|].
    split; [by intros [? ?]|]. split; [done|].
    simpl. rewrite lookup_insert_eq. split; [done|]. split; [|done].
    erewrite bind_run by apply text_exists_run. simpl.
    rewrite lookup_insert_eq. by rewrite bool_decide_eq_true_2.
Qed.

Lemma rsplit_dot_spec s a b :
  rsplit_dot s = Some (a, b) → s = a +:+ String "."%char b.
Proof.
  revert a b. induction s as [|c s IH]; intros a b; simpl; [done|].
  destruct (rsplit_dot s) as [[a' b']|].
  - intros [= <- <-]. rewrite append_cons. f_equal. by apply IH.
  - destruct (Ascii.eqb_spec c "."%char) as [->|]; [|done].
    by intros [= <- <-].
Qed.

Lemma append_cancel_l (a x y : string) : a +:+ x = a +:+ y → x = y.
Proof.
  induction a as [|c a IH]; [done|]. rewrite !append_cons.
  intros [= H]. by apply IH.
Qed.

Lemma append_longer (a x : string) : x ≠ "" → a +:+ x ≠ a.
Proof.
  intros Hx H. apply Hx. apply (append_cancel_l a).
  rewrite H. clear. induction a as [|c a IH]; [done|].
  by rewrite append_cons, <- IH.
Qed.

(** The copy never has the name of its source. *)
Lemma backup_name_differs (p stamp : string) :
  rsplit_base p +:+ "_" +:+ stamp +:+ ".bak.csv" ≠ p.
Proof.
  unfold rsplit_base. destruct (rsplit_dot p) as [[a b]|] eqn:E.
  - apply rsplit_dot_spec in E. intros H. rewrite E in H.
    by apply append_cancel_l in H.
  - by apply append_longer.
Qed.

Section Copies.

Variable rt : Runtime.

(** X12: [backup_file] copies a readable file to [<base>_<stamp>.bak.csv],
    which is never the file itself, and changes nothing else; when the
    source is missing it raises before any file is created; when reading
    the source fails the copy is left behind empty. *)
Theorem backup_file_copies (p : string) (w : World) :
  let dest := rsplit_base p +:+ "_" +:+ utcnow_stamp rt (clock w) +:+ ".bak.csv" in
  dest ≠ p
  ∧ (∀ content, texts w !! p = Some (Text content) →
       backup_file rt p w
       = (Ok dest, set_texts <[dest := Text content]> (log_write dest (tick w))))
  ∧ (texts w !! p = None →
       backup_file rt p w = (Raised (FileNotFoundError p), tick w))
  ∧ (texts w !! p = Some Unreadable →
       backup_file rt p w
       = (Raised (OSError p),
          set_texts <[dest := Text ""]> (log_write dest (tick w)))).
Proof.
  intros dest. pose proof (backup_name_differs p (utcnow_stamp rt (clock w)))
    as Hne. fold dest in Hne.
  split; [done|]. unfold backup_file.
  erewrite bind_run by reflexivity. fold dest.
  split; [|split].
  - intros content H.
    erewrite bind_run by (by eapply open_r_run).
    erewrite bind_run by reflexivity.
    erewrite bind_run
      by (apply read_text_run; simpl; by rewrite lookup_insert_ne).
    erewrite bind_run
      by (apply fwrite_run; simpl; by rewrite lookup_insert_eq).
    unfold mret, M_ret. f_equal. unfold set_texts, log_write. simpl.
    f_equal. by rewrite insert_insert_eq.
  - intros H. erewrite bind_raised; [done|]. unfold open_r. simpl. by rewrite H.
  - intros H.
    erewrite bind_run by (by eapply open_r_run).
    erewrite bind_run by reflexivity.
    erewrite bind_raised; [done|]. unfold read_text. simpl.
    rewrite lookup_insert_ne by done. by rewrite H.
Qed.

(** *** A clear of the audit log that fails *)

(** X10: When the live log is missing or cannot be read, [admin_audit_clear]
    reports the failure and leaves the live log and the CSV files as they
    were: the log is truncated only after its copy has been written. *)
Theorem failed_clear_keeps_log (sess : Session) (req : Request) (w : World) :
  logged_in sess = true → sess_role sess = Some "Administrator" →
  (∀ content, texts w !! AUDIT_LOG rt ≠ Some (Text content)) →
  let res := admin_audit_clear rt sess req w in
  ∃ e,
    fst res = Ok (Redirect "/admin")
    ∧ texts (snd res) !! AUDIT_LOG rt = texts w !! AUDIT_LOG rt
    ∧ tables (snd res) = tables w
    ∧ flashes (snd res)
      = flashes w ++ [("Failed to clear audit log: " +:+ exn_str rt e, "danger")]
    ∧ (texts w !! AUDIT_LOG rt = None →
       e = FileNotFoundError (AUDIT_LOG rt) ∧ texts (snd res) = texts w
       ∧ written (snd res) = written w).
Proof.
  intros Hl Hr Hlog res. subst res. unfold admin_audit_clear.
  rewrite admin_gate by done.
  erewrite bind_run by reflexivity. cbv zeta.
  pose proof (backup_ne_log rt (clock w)) as Hne. unfold backup_path in Hne.
  match goal with |- context [try_except ?b ?h] => set (body := b) end.
  destruct (texts w !! AUDIT_LOG rt) as [[content|]|] eqn:E.
  - by destruct (Hlog content).
  - exists (OSError (AUDIT_LOG rt)).
    assert (body (tick w)
            = (Raised (OSError (AUDIT_LOG rt)),
               set_texts
                 <[PyStr.replace ".csv" "" (AUDIT_LOG rt) +:+ "_"
                   +:+ utcnow_stamp rt (clock w) +:+ ".bak.csv" := Text ""]>
                 (log_write
                    (PyStr.replace ".csv" "" (AUDIT_LOG rt) +:+ "_"
                     +:+ utcnow_stamp rt (clock w) +:+ ".bak.csv") (tick w))))
      as Hbody.
    { subst body.
      erewrite bind_run by (eapply open_r_run; simpl; exact E).
      erewrite bind_run by reflexivity.
      erewrite bind_raised; [reflexivity|].
      unfold read_text. simpl. rewrite lookup_insert_ne by done.
      by rewrite E. }
    erewrite bind_run
      by (unfold try_except; rewrite Hbody; reflexivity).
    simpl. rewrite lookup_insert_ne by done. by rewrite E.
  - exists (FileNotFoundError (AUDIT_LOG rt)).
    assert (body (tick w) = (Raised (FileNotFoundError (AUDIT_LOG rt)), tick w))
      as Hbody.
    { subst body. erewrite bind_raised; [reflexivity|].
      unfold open_r. simpl. by rewrite E. }
    erewrite bind_run
      by (unfold try_except; rewrite Hbody; reflexivity).
    simpl. by rewrite E.
Qed.

End Copies.

Lemma failed_clear_keeps_log_witness :
  ∃ e,
    fst (admin_audit_clear sample_runtime admin_session (post [])
           (world_of empty_tables ∅))
    = Ok (Redirect "/admin")
    ∧ texts (snd (admin_audit_clear sample_runtime admin_session (post [])
                    (world_of empty_tables ∅))) !! AUDIT_LOG sample_runtime
      = texts (world_of empty_tables ∅) !! AUDIT_LOG sample_runtime
    ∧ tables (snd (admin_audit_clear sample_runtime admin_session (post [])
                     (world_of empty_tables ∅)))
      = tables (world_of empty_tables ∅)
    ∧ flashes (snd (admin_audit_clear sample_runtime admin_session (post [])
                      (world_of empty_tables ∅)))
      = flashes (world_of empty_tables ∅)
        ++ [("Failed to clear audit log: " +:+ exn_str sample_runtime e,
             "danger")]
    ∧ (texts (world_of empty_tables ∅) !! AUDIT_LOG sample_runtime = None →
       e = FileNotFoundError (AUDIT_LOG sample_runtime)
       ∧ texts (snd (admin_audit_clear sample_runtime admin_session (post [])
                       (world_of empty_tables ∅)))
         = texts (world_of empty_tables ∅)
       ∧ written (snd (admin_audit_clear sample_runtime admin_session (post [])
                         (world_of empty_tables ∅)))
         = written (world_of empty_tables ∅)).
Proof.
  apply (failed_clear_keeps_log sample_runtime admin_session (post [])
           (world_of empty_tables ∅) eq_refl eq_refl).
  intros content. vm_compute. discriminate.
Defined.

(** *** The registry from its creation on *)

Lemma scan_after_share username role content t v b ts :
  content ≠ "" → terminated content = true →
  plain t → plain v → plain b → plain ts → t ≠ "," →
  scan_shares username role (entries (content +:+ csv_line [t; v; b; ts])) = true
  ↔ scan_shares username role (entries content) = true
    ∨ names_caller username role t v.
Proof.
  intros Hne Hterm Ht Hv Hb Hs Hcomma.
  destruct (csv_line_newline_free t v b ts) as (x & Hx & Hfree);
    try by apply plain_one_line.
  rewrite Hx, entries_append by done.
  rewrite scan_shares_snoc, <- Hx.
  destruct Ht as [Ht _], Hv as [Hv _], Hb as [Hb _], Hs as [Hs _].
  by rewrite share_parts_line, grants_fields.
Qed.

Lemma free_of_break_newline s :
  free_of is_break s = true → free_of is_newline s = true.
Proof.
  apply free_of_weaken. intros c Hc. unfold is_break. by rewrite Hc.
Qed.

Section Registry.

Variable rt : Runtime.

Lemma add_dataset_share_missing shared_type shared_value shared_by w :
  texts w !! SHARES_CSV rt = None →
  add_dataset_share rt shared_type shared_value shared_by w
  = (Ok tt,
     set_texts
       <[SHARES_CSV rt :=
           Text (csv_line [shared_type; shared_value; shared_by;
                           utcnow_isoformat rt (clock w)])]>
       (log_write (SHARES_CSV rt) (tick w))).
Proof.
  intros H. unfold add_dataset_share.
  erewrite bind_run by reflexivity.
  unfold append_text, open_a, modify.
  erewrite bind_run by reflexivity.
  unfold fwrite, modify, set_texts, log_write. simpl. rewrite !H. simpl.
  rewrite lookup_insert_eq. simpl. by rewrite insert_insert_eq.
Qed.

(** X2: A share added while the registry file is missing creates the file
    without its header line; the share stands where the header is
    expected and is skipped, so it shows the dataset to nobody. *)
Theorem share_without_header_is_lost (shared_type shared_value shared_by : string)
    (username role : string) (w : World) :
  texts w !! SHARES_CSV rt = None →
  role ≠ "Administrator" →
  free_of is_break shared_type = true → free_of is_break shared_value = true →
  free_of is_break shared_by = true →
  free_of is_break (utcnow_isoformat rt (clock w)) = true →
  let w' := snd (add_dataset_share rt shared_type shared_value shared_by w) in
  is_dataset_shared_for_user rt username role w' = (Ok false, w').
Proof.
  intros Hfile Hrole Ht Hv Hb Hs w'. subst w'.
  rewrite (add_dataset_share_missing _ _ _ _ Hfile). simpl snd.
  rewrite (visibility_run _ _ _ _
             (csv_line [shared_type; shared_value; shared_by;
                        utcnow_isoformat rt (clock w)]))
    by apply lookup_insert_eq.
  destruct (String.eqb_spec role "Administrator") as [|_]; [done|].
  rewrite orb_false_l.
  destruct (csv_line_newline_free shared_type shared_value shared_by
              (utcnow_isoformat rt (clock w))) as (x & Hx & Hfree);
    try by apply free_of_break_newline.
  unfold entries. by rewrite Hx, readlines_line.
Qed.

Lemma create_shares_csv_run w :
  texts w !! SHARES_CSV rt = None →
  create_shares_csv rt w
  = (Ok tt, set_texts <[SHARES_CSV rt := Text shares_header]>
              (log_write (SHARES_CSV rt) w)).
Proof.
  intros H. unfold create_shares_csv.
  erewrite bind_run by apply text_exists_run.
  rewrite H, bool_decide_eq_false_2 by (by intros [? ?]).
  exact (create_text_run _ _ _).
Qed.

(** X3: The registry that the module creates when none exists holds the
    header and no entry: nobody but an Administrator sees the dataset,
    and a share added to it with plain fields shows the dataset exactly
    to the role or the user it names.  An existing file is left as it
    is. *)
Theorem created_registry_honours_shares
    (shared_type shared_value shared_by : string) (username role : string)
    (w : World) :
  role ≠ "Administrator" →
  plain shared_type → plain shared_value → plain shared_by →
  plain (utcnow_isoformat rt (clock w)) → shared_type ≠ "," →
  let w1 := snd (create_shares_csv rt w) in
  let w2 := snd (add_dataset_share rt shared_type shared_value shared_by w1) in
  (is_Some (texts w !! SHARES_CSV rt) → w1 = w)
  ∧ (texts w !! SHARES_CSV rt = None →
     is_dataset_shared_for_user rt username role w1 = (Ok false, w1)
     ∧ ∃ b, is_dataset_shared_for_user rt username role w2 = (Ok b, w2)
            ∧ (b = true ↔ names_caller username role shared_type shared_value)).
Proof.
  intros Hrole Ht Hv Hb Hs Hcomma w1 w2. split.
  - intros [x Hx]. subst w1. unfold create_shares_csv.
    erewrite bind_run by apply text_exists_run.
    rewrite Hx. by rewrite bool_decide_eq_true_2.
  - intros Hfile. subst w2 w1.
    rewrite (create_shares_csv_run _ Hfile). cbn [snd].
    set (w1 := set_texts _ _).
    assert (texts w1 !! SHARES_CSV rt = Some (Text shares_header)) as H1
      by apply lookup_insert_eq.
    assert (String.eqb role "Administrator" = false) as Hr
      by by apply String.eqb_neq.
    split.
    { rewrite (visibility_run _ _ _ _ _ H1), Hr. reflexivity. }
    rewrite (add_dataset_share_run _ _ _ _ _ _ H1). cbn [snd].
    eexists. split.
    { apply (visibility_run _ _ _ _
               (shares_header
                +:+ csv_line [shared_type; shared_value; shared_by;
                              utcnow_isoformat rt (clock w1)])).
      apply lookup_insert_eq. }
    rewrite Hr, orb_false_l.
    change (clock w1) with (clock w).
    rewrite scan_after_share by done.
    split; [intros [H|H]; [done | done] | by right].
Qed.

End Registry.

Lemma share_without_header_is_lost_witness :
  is_dataset_shared_for_user sample_runtime "bob" "Investor"
    (snd (add_dataset_share sample_runtime "role" "Investor" "root"
            (world_of empty_tables ∅)))
  = (Ok false,
     snd (add_dataset_share sample_runtime "role" "Investor" "root"
            (world_of empty_tables ∅))).
Proof.
  apply (share_without_header_is_lost sample_runtime "role" "Investor" "root"
           "bob" "Investor" (world_of empty_tables ∅));
    [ vm_compute; reflexivity | discriminate | vm_compute; reflexivity .. ].
Defined.

Lemma created_registry_honours_shares_witness :
  (is_Some (texts (world_of empty_tables ∅) !! SHARES_CSV sample_runtime) →
   snd (create_shares_csv sample_runtime (world_of empty_tables ∅))
   = world_of empty_tables ∅)
  ∧ (texts (world_of empty_tables ∅) !! SHARES_CSV sample_runtime = None →
     is_dataset_shared_for_user sample_runtime "bob" "Investor"
       (snd (create_shares_csv sample_runtime (world_of empty_tables ∅)))
     = (Ok false, snd (create_shares_csv sample_runtime (world_of empty_tables ∅)))
     ∧ ∃ b,
         is_dataset_shared_for_user sample_runtime "bob" "Investor"
           (snd (add_dataset_share sample_runtime "role" "Investor" "root"
                   (snd (create_shares_csv sample_runtime
                           (world_of empty_tables ∅)))))
         = (Ok b,
            snd (add_dataset_share sample_runtime "role" "Investor" "root"
                   (snd (create_shares_csv sample_runtime
                           (world_of empty_tables ∅)))))
         ∧ (b = true ↔ names_caller "bob" "Investor" "role" "Investor")).
Proof.
  apply (created_registry_honours_shares sample_runtime "role" "Investor" "root"
           "bob" "Investor" (world_of empty_tables ∅));
    [ discriminate | split; vm_compute; reflexivity .. | discriminate ].
Defined.

(** *** Who is shown the dataset *)

Section DatasetAccess.

Variable rt : Runtime.

Lemma shares_csv_suffix : ends_with "res.csv" (SHARES_CSV rt).
Proof.
  unfold SHARES_CSV, data_file, PyStr.path_join.
  change (String.prefix "/" "dataset_shares.csv") with false. cbv iota.
  destruct (_ || _).
  - exists (DATA_DIR rt +:+ "dataset_sha"). by rewrite append_assoc_s.
  - exists (DATA_DIR rt +:+ "/dataset_sha"). by rewrite append_assoc_s.
Qed.

Lemma shares_ne_audit : SHARES_CSV rt ≠ AUDIT_LOG rt.
Proof.
  intros H.
  apply (ends_with_clash "res.csv" "log.csv" (SHARES_CSV rt));
    [done | done | apply shares_csv_suffix |].
  rewrite H. destruct (audit_log_suffix rt) as [x ->].
  exists (x +:+ "_"). by rewrite append_assoc_s.
Qed.

Lemma log_event_effect username action path details w :
  ∃ w', log_event rt username action path details w = (Ok tt, w')
        ∧ tables w' = tables w
        ∧ flashes w' = flashes w
        ∧ globals w' = globals w
        ∧ (∀ p, p ≠ AUDIT_LOG rt → texts w' !! p = texts w !! p).
Proof.
  unfold log_event. erewrite bind_run by reflexivity.
  unfold append_text, open_a, modify.
  erewrite bind_run by reflexivity.
  unfold fwrite, modify. eexists. split; [reflexivity|].
  split; [done|]. split; [done|]. split; [done|]. intros p Hp. simpl.
  destruct (texts w !! AUDIT_LOG rt) as [[old|]|] eqn:E; simpl; rewrite ?E;
    simpl; rewrite ?lookup_insert_eq; simpl;
    by rewrite ?lookup_insert_ne by done.
Qed.

Lemma scan_user_shares_cons username ln rest :
  scan_user_shares username (ln :: rest) = true
  ↔ user_grant username (share_parts ln)
    ∨ scan_user_shares username rest = true.
Proof.
  unfold user_grant. simpl scan_user_shares.
  destruct (share_parts ln) as [|a [|b [|c [|d ps]]]]; simpl;
    try (split; [by right | intros [[? _]|?]; [lia | done]]).
  destruct (String.eqb_spec a "user") as [->|Ha];
    destruct (String.eqb_spec b username) as [->|Hb]; simpl.
  - split; [intros _; left; split; [lia | done] | done].
  - split; [by right|]. intros [[_ [_ [= ?]]]|?]; done.
  - split; [by right|]. intros [[_ [[= ?] _]]|?]; done.
  - split; [by right|]. intros [[_ [[= ?] _]]|?]; done.
Qed.

Lemma scan_user_shares_spec username lines :
  scan_user_shares username lines = true
  ↔ ∃ parts, parts ∈ share_parts <$> lines ∧ user_grant username parts.
Proof.
  induction lines as [|ln rest IH].
  - simpl. split; [done|]. intros (parts & Hin & _). by apply elem_of_nil in Hin.
  - rewrite scan_user_shares_cons, IH, fmap_cons. split.
    + intros [H|(parts & Hin & H)].
      * exists (share_parts ln). split; [by left | done].
      * exists parts. split; [by right | done].
    + intros (parts & Hin & H). apply elem_of_cons in Hin as [->|Hin].
      * by left.
      * right. by exists parts.
Qed.

(** *** A registry of shares *)

Lemma registry_snoc es e :
  registry_of (es ++ [e]) = registry_of es +:+ share_line e.
Proof. unfold registry_of. by rewrite foldl_app. Qed.

Lemma share_line_newline e :
  plain_share e →
  ∃ x, share_line e = x +:+ String "010"%char EmptyString
       ∧ free_of is_newline x = true.
Proof.
  intros (Ht & Hv & Hb & Hs).
  apply csv_line_newline_free; by apply plain_one_line.
Qed.

Lemma terminated_append a b :
  b ≠ "" → terminated b = true → terminated (a +:+ b) = true.
Proof.
  intros Hb Ht. induction a as [|c a IH]; [done|].
  rewrite append_cons. simpl.
  destruct (a +:+ b) eqn:E; [|done].
  destruct a; [|done]. simpl in E. done.
Qed.

Lemma registry_wellformed es :
  Forall plain_share es →
  registry_of es ≠ "" ∧ terminated (registry_of es) = true
  ∧ entries (registry_of es) = share_line <$> es.
Proof.
  induction es as [|e es IH] using rev_ind; intros H.
  - split; [done|]. split; reflexivity.
  - apply Forall_app in H as [Hes He]. apply Forall_inv in He.
    destruct (IH Hes) as (Hne & Hterm & Hent).
    destruct (share_line_newline e He) as (x & Hx & Hfree).
    rewrite registry_snoc, Hx. split; [|split].
    + destruct (registry_of es); [done|]. by rewrite append_cons.
    + apply terminated_append; [by destruct x|apply terminated_line].
    + rewrite entries_append by done. rewrite Hent, fmap_app. cbn [fmap list_fmap]. by rewrite Hx.
Qed.

(** A line whose first field is a lone comma is split one character
    early: its first field reads back empty. *)
Lemma share_parts_comma v b ts :
  ∃ rest, share_parts (csv_line [","; v; b; ts]) = "" :: rest.
Proof.
  unfold share_parts. rewrite csv_line_shape.
  rewrite <- !append_assoc_s, strip_line, !append_assoc_s.
  unfold PyStr.split. rewrite split_from_cons.
  change (String PyStr.dquote ("," +:+ field_separator +:+ v +:+ field_separator
            +:+ b +:+ field_separator +:+ ts +:+ String PyStr.dquote ""))
    with (field_separator +:+ String ","%char (String PyStr.dquote "")
            +:+ v +:+ field_separator
            +:+ b +:+ field_separator +:+ ts +:+ String PyStr.dquote "").
  rewrite prefix_separator_here. rewrite fmap_cons. by eexists.
Qed.

Lemma share_line_parts e :
  plain_share e →
  (scope_type e ≠ "," →
   share_parts (share_line e)
   = [scope_type e; scope_value e; granted_by e; granted_at e])
  ∧ (scope_type e = "," → ∃ rest, share_parts (share_line e) = "" :: rest).
Proof.
  intros ([Ht _] & [Hv _] & [Hb _] & [Hs _]). unfold share_line. split.
  - intros Hne. by apply share_parts_line.
  - intros ->. apply share_parts_comma.
Qed.

Lemma grants_share_line username role e :
  plain_share e →
  grants username role (share_parts (share_line e)) ↔ names username role e.
Proof.
  intros He. destruct (share_line_parts e He) as [Hok Hcomma].
  destruct (decide (scope_type e = ",")) as [Hc|Hc].
  - destruct (Hcomma Hc) as [rest ->]. unfold grants, names, names_caller.
    rewrite Hc. split.
    + by intros (_ & [[[= ?] _]|[[= ?] _]]).
    + by intros [[[= ?] _]|[[= ?] _]].
  - rewrite (Hok Hc). apply grants_fields.
Qed.

Lemma user_grant_share_line username e :
  plain_share e →
  user_grant username (share_parts (share_line e))
  ↔ scope_type e = "user" ∧ scope_value e = username.
Proof.
  intros He. destruct (share_line_parts e He) as [Hok Hcomma].
  destruct (decide (scope_type e = ",")) as [Hc|Hc].
  - destruct (Hcomma Hc) as [rest ->]. unfold user_grant. rewrite Hc. split.
    + by intros (_ & [= ?] & _).
    + by intros [[= ?] _].
  - rewrite (Hok Hc). unfold user_grant. simpl. split.
    + by intros (_ & [= ->] & [= ->]).
    + intros [-> ->]. split; [lia|done].
Qed.

(** The loop over a registry of plain shares finds exactly the shares
    that name the caller. *)
Lemma scan_registry username role es :
  Forall plain_share es →
  scan_shares username role (entries (registry_of es)) = true
  ↔ ∃ e, e ∈ es ∧ names username role e.
Proof.
  intros Hes. destruct (registry_wellformed es Hes) as (_ & _ & ->).
  rewrite scan_shares_spec. split.
  - intros (parts & Hin & Hg).
    apply list_elem_of_fmap in Hin as (ln & -> & Hin).
    apply list_elem_of_fmap in Hin as (e & -> & Hin).
    exists e. split; [done|]. apply grants_share_line; [|done].
    by apply (proj1 (Forall_forall _ _) Hes).
  - intros (e & Hin & Hn). exists (share_parts (share_line e)). split.
    + apply list_elem_of_fmap. exists (share_line e). split; [done|].
      apply list_elem_of_fmap. by exists e.
    + apply grants_share_line; [|done].
      by apply (proj1 (Forall_forall _ _) Hes).
Qed.

Lemma scan_user_registry username es :
  Forall plain_share es →
  scan_user_shares username (entries (registry_of es)) = true
  ↔ ∃ e, e ∈ es ∧ scope_type e = "user" ∧ scope_value e = username.
Proof.
  intros Hes. destruct (registry_wellformed es Hes) as (_ & _ & ->).
  rewrite scan_user_shares_spec. split.
  - intros (parts & Hin & Hg).
    apply list_elem_of_fmap in Hin as (ln & -> & Hin).
    apply list_elem_of_fmap in Hin as (e & -> & Hin).
    exists e. split; [done|]. apply user_grant_share_line; [|done].
    by apply (proj1 (Forall_forall _ _) Hes).
  - intros (e & Hin & Hn). exists (share_parts (share_line e)). split.
    + apply list_elem_of_fmap. exists (share_line e). split; [done|].
      apply list_elem_of_fmap. by exists e.
    + apply user_grant_share_line; [|done].
      by apply (proj1 (Forall_forall _ _) Hes).
Qed.

(** X4: [dataset_view]: a visitor who is not logged in is sent to the login
    page and nothing changes.  An Administrator is shown the dataset.  On
    a registry that holds the header and the lines of shares whose fields
    have no double quote and no line break, a logged-in user of another
    role is shown the dataset exactly when one of the shares is for the
    role or for the user name; a session without a role only when one of
    the shares is for the user name.  When the registry is missing or
    cannot be read, anyone but an Administrator is refused.  A user who
    is refused is sent to the dashboard with a warning, and the refusal
    leaves no entry in the audit log. *)
Theorem dataset_view_access (uploaded_df : DataFrame) (sess : Session)
    (w : World) :
  let user := default "anonymous" (sess_username sess) in
  let shown w' :=
    dataset_view rt uploaded_df sess w
    = (Ok (Rendered
             {| dataset_role := sess_role sess;
                dataset_records :=
                  if Frame.empty uploaded_df then [] else rows uploaded_df;
                dataset_cols :=
                  if Frame.empty uploaded_df then []
                  else columns uploaded_df |}), w')
    ∧ tables w' = tables w ∧ flashes w' = flashes w in
  let turned_away :=
    dataset_view rt uploaded_df sess w
    = (Ok (Redirected "/dashboard"),
       add_flash ("Dataset not shared with you.", "warning") w) in
  (logged_in sess = false →
   dataset_view rt uploaded_df sess w = (Ok (Redirected "/login"), w))
  ∧ (logged_in sess = true → sess_role sess = Some "Administrator" →
     ∃ w', shown w')
  ∧ (∀ role es,
       logged_in sess = true → sess_role sess = Some role →
       role ≠ "Administrator" →
       texts w !! SHARES_CSV rt = Some (Text (registry_of es)) →
       Forall plain_share es →
       ((∃ e, e ∈ es ∧ names user role e) → ∃ w', shown w')
       ∧ (¬ (∃ e, e ∈ es ∧ names user role e) → turned_away))
  ∧ (∀ es,
       logged_in sess = true → sess_role sess = None →
       texts w !! SHARES_CSV rt = Some (Text (registry_of es)) →
       Forall plain_share es →
       ((∃ e, e ∈ es ∧ scope_type e = "user" ∧ scope_value e = user) →
        ∃ w', shown w')
       ∧ (¬ (∃ e, e ∈ es ∧ scope_type e = "user" ∧ scope_value e = user) →
          turned_away))
  ∧ (logged_in sess = true → sess_role sess ≠ Some "Administrator" →
     texts w !! SHARES_CSV rt = None
     ∨ texts w !! SHARES_CSV rt = Some Unreadable →
     turned_away).
Proof.
  intros user shown turned_away.
  split; [intros Hl; unfold dataset_view; by rewrite Hl|].
  assert (logged_in sess = true →
          shared_for_session rt user (sess_role sess) w = (Ok true, w) →
          ∃ w', shown w') as Hyes.
  { intros Hl Hrun.
    destruct (log_event_effect user "page_view" "/dataset"
                "Viewed uploaded dataset" w) as (w' & Hlog & Ht & Hf & _).
    exists w'. subst shown. cbv beta. split; [|done].
    unfold dataset_view. rewrite Hl. cbn [negb]. fold user.
    erewrite bind_run by exact Hrun. cbn [negb].
    erewrite bind_run by exact Hlog.
    by destruct (Frame.empty uploaded_df). }
  assert (logged_in sess = true →
          shared_for_session rt user (sess_role sess) w = (Ok false, w) →
          turned_away) as Hno.
  { intros Hl Hrun. subst turned_away.
    unfold dataset_view. rewrite Hl. cbn [negb]. fold user.
    by erewrite bind_run by exact Hrun. }
  split; [|split; [|split]].
  - intros Hl Hr. apply Hyes; [done|]. by rewrite Hr.
  - intros role es Hl Hr Hrole Hfile Hes.
    assert (shared_for_session rt user (sess_role sess) w
            = (Ok (scan_shares user role (entries (registry_of es))), w))
      as Hrun.
    { rewrite Hr. cbn [shared_for_session].
      rewrite (visibility_run _ _ _ _ _ Hfile).
      assert (String.eqb role "Administrator" = false) as ->
        by by apply String.eqb_neq.
      by rewrite orb_false_l. }
    split.
    + intros H. apply (scan_registry _ _ _ Hes) in H. rewrite H in Hrun.
      by apply Hyes.
    + intros H. apply Hno; [done|].
      destruct (scan_shares user role (entries (registry_of es))) eqn:E;
        [|done].
      exfalso. by apply H, (scan_registry _ _ _ Hes).
  - intros es Hl Hr Hfile Hes.
    assert (shared_for_session rt user (sess_role sess) w
            = (Ok (scan_user_shares user (entries (registry_of es))), w))
      as Hrun.
    { rewrite Hr. cbn [shared_for_session].
      erewrite bind_run by apply text_exists_run.
      rewrite Hfile, bool_decide_eq_true_2 by done. cbn [negb].
      unfold try_except. erewrite bind_run by (by apply read_text_run).
      reflexivity. }
    split.
    + intros H. apply (scan_user_registry _ _ Hes) in H. rewrite H in Hrun.
      by apply Hyes.
    + intros H. apply Hno; [done|].
      destruct (scan_user_shares user (entries (registry_of es))) eqn:E;
        [|done].
      exfalso. by apply H, (scan_user_registry _ _ Hes).
  - intros Hl Hr Hfile. apply Hno; [done|].
    destruct (sess_role sess) as [role|]; cbn [shared_for_session].
    + unfold is_dataset_shared_for_user.
      destruct (String.eqb_spec role "Administrator") as [->|_]; [done|].
      unfold mbind, M_bind, text_exists, gets, try_except, read_text.
      by destruct Hfile as [E|E]; rewrite ?E; simpl; rewrite ?E.
    + unfold mbind, M_bind, text_exists, gets, try_except, read_text.
      by destruct Hfile as [E|E]; rewrite ?E; simpl; rewrite ?E.
Qed.

End DatasetAccess.

Section Visibility.

Variable rt : Runtime.


End Visibility.

Section SharingPages.

Variable rt : Runtime.

Lemma admin_gate_as {R} (to : string → R) (f : Session → Request → M R) sess req :
  logged_in sess = true → sess_role sess = Some "Administrator" →
  admin_required_as to f sess req = f sess req.
Proof.
  intros Hl Hr. unfold admin_required_as. rewrite Hl, Hr. reflexivity.
Qed.

Lemma form_item_run req k v w :
  form req !! k = Some v → form_item req k w = (Ok v, w).
Proof. intros H. unfold form_item. by rewrite H. Qed.

(** X5: The share page and the dataset page fit together: once an
    Administrator has posted a share with plain fields to a registry that
    has its header, every logged-in user whom the share names, by role or
    by user name, is shown the uploaded dataset. *)
Theorem shared_dataset_is_shown (admin viewer : Session) (req : Request)
    (uploaded_df : DataFrame) (w : World) (content : string)
    (shared_type shared_value role : string) :
  logged_in admin = true → sess_role admin = Some "Administrator" →
  method req = "POST" →
  form req !! "shared_type" = Some shared_type →
  form req !! "shared_value" = Some shared_value →
  texts w !! SHARES_CSV rt = Some (Text content) →
  content ≠ "" → terminated content = true →
  plain shared_type → plain shared_value →
  plain (default "None" (sess_username admin)) →
  plain (utcnow_isoformat rt (clock w)) → shared_type ≠ "," →
  logged_in viewer = true → sess_role viewer = Some role →
  names_caller (default "anonymous" (sess_username viewer)) role
    shared_type shared_value →
  let res := admin_dataset_share rt admin req w in
  fst res = Ok (Redirected "/admin")
  ∧ tables (snd res) = tables w
  ∧ ∃ w2,
      dataset_view rt uploaded_df viewer (snd res)
      = (Ok (Rendered
               {| dataset_role := Some role;
                  dataset_records :=
                    if Frame.empty uploaded_df then [] else rows uploaded_df;
                  dataset_cols :=
                    if Frame.empty uploaded_df then [] else columns uploaded_df |}),
         w2).
Proof.
  intros Hl Hr Hpost Ht Hv Hfile Hne Hterm Hpt Hpv Hpb Hps Hcomma
    Hvl Hvr Hnames res.
  set (line := csv_line [shared_type; shared_value;
                         default "None" (sess_username admin);
                         utcnow_isoformat rt (clock w)]).
  assert (∃ w1, res = (Ok (Redirected "/admin"), w1)
                ∧ tables w1 = tables w
                ∧ texts w1 !! SHARES_CSV rt = Some (Text (content +:+ line)))
    as (w1 & -> & Htab & Hshares).
  { subst res. unfold admin_dataset_share. rewrite admin_gate_as by done.
    rewrite Hpost, String.eqb_refl.
    erewrite bind_run by (by apply form_item_run).
    erewrite bind_run by (by apply form_item_run).
    erewrite bind_run by (by apply add_dataset_share_run).
    set (w0 := set_texts _ _).
    destruct (log_event_effect rt (session_user admin) "dataset_share"
                "/admin/dataset/share"
                ("Shared dataset with " +:+ shared_type +:+ ":" +:+ shared_value)
                w0) as (w' & Hrun & Htab & _ & _ & Htexts).
    erewrite bind_run by exact Hrun.
    eexists. split; [reflexivity|]. simpl. split; [by rewrite Htab|].
    rewrite Htexts by apply shares_ne_audit.
    subst w0. simpl. by rewrite lookup_insert_eq. }
  cbn [fst snd]. split; [done|]. split; [done|].
  set (user := default "anonymous" (sess_username viewer)) in *.
  assert (scan_shares user role (entries (content +:+ line)) = true) as Hscan.
  { subst line. apply scan_after_share; try done. by right. }
  unfold dataset_view. rewrite Hvl, Hvr. fold user.
  change (negb true) with false. cbv iota.
  erewrite bind_run by (by apply visibility_run).
  rewrite Hscan, orb_true_r. change (negb true) with false. cbv iota.
  destruct (log_event_effect rt user "page_view" "/dataset"
              "Viewed uploaded dataset" w1) as (w2 & Hrun & _).
  erewrite bind_run by exact Hrun.
  exists w2. by destruct (Frame.empty uploaded_df).
Qed.

End SharingPages.

Lemma shared_dataset_is_shown_witness :
  fst (admin_dataset_share sample_runtime admin_session share_with_investors
         demo_world) = Ok (Redirected "/admin")
  ∧ tables (snd (admin_dataset_share sample_runtime admin_session
                   share_with_investors demo_world)) = tables demo_world
  ∧ ∃ w2,
      dataset_view sample_runtime three_ids investor_bob
        (snd (admin_dataset_share sample_runtime admin_session
                share_with_investors demo_world))
      = (Ok (Rendered
               {| dataset_role := Some "Investor";
                  dataset_records :=
                    if Frame.empty three_ids then [] else rows three_ids;
                  dataset_cols :=
                    if Frame.empty three_ids then [] else columns three_ids |}),
         w2).
Proof.
  apply (shared_dataset_is_shown sample_runtime admin_session investor_bob
           share_with_investors three_ids demo_world
           ("SharedType,SharedValue,SharedBy,Timestamp" +:+ String "010"%char "")
           "role" "Investor" "Investor");
    [ reflexivity | reflexivity | reflexivity
    | vm_compute; reflexivity | vm_compute; reflexivity
    | vm_compute; reflexivity | discriminate | reflexivity
    | split; vm_compute; reflexivity ..
    | discriminate | reflexivity | reflexivity
    | left; split; reflexivity ].
Defined.

(** *** The store on a file that is missing or lacks a column *)

(** X13: Appending to a collection without columns, which is what a missing
    file loads as, raises [ValueError] and writes nothing: the file is
    not created.  [append_csv_row] behaves as the method does. *)
Theorem append_needs_columns (self : CSVStore) (row_dict : gmap string cell)
    (w : World) :
  columns (stored self w) = [] →
  (∃ msg, append_row self row_dict w = (Raised (ValueError msg), w))
  ∧ append_csv_row (path self) row_dict w = append_row self row_dict w.
Proof.
  intros H. split; [|reflexivity].
  unfold append_row. erewrite bind_run by apply load_stored.
  unfold Frame.loc_append. rewrite H. by eexists.
Qed.

Lemma append_needs_columns_witness :
  (∃ msg, append_row sample_store {[ "ID" := CInt 1 ]} (world_of ∅ ∅)
          = (Raised (ValueError msg), world_of ∅ ∅))
  ∧ append_csv_row (path sample_store) {[ "ID" := CInt 1 ]} (world_of ∅ ∅)
    = append_row sample_store {[ "ID" := CInt 1 ]} (world_of ∅ ∅).
Proof.
  apply (append_needs_columns sample_store {[ "ID" := CInt 1 ]} (world_of ∅ ∅)).
  reflexivity.
Defined.

Lemma lookup_align cols d c :
  Frame.align cols d !! c
  = if bool_decide (c ∈ cols) then Some (default CNaN (d !! c)) else None.
Proof.
  case_bool_decide as Hin.
  - pose proof (get_align cols d c Hin) as H. unfold Frame.get in H.
    destruct (Frame.align cols d !! c) as [x|] eqn:E.
    + simpl in H. by rewrite H.
    + exfalso. apply not_elem_of_list_to_map in E. apply E.
      rewrite <- list_fmap_compose. simpl.
      by rewrite list_fmap_id.
  - apply not_elem_of_list_to_map_1. rewrite <- list_fmap_compose. simpl.
    by rewrite list_fmap_id.
Qed.

(** X14: Appending to a collection with columns hands back and stores the
    collection with one more record at its end: under every column the
    value the dict has for it, a missing value where the dict has none;
    what the dict holds under other keys is dropped.  The records stored
    before are kept as they were, and no other file changes. *)
Theorem append_row_stores_aligned (self : CSVStore) (row_dict : gmap string cell)
    (w : World) :
  columns (stored self w) ≠ [] →
  ∃ df' r w',
    append_row self row_dict w = (Ok df', w')
    ∧ stored self w' = df'
    ∧ columns df' = columns (stored self w)
    ∧ rows df' = rows (stored self w) ++ [r]
    ∧ (∀ c, r !! c = if bool_decide (c ∈ columns (stored self w))
                     then Some (default CNaN (row_dict !! c)) else None)
    ∧ (∀ p, p ≠ path self → tables w' !! p = tables w !! p)
    ∧ texts w' = texts w
    ∧ append_csv_row (path self) row_dict w = (Ok df', w').
Proof.
  intros H. rewrite (append_row_run _ _ _ H). cbv zeta.
  eexists _, _, _. split; [reflexivity|].
  split; [apply stored_after_save|]. split; [done|]. split; [done|].
  split; [apply lookup_align|]. split.
  { intros p Hp. simpl. by rewrite lookup_insert_ne. }
  split; [done|].
  change (append_csv_row (path self) row_dict w) with (append_row self row_dict w).
  by rewrite (append_row_run _ _ _ H).
Qed.

Lemma append_row_stores_aligned_witness :
  ∃ df' r w',
    append_row sample_store {[ "ID" := CInt 4; "Age" := CInt 7 ]} sample_world
    = (Ok df', w')
    ∧ stored sample_store w' = df'
    ∧ columns df' = columns (stored sample_store sample_world)
    ∧ rows df' = rows (stored sample_store sample_world) ++ [r]
    ∧ (∀ c, r !! c
            = if bool_decide (c ∈ columns (stored sample_store sample_world))
              then Some (default CNaN
                           (({[ "ID" := CInt 4; "Age" := CInt 7 ]}
                             : gmap string cell) !! c))
              else None)
    ∧ (∀ p, p ≠ path sample_store → tables w' !! p = tables sample_world !! p)
    ∧ texts w' = texts sample_world
    ∧ append_csv_row (path sample_store) {[ "ID" := CInt 4; "Age" := CInt 7 ]}
        sample_world = (Ok df', w').
Proof.
  apply (append_row_stores_aligned sample_store
           {[ "ID" := CInt 4; "Age" := CInt 7 ]} sample_world).
  vm_compute. discriminate.
Defined.

(** X15: [delete_by_id] on a store with an identifier field whose collection
    lacks that column (a missing file loads as a collection without
    columns) raises [KeyError] and writes nothing. *)
Theorem delete_by_id_needs_column (self : CSVStore) (f : string)
    (id_value : cell) (w : World) :
  id_field self = Some f → f ∉ columns (stored self w) →
  delete_by_id self id_value w = (Raised (KeyError f), w).
Proof.
  intros Hf Hc. unfold delete_by_id.
  erewrite bind_run by apply load_stored. rewrite Hf.
  erewrite bind_raised; [done|]. by rewrite lift_run, getitem_raises.
Qed.

Lemma delete_by_id_needs_column_witness :
  delete_by_id sample_store (CInt 1) (world_of ∅ ∅)
  = (Raised (KeyError "ID"), world_of ∅ ∅).
Proof.
  apply (delete_by_id_needs_column sample_store "ID" (CInt 1) (world_of ∅ ∅)
           eq_refl).
  vm_compute. apply not_elem_of_nil.
Defined.

Lemma max_acc_nan (cs : list cell) acc :
  Forall (λ c, c = CNaN) cs → Frame.max_acc cs acc = Ok acc.
Proof.
  intros H. revert acc. induction H as [|c cs -> _ IH]; intros acc; [done|].
  simpl. apply IH.
Qed.

(** X16: [next_id] never writes.  On a collection that has records it raises
    [KeyError] when the identifier column is missing and [ValueError]
    when every identifier is a missing value; an empty field name counts
    as no identifier field and gives 1. *)
Theorem next_id_edges (self : CSVStore) (w : World) :
  snd (next_id self w) = w
  ∧ (id_field self = Some "" → next_id self w = (Ok 1, w))
  ∧ (∀ f, id_field self = Some f → f ≠ "" →
       Frame.empty (stored self w) = false →
       (f ∉ columns (stored self w) →
        next_id self w = (Raised (KeyError f), w))
       ∧ (f ∈ columns (stored self w) →
          Forall (λ r, Frame.get r f = CNaN) (rows (stored self w)) →
          ∃ msg, next_id self w = (Raised (ValueError msg), w))).
Proof.
  unfold next_id. erewrite bind_run by apply load_stored.
  split; [|split].
  - destruct (id_field self) as [f|]; [|done].
    destruct (_ && _); [|done].
    unfold mbind, M_bind, lift.
    destruct (Frame.getitem _ _); [|done].
    by destruct (Frame.int_max _).
  - by intros ->.
  - intros f -> Hne Hempty.
    assert (String.eqb f "" = false) as -> by by apply String.eqb_neq.
    rewrite Hempty. simpl. split.
    + intros Hc. erewrite bind_raised; [done|].
      by rewrite lift_run, getitem_raises.
    + intros Hc Hnan.
      erewrite bind_run by (by rewrite lift_run, getitem_ok).
      unfold Frame.int_max. rewrite max_acc_nan.
      * eexists. by erewrite bind_raised by apply lift_run.
      * apply Forall_fmap. eapply Forall_impl; [exact Hnan|]. done.
Qed.

(** *** Reloading the module-level frames *)

Section Reload.

Variable rt : Runtime.

(** Whatever it answers, [reload_all_data] touches nothing but the
    module-level frames. *)
Lemma reload_frame w :
  ∃ r w', reload_all_data rt w = (r, w')
          ∧ tables w' = tables w ∧ texts w' = texts w
          ∧ written w' = written w ∧ flashes w' = flashes w
          ∧ clock w' = clock w.
Proof.
  unfold reload_all_data, read_csv, mbind, M_bind, modify.
  repeat (match goal with
          | |- context [tables ?x !! ?p] =>
              destruct (tables x !! p); simpl
          end);
    by eexists _, _.
Qed.

Lemma reload_ok w :
  (∀ name, name ∈ data_files → is_Some (tables w !! data_file rt name)) →
  ∃ w', reload_all_data rt w = (Ok tt, w')
        ∧ tables w' = tables w ∧ texts w' = texts w
        ∧ written w' = written w ∧ flashes w' = flashes w
        ∧ clock w' = clock w ∧ globals_mirror rt w'.
Proof.
  intros H.
  destruct (H "users.csv") as [d1 H1]; [repeat constructor|].
  destruct (H "roles.csv") as [d2 H2]; [repeat constructor|].
  destruct (H "countries.csv") as [d3 H3]; [repeat constructor|].
  destruct (H "minerals.csv") as [d4 H4]; [repeat constructor|].
  destruct (H "sites.csv") as [d5 H5]; [repeat constructor|].
  destruct (H "production_stats.csv") as [d6 H6]; [repeat constructor|].
  unfold reload_all_data, read_csv, mbind, M_bind, modify. simpl.
  rewrite H1. simpl. rewrite H2. simpl. rewrite H3. simpl. rewrite H4. simpl.
  rewrite H5. simpl. rewrite H6. simpl.
  eexists. split; [reflexivity|]. repeat split; done.
Qed.

Lemma reload_raises w name :
  name ∈ data_files → tables w !! data_file rt name = None →
  ∃ p w', reload_all_data rt w = (Raised (FileNotFoundError p), w')
          ∧ tables w' = tables w ∧ texts w' = texts w
          ∧ written w' = written w ∧ flashes w' = flashes w
          ∧ clock w' = clock w.
Proof.
  intros Hin Hnone.
  unfold reload_all_data, read_csv, mbind, M_bind, modify.
  repeat (match goal with
          | |- context [tables ?x !! ?p] =>
              destruct (tables x !! p) eqn:?; simpl in *
          end);
    try (by eexists _, _).
  exfalso. unfold data_files in Hin.
  repeat (apply elem_of_cons in Hin as [->|Hin]; [congruence|]).
  by apply elem_of_nil in Hin.
Qed.

End Reload.

(** *** A record added through the form *)

Lemma entities_cases entity cfg :
  ENTITIES !! entity = Some cfg →
  cfg ∈ [users_cfg; countries_cfg; minerals_cfg; sites_cfg; production_cfg].
Proof.
  intros H. apply elem_of_list_to_map_2 in H.
  repeat (apply elem_of_cons in H as [[= -> ->]|H];
          [repeat first [by left | right]|]).
  by apply elem_of_nil in H.
Qed.

Lemma entities_id_is_field entity cfg :
  ENTITIES !! entity = Some cfg → cfg_id cfg ∈ cfg_fields cfg.
Proof.
  intros H. apply entities_cases in H.
  repeat (apply elem_of_cons in H as [->|H]; [by left|]).
  by apply elem_of_nil in H.
Qed.

Lemma entities_file_reloaded entity cfg :
  ENTITIES !! entity = Some cfg → cfg_csv cfg ∈ data_files.
Proof.
  intros H. apply entities_cases in H. unfold data_files.
  repeat (apply elem_of_cons in H as [->|H];
          [simpl; repeat first [by left | right]|]).
  by apply elem_of_nil in H.
Qed.

Lemma new_row_fold cfg req n c fs (acc : gmap string cell) :
  foldl (λ row f,
           if String.eqb f (cfg_id cfg) then <[f := CInt n]> row
           else <[f := CStr (form_get req f)]> row) acc fs !! c
  = if bool_decide (c ∈ fs)
    then Some (if String.eqb c (cfg_id cfg) then CInt n
               else CStr (form_get req c))
    else acc !! c.
Proof.
  revert acc. induction fs as [|f fs IH]; intros acc; cbn [foldl].
  - case_bool_decide as H; [by apply elem_of_nil in H | done].
  - rewrite IH. case_bool_decide as H1; case_bool_decide as H2.
    + done.
    + exfalso. apply H2. by right.
    + apply elem_of_cons in H2 as [->|H2]; [|done].
      destruct (String.eqb f (cfg_id cfg)); by rewrite lookup_insert_eq.
    + assert (f ≠ c) as Hne by (intros ->; apply H2; by left).
      destruct (String.eqb f (cfg_id cfg)); by rewrite lookup_insert_ne.
Qed.

Lemma new_row_lookup cfg req n c :
  new_row cfg req n !! c
  = if bool_decide (c ∈ cfg_fields cfg)
    then Some (if String.eqb c (cfg_id cfg) then CInt n
               else CStr (form_get req c))
    else None.
Proof. unfold new_row. by rewrite new_row_fold. Qed.

Lemma get_added_row cfg req n cols c :
  c ∈ cols →
  Frame.get (Frame.align cols (new_row cfg req n)) c = added_cell cfg req n c.
Proof.
  intros H. rewrite get_align by done. rewrite new_row_lookup.
  unfold added_cell. by destruct (bool_decide _).
Qed.

Lemma loc_append_ok df d :
  columns df ≠ [] →
  Frame.loc_append df d
  = Ok {| columns := columns df;
          rows := rows df ++ [Frame.align (columns df) d] |}.
Proof. unfold Frame.loc_append. by destruct (columns df). Qed.

Section Adding.

Variable rt : Runtime.

(** An accepted add, up to the point where the collection is saved. *)
Lemma add_valid_run entity cfg sess req w df n :
  ENTITIES !! entity = Some cfg →
  logged_in sess = true → sess_role sess = Some "Administrator" →
  method req = "POST" → validate rt cfg req = [] →
  tables w !! data_file rt (cfg_csv cfg) = Some df → columns df ≠ [] →
  new_id_of cfg df w = (Ok n, w) →
  admin_entity_add rt entity sess req w
  = (save_csv {| columns := columns df;
                 rows := rows df
                         ++ [Frame.align (columns df) (new_row cfg req n)] |}
       (data_file rt (cfg_csv cfg)) ≫= λ _,
     reload_all_data rt ≫= λ _,
     log_event rt (session_user sess) "entity_add"
       ("/admin/" +:+ entity +:+ "/add")
       ("Added " +:+ entity +:+ " " +:+ pretty n) ≫= λ _,
     flash "Added." "success" ≫= λ _,
     mret (Redirect ("/admin/" +:+ entity))) w.
Proof.
  intros Hent Hl Hr Hpost Hval Hdf Hcols Hn. unfold admin_entity_add.
  rewrite admin_gate by done. rewrite Hent.
  erewrite bind_run by (by apply load_entity_df_run).
  rewrite Hdf. change (default empty_frame (Some df)) with df.
  rewrite Hpost, String.eqb_refl.
  change (if negb (Frame.empty df) then _ else _) with (new_id_of cfg df).
  erewrite bind_run by exact Hn. cbv zeta. rewrite Hval.
  erewrite bind_run by (rewrite lift_run, loc_append_ok by done; reflexivity).
  reflexivity.
Qed.

Lemma new_id_of_fresh cfg df w :
  wf_ids (cfg_id cfg) df →
  ∃ n, new_id_of cfg df w = (Ok n, w)
       ∧ Forall (λ r, ∃ z, Frame.get r (cfg_id cfg) = CInt z ∧ z < n) (rows df)
       ∧ (rows df = [] → n = 1).
Proof.
  intros Hwf. unfold new_id_of. destruct (rows df) as [|r rs] eqn:E.
  - rewrite (empty_no_rows _ E). exists 1. split; [done|]. split; [|done].
    constructor.
  - rewrite (empty_false _ _ (proj1 Hwf)) by by rewrite E.
    destruct (wf_ids_column _ _ Hwf) as ([|z ids] & Hids & Hlen);
      [by rewrite E in Hlen|].
    destruct (int_max_ints z ids) as (m & Hm & _ & Hall).
    unfold mbind, M_bind, lift. rewrite (getitem_ok _ _ (proj1 Hwf)).
    rewrite Hids, Hm. exists (m + 1). split; [done|]. split; [|done].
    rewrite <- E. clear E Hlen Hm.
    apply Forall_forall. intros r0 Hr0.
    assert (Frame.get r0 (cfg_id cfg) ∈ CInt <$> (z :: ids)) as Hin.
    { rewrite <- Hids. apply list_elem_of_fmap. by exists r0. }
    apply list_elem_of_fmap in Hin as (i & Hi & Hin).
    exists i. split; [done|].
    rewrite Forall_forall in Hall. specialize (Hall i Hin). simpl in Hall. lia.
Qed.

(** X17: An accepted add stores the collection with one more record at its
    end: the record holds, under the identifier column, an identifier
    larger than every stored one (1 for a collection without records),
    under every other column that is a field of the entity the submitted
    text (the empty text for a field not submitted), and a missing value
    under any other column.  Identifiers that were distinct stay
    distinct.  The records stored before are not touched. *)
Theorem add_stores_record_with_fresh_id (entity : string) (cfg : EntityCfg)
    (sess : Session) (req : Request) (w : World) (df : DataFrame) :
  ENTITIES !! entity = Some cfg →
  logged_in sess = true → sess_role sess = Some "Administrator" →
  method req = "POST" → validate rt cfg req = [] →
  tables w !! data_file rt (cfg_csv cfg) = Some df →
  wf_ids (cfg_id cfg) df →
  ∃ n r,
    tables (snd (admin_entity_add rt entity sess req w))
    = <[data_file rt (cfg_csv cfg) :=
          {| columns := columns df; rows := rows df ++ [r] |}]> (tables w)
    ∧ (∀ c, c ∈ columns df → Frame.get r c = added_cell cfg req n c)
    ∧ Frame.get r (cfg_id cfg) = CInt n
    ∧ Forall (λ r0, ∃ z, Frame.get r0 (cfg_id cfg) = CInt z ∧ z < n) (rows df)
    ∧ (rows df = [] → n = 1)
    ∧ (NoDup (column (cfg_id cfg) df) →
       NoDup (column (cfg_id cfg)
                {| columns := columns df; rows := rows df ++ [r] |})).
Proof.
  intros Hent Hl Hr Hpost Hval Hdf Hwf.
  destruct (new_id_of_fresh cfg df w Hwf) as (n & Hn & Hlt & Hone).
  assert (columns df ≠ []) as Hcols.
  { destruct Hwf as [Hin _]. intros E. rewrite E in Hin.
    by apply elem_of_nil in Hin. }
  exists n, (Frame.align (columns df) (new_row cfg req n)).
  rewrite (add_valid_run _ _ _ _ _ _ _ Hent Hl Hr Hpost Hval Hdf Hcols Hn).
  split; [apply after_save_keeps_tables; keeps_tables|].
  assert (Frame.get (Frame.align (columns df) (new_row cfg req n)) (cfg_id cfg)
          = CInt n) as Hid.
  { rewrite get_added_row by apply Hwf. unfold added_cell.
    rewrite bool_decide_eq_true_2 by by eapply entities_id_is_field.
    by rewrite String.eqb_refl. }
  split; [intros c Hc; by apply get_added_row|].
  split; [done|]. split; [done|]. split; [done|].
  unfold column. simpl. rewrite fmap_app. simpl. rewrite Hid.
  intros Hnd. apply NoDup_app. split; [done|]. split.
  - intros c Hc [->|Hin]%elem_of_cons; [|by apply elem_of_nil in Hin].
    apply list_elem_of_fmap in Hc as (r0 & Hr0 & Hin).
    rewrite Forall_forall in Hlt. destruct (Hlt r0 Hin) as (z & Hz & Hzn).
    rewrite Hz in Hr0. injection Hr0 as ->. lia.
  - apply NoDup_singleton.
Qed.

End Adding.

Section Writes.

Variable rt : Runtime.

(** X18: An accepted add saves the collection before it reloads the frames.
    When one of the six data files is missing the reload raises
    [FileNotFoundError]: the request fails, yet the new record is in the
    file, and the add is neither logged nor flashed. *)
Theorem add_survives_failed_reload (entity : string) (cfg : EntityCfg)
    (sess : Session) (req : Request) (w : World) (df : DataFrame)
    (missing : string) :
  ENTITIES !! entity = Some cfg →
  logged_in sess = true → sess_role sess = Some "Administrator" →
  method req = "POST" → validate rt cfg req = [] →
  tables w !! data_file rt (cfg_csv cfg) = Some df →
  wf_ids (cfg_id cfg) df →
  missing ∈ data_files → tables w !! data_file rt missing = None →
  let res := admin_entity_add rt entity sess req w in
  ∃ p r,
    fst res = Raised (FileNotFoundError p)
    ∧ tables (snd res) !! data_file rt (cfg_csv cfg)
      = Some {| columns := columns df; rows := rows df ++ [r] |}
    ∧ texts (snd res) = texts w
    ∧ flashes (snd res) = flashes w.
Proof.
  intros Hent Hl Hr Hpost Hval Hdf Hwf Hin Hmiss res. subst res.
  destruct (new_id_of_fresh cfg df w Hwf) as (n & Hn & _).
  assert (columns df ≠ []) as Hcols.
  { destruct Hwf as [Hc _]. intros E. rewrite E in Hc.
    by apply elem_of_nil in Hc. }
  rewrite (add_valid_run _ _ _ _ _ _ _ _ Hent Hl Hr Hpost Hval Hdf Hcols Hn).
  erewrite bind_run by reflexivity.
  set (w1 := log_write _ _).
  destruct (reload_raises rt w1 missing Hin) as (p & w2 & Hrun & Ht & Hx & _ & Hf & _).
  { subst w1. simpl. rewrite lookup_insert_ne; [done|]. congruence. }
  erewrite bind_raised by exact Hrun.
  exists p, (Frame.align (columns df) (new_row cfg req n)). simpl.
  rewrite Ht, Hx, Hf. subst w1. simpl. by rewrite lookup_insert_eq.
Qed.

(** X19: An accepted add with the six data files in place: the collection is
    stored with one more record, whose identifier is larger than every
    stored one; the answer is the redirect to the list, the module-level
    frames are the stored collections again, the flash is [Added.], and
    the audit log, when it can be read, gains the entry of the add, which
    carries the identifier of the record stored. *)
Theorem accepted_add_is_reloaded_and_logged (entity : string) (cfg : EntityCfg)
    (sess : Session) (req : Request) (w : World) (df : DataFrame) :
  ENTITIES !! entity = Some cfg →
  logged_in sess = true → sess_role sess = Some "Administrator" →
  method req = "POST" → validate rt cfg req = [] →
  tables w !! data_file rt (cfg_csv cfg) = Some df →
  wf_ids (cfg_id cfg) df →
  (∀ name, name ∈ data_files → is_Some (tables w !! data_file rt name)) →
  let res := admin_entity_add rt entity sess req w in
  ∃ (n : Z) (r : gmap string cell),
    fst res = Ok (Redirect ("/admin/" +:+ entity))
    ∧ tables (snd res)
      = <[data_file rt (cfg_csv cfg) :=
            {| columns := columns df; rows := rows df ++ [r] |}]> (tables w)
    ∧ Frame.get r (cfg_id cfg) = CInt n
    ∧ Forall (λ r0, ∃ z, Frame.get r0 (cfg_id cfg) = CInt z ∧ z < n) (rows df)
    ∧ globals_mirror rt (snd res)
    ∧ flashes (snd res) = flashes w ++ [("Added.", "success")]
    ∧ (∀ old, texts w !! AUDIT_LOG rt = Some (Text old) →
         texts (snd res) !! AUDIT_LOG rt
         = Some (Text (old +:+ csv_line [utcnow_isoformat rt (clock w);
                                         session_user sess; "entity_add";
                                         "/admin/" +:+ entity +:+ "/add";
                                         "Added " +:+ entity +:+ " "
                                         +:+ pretty n]))).
Proof.
  intros Hent Hl Hr Hpost Hval Hdf Hwf Hall res. subst res.
  destruct (new_id_of_fresh cfg df w Hwf) as (n & Hn & Hlt & _).
  assert (columns df ≠ []) as Hcols.
  { destruct Hwf as [Hc _]. intros E. rewrite E in Hc.
    by apply elem_of_nil in Hc. }
  assert (Frame.get (Frame.align (columns df) (new_row cfg req n)) (cfg_id cfg)
          = CInt n) as Hid.
  { rewrite get_added_row by apply Hwf. unfold added_cell.
    rewrite bool_decide_eq_true_2 by by eapply entities_id_is_field.
    by rewrite String.eqb_refl. }
  rewrite (add_valid_run _ _ _ _ _ _ _ _ Hent Hl Hr Hpost Hval Hdf Hcols Hn).
  erewrite bind_run by reflexivity.
  set (w1 := log_write _ _).
  destruct (reload_ok rt w1) as (w2 & Hrun & Ht & Hx & _ & Hf & Hc & Hm).
  { intros name Hname. subst w1. simpl.
    destruct (decide (data_file rt (cfg_csv cfg) = data_file rt name)) as [<-|Hne].
    - rewrite lookup_insert_eq. by eexists.
    - rewrite lookup_insert_ne by done. by apply Hall. }
  erewrite bind_run by exact Hrun.
  exists n, (Frame.align (columns df) (new_row cfg req n)).
  destruct (log_event_effect rt (session_user sess) "entity_add"
              ("/admin/" +:+ entity +:+ "/add")
              ("Added " +:+ entity +:+ " " +:+ pretty n) w2)
    as (w3 & Hlog & Ht3 & Hf3 & Hg3 & _).
  erewrite bind_run by exact Hlog.
  erewrite bind_run by reflexivity. cbn [fst snd].
  split; [done|]. split.
  { simpl. rewrite Ht3, Ht. by subst w1. }
  split; [exact Hid|]. split; [exact Hlt|]. split.
  { unfold globals_mirror in *. simpl. by rewrite Ht3, Hg3. }
  split.
  { simpl. rewrite Hf3, Hf. by subst w1. }
  intros old E. revert Hlog.
  rewrite (log_event_run rt _ _ _ _ w2 old)
    by (rewrite Hx; subst w1; simpl; exact E).
  intros [= <-]. simpl. rewrite lookup_insert_eq, Hc. by subst w1.
Qed.

End Writes.

Section Deleting.

Variable rt : Runtime.

Lemma delete_run entity cfg obj_id sess req w df :
  ENTITIES !! entity = Some cfg →
  logged_in sess = true → sess_role sess = Some "Administrator" →
  tables w !! data_file rt (cfg_csv cfg) = Some df →
  cfg_id cfg ∈ columns df →
  admin_entity_delete rt entity obj_id sess req w
  = (save_csv (Frame.keep_ne df (cfg_id cfg) (CInt obj_id))
       (data_file rt (cfg_csv cfg)) ≫= λ _,
     reload_all_data rt ≫= λ _,
     log_event rt (session_user sess) "entity_delete"
       ("/admin/" +:+ entity +:+ "/delete/" +:+ pretty obj_id)
       ("Deleted " +:+ entity +:+ " " +:+ pretty obj_id) ≫= λ _,
     flash "Deleted." "success" ≫= λ _,
     mret (Redirect ("/admin/" +:+ entity))) w.
Proof.
  intros Hent Hl Hr Hdf Hc. unfold admin_entity_delete.
  rewrite admin_gate by done. rewrite Hent.
  erewrite bind_run by (by apply load_entity_df_run).
  rewrite Hdf. change (default empty_frame (Some df)) with df.
  erewrite bind_run by (by rewrite lift_run, getitem_ok).
  reflexivity.
Qed.

(** X20: The delete handler does not ask whether the record exists.  With the
    six data files in place it answers every identifier alike: the
    collection is saved without the records of that identifier, which
    for an identifier no record has is the collection as it was; the
    frames are reloaded, [Deleted.] is flashed and, when the audit log
    can be read, the deletion is logged. *)
Theorem delete_reports_success (entity : string) (cfg : EntityCfg)
    (obj_id : Z) (sess : Session) (req : Request) (w : World)
    (df : DataFrame) :
  ENTITIES !! entity = Some cfg →
  logged_in sess = true → sess_role sess = Some "Administrator" →
  tables w !! data_file rt (cfg_csv cfg) = Some df →
  cfg_id cfg ∈ columns df →
  (∀ name, name ∈ data_files → is_Some (tables w !! data_file rt name)) →
  let res := admin_entity_delete rt entity obj_id sess req w in
  fst res = Ok (Redirect ("/admin/" +:+ entity))
  ∧ tables (snd res)
    = <[data_file rt (cfg_csv cfg) := Frame.keep_ne df (cfg_id cfg) (CInt obj_id)]>
        (tables w)
  ∧ (count_id (cfg_id cfg) (CInt obj_id) df = O → tables (snd res) = tables w)
  ∧ globals_mirror rt (snd res)
  ∧ flashes (snd res) = flashes w ++ [("Deleted.", "success")]
  ∧ (∀ old, texts w !! AUDIT_LOG rt = Some (Text old) →
       texts (snd res) !! AUDIT_LOG rt
       = Some (Text (old +:+ csv_line [utcnow_isoformat rt (clock w);
                                       session_user sess; "entity_delete";
                                       "/admin/" +:+ entity +:+ "/delete/"
                                       +:+ pretty obj_id;
                                       "Deleted " +:+ entity +:+ " "
                                       +:+ pretty obj_id]))).
Proof.
  intros Hent Hl Hr Hdf Hc Hall res. subst res.
  rewrite (delete_run _ _ _ _ _ _ _ Hent Hl Hr Hdf Hc).
  erewrite bind_run by reflexivity.
  set (w1 := log_write _ _).
  destruct (reload_ok rt w1) as (w2 & Hrun & Ht & Hx & _ & Hf & Hck & Hm).
  { intros name Hname. subst w1. simpl.
    destruct (decide (data_file rt (cfg_csv cfg) = data_file rt name)) as [<-|Hne].
    - rewrite lookup_insert_eq. by eexists.
    - rewrite lookup_insert_ne by done. by apply Hall. }
  erewrite bind_run by exact Hrun.
  destruct (log_event_effect rt (session_user sess) "entity_delete"
              ("/admin/" +:+ entity +:+ "/delete/" +:+ pretty obj_id)
              ("Deleted " +:+ entity +:+ " " +:+ pretty obj_id) w2)
    as (w3 & Hlog & Ht3 & Hf3 & Hg3 & _).
  erewrite bind_run by exact Hlog.
  erewrite bind_run by reflexivity. cbn [fst snd].
  assert (tables w3
          = <[data_file rt (cfg_csv cfg) :=
                Frame.keep_ne df (cfg_id cfg) (CInt obj_id)]> (tables w)) as Htab.
  { rewrite Ht3, Ht. by subst w1. }
  split; [done|]. split; [exact Htab|]. split.
  { intros Hcount. simpl. rewrite Htab.
    assert (Frame.keep_ne df (cfg_id cfg) (CInt obj_id) = df) as ->.
    { unfold Frame.keep_ne. destruct df as [cols rs]. simpl. f_equal.
      apply filter_all. intros r Hin.
      unfold count_id in Hcount. simpl in Hcount.
      destruct (cell_eqb (Frame.get r (cfg_id cfg)) (CInt obj_id)) eqn:Eq;
        [|done].
      exfalso. apply list_elem_of_In in Hin.
      assert (In r (List.filter (has_id (cfg_id cfg) (CInt obj_id)) rs)) as Hf'
        by (apply filter_In; split; [done | exact Eq]).
      destruct (List.filter _ rs); [done | discriminate Hcount]. }
    by apply insert_id. }
  split.
  { unfold globals_mirror in *. simpl. by rewrite Ht3, Hg3. }
  split.
  { simpl. rewrite Hf3, Hf. by subst w1. }
  intros old E. revert Hlog.
  rewrite (log_event_run rt _ _ _ _ w2 old)
    by (rewrite Hx; subst w1; simpl; exact E).
  intros [= <-]. simpl. rewrite lookup_insert_eq, Hck. by subst w1.
Qed.

(** X21: When one of the six data files is missing, a delete removes the
    records from the file and then fails in the reload: the deletion is
    neither logged nor flashed. *)
Theorem delete_survives_failed_reload (entity : string) (cfg : EntityCfg)
    (obj_id : Z) (sess : Session) (req : Request) (w : World)
    (df : DataFrame) (missing : string) :
  ENTITIES !! entity = Some cfg →
  logged_in sess = true → sess_role sess = Some "Administrator" →
  tables w !! data_file rt (cfg_csv cfg) = Some df →
  cfg_id cfg ∈ columns df →
  missing ∈ data_files → tables w !! data_file rt missing = None →
  let res := admin_entity_delete rt entity obj_id sess req w in
  ∃ p,
    fst res = Raised (FileNotFoundError p)
    ∧ tables (snd res) !! data_file rt (cfg_csv cfg)
      = Some (Frame.keep_ne df (cfg_id cfg) (CInt obj_id))
    ∧ texts (snd res) = texts w
    ∧ flashes (snd res) = flashes w.
Proof.
  intros Hent Hl Hr Hdf Hc Hin Hmiss res. subst res.
  rewrite (delete_run _ _ _ _ _ _ _ Hent Hl Hr Hdf Hc).
  erewrite bind_run by reflexivity.
  set (w1 := log_write _ _).
  destruct (reload_raises rt w1 missing Hin) as (p & w2 & Hrun & Ht & Hx & _ & Hf & _).
  { subst w1. simpl. rewrite lookup_insert_ne; [done|]. congruence. }
  erewrite bind_raised by exact Hrun.
  exists p. simpl. rewrite Ht, Hx, Hf. subst w1. simpl.
  by rewrite lookup_insert_eq.
Qed.

End Deleting.

(** *** The sites of a country *)

Lemma filter_partition_perm {A} (p : A → bool) (l : list A) :
  l ≡ₚ List.filter p l ++ List.filter (λ x, negb (p x)) l.
Proof.
  induction l as [|x l IH]; simpl; [done|].
  destruct (p x); simpl.
  - by constructor.
  - rewrite <- Permutation_middle. by constructor.
Qed.

Section Sites.

Variable rt : Runtime.

(** X22: The bulk delete removes from the stored sites exactly the records
    whose CountryID equals the given one and keeps the others in their
    order; the number it reports is the number of records removed.  It
    does not ask whether the country exists. *)
Theorem bulk_delete_removes_sites_of_country (country_id : Z)
    (sess : Session) (req : Request) (w : World) (df : DataFrame) :
  logged_in sess = true → sess_role sess = Some "Administrator" →
  tables w !! data_file rt "sites.csv" = Some df →
  "CountryID" ∈ columns df →
  (∀ name, name ∈ data_files → is_Some (tables w !! data_file rt name)) →
  let res := admin_sites_delete_by_country rt country_id sess req w in
  let deleted := count_id "CountryID" (CInt country_id) df in
  fst res = Ok (Redirected "/admin/sites")
  ∧ tables (snd res)
    = <[data_file rt "sites.csv" :=
          Frame.keep_ne df "CountryID" (CInt country_id)]> (tables w)
  ∧ (length (rows (Frame.keep_ne df "CountryID" (CInt country_id))) + deleted
     = length (rows df))%nat
  ∧ globals_mirror rt (snd res)
  ∧ flashes (snd res)
    = flashes w ++ [("Deleted " +:+ pretty (Z.of_nat deleted)
                     +:+ " site(s) for the country.", "success")].
Proof.
  intros Hl Hr Hdf Hc Hall res deleted. subst res.
  assert ((length (rows (Frame.keep_ne df "CountryID" (CInt country_id)))
           + deleted = length (rows df))%nat) as Hcount.
  { subst deleted. unfold count_id, Frame.keep_ne, has_id. cbn [rows].
    pose proof (filter_length_split
                  (λ r, cell_eqb (Frame.get r "CountryID") (CInt country_id))
                  (rows df)) as H.
    cbv beta in H. lia. }
  unfold admin_sites_delete_by_country. rewrite admin_gate_as by done.
  change (ENTITIES !! "sites") with (Some sites_cfg). cbv iota.
  erewrite bind_run
    by (by apply (load_entity_df_run rt "sites" sites_cfg)).
  change (cfg_csv sites_cfg) with "sites.csv".
  rewrite Hdf. change (default empty_frame (Some df)) with df.
  erewrite bind_run by (by rewrite lift_run, getitem_ok).
  cbv zeta.
  assert (Z.of_nat (length (rows df))
          - Z.of_nat (length (rows (Frame.keep_ne df "CountryID"
                                      (CInt country_id))))
          = Z.of_nat deleted) as -> by lia.
  erewrite bind_run by reflexivity.
  set (w1 := log_write _ _).
  destruct (reload_ok rt w1) as (w2 & Hrun & Ht & Hx & _ & Hf & Hck & Hm).
  { intros name Hname. subst w1. simpl.
    destruct (decide (data_file rt "sites.csv" = data_file rt name)) as [<-|Hne].
    - rewrite lookup_insert_eq. by eexists.
    - rewrite lookup_insert_ne by done. by apply Hall. }
  erewrite bind_run by exact Hrun.
  match goal with
  | |- context [log_event rt ?u ?a ?p ?d] =>
      destruct (log_event_effect rt u a p d w2)
        as (w3 & Hlog & Ht3 & Hf3 & Hg3 & _)
  end.
  erewrite bind_run by exact Hlog.
  erewrite bind_run by reflexivity. unfold mret, M_ret. cbn [fst snd].
  split; [done|]. split.
  { simpl. rewrite Ht3, Ht. by subst w1. }
  split; [done|]. split.
  { unfold globals_mirror in *. simpl. by rewrite Ht3, Hg3. }
  cbn [flashes add_flash]. rewrite Hf3, Hf. by subst w1.
Qed.

(** X23: The page of a country's sites lists, in their stored order, exactly
    the records that the bulk delete for that country removes: together
    with the records the bulk delete keeps they make up the stored sites.
    A country that no stored record names gets no page. *)
Theorem listed_sites_are_the_ones_deleted (country_id : Z) (sess : Session)
    (req : Request) (w : World) (sites countries : DataFrame) :
  logged_in sess = true → sess_role sess = Some "Administrator" →
  tables w !! data_file rt "sites.csv" = Some sites →
  tables w !! data_file rt "countries.csv" = Some countries →
  "CountryID" ∈ columns sites → "CountryID" ∈ columns countries →
  "CountryName" ∈ columns countries →
  let res := admin_sites_by_country rt country_id sess req w in
  (count_id "CountryID" (CInt country_id) countries = O →
   res = (Ok (Redirected "/admin/sites"),
          add_flash ("Country not found.", "warning") w))
  ∧ (count_id "CountryID" (CInt country_id) countries ≠ O →
     ∃ page,
       res = (Ok (Rendered page), w)
       ∧ sbc_items page = rows (keep_eq sites "CountryID" (CInt country_id))
       ∧ length (sbc_items page)
         = count_id "CountryID" (CInt country_id) sites
       ∧ rows sites
         ≡ₚ sbc_items page
            ++ rows (Frame.keep_ne sites "CountryID" (CInt country_id))).
Proof.
  intros Hl Hr Hs Hc Hsc Hcc Hcn res. subst res.
  unfold admin_sites_by_country. rewrite admin_gate_as by done.
  erewrite bind_run
    by (by apply (load_entity_df_run rt "sites" sites_cfg)).
  change (cfg_csv sites_cfg) with "sites.csv".
  rewrite Hs. change (default empty_frame (Some sites)) with sites.
  erewrite bind_run by (unfold load_csv, gets; rewrite Hc; reflexivity).
  change (default empty_frame (Some countries)) with countries.
  erewrite bind_run by (by rewrite lift_run, getitem_ok).
  cbv zeta.
  change (count_id "CountryID" (CInt country_id) countries)
    with (length (rows (keep_eq countries "CountryID" (CInt country_id)))).
  set (found := keep_eq countries "CountryID" (CInt country_id)).
  assert ("CountryName" ∈ columns found) as Hcn' by done.
  destruct (rows found) as [|r rs] eqn:E.
  - split; [done|]. by intros H.
  - split; [by intros H|]. intros _.
    erewrite bind_run by (by rewrite lift_run, getitem_ok).
    erewrite bind_run by (by rewrite lift_run, getitem_ok).
    erewrite bind_run by (by apply session_role_run).
    eexists. split; [reflexivity|]. cbn [sbc_items].
    split; [done|]. split; [done|].
    apply filter_partition_perm.
Qed.

End Sites.

(** *** Who may write, and which requests write *)

Section Gate.

Variable rt : Runtime.

Lemma gate_refuses (f : View) sess req w :
  ¬ (logged_in sess = true ∧ sess_role sess = Some "Administrator") →
  refused Redirect sess (admin_required f sess req w) w.
Proof.
  intros H. unfold refused, admin_required.
  destruct (logged_in sess); [|done]. simpl.
  rewrite bool_decide_eq_false_2; [done|]. intros Hr. by apply H.
Qed.

Lemma gate_refuses_as {P} (f : Session → Request → M (reply P)) sess req w :
  ¬ (logged_in sess = true ∧ sess_role sess = Some "Administrator") →
  refused Redirected sess (admin_required_as Redirected f sess req w) w.
Proof.
  intros H. unfold refused, admin_required_as.
  destruct (logged_in sess); [|done]. simpl.
  rewrite bool_decide_eq_false_2; [done|]. intros Hr. by apply H.
Qed.

(** X24: No administrative view runs for a session that is not a logged-in
    Administrator: the add, edit and delete of records, the clear of the
    audit log, the dataset share, the sites of a country and their bulk
    delete all turn the request away, and no file is read or written. *)
Theorem only_administrators_reach_admin_views (sess : Session) (req : Request)
    (w : World) (entity : string) (obj_id : Z) :
  ¬ (logged_in sess = true ∧ sess_role sess = Some "Administrator") →
  refused Redirect sess (admin_entity_add rt entity sess req w) w
  ∧ refused Redirect sess (admin_entity_edit rt entity obj_id sess req w) w
  ∧ refused Redirect sess (admin_entity_delete rt entity obj_id sess req w) w
  ∧ refused Redirect sess (admin_audit_clear rt sess req w) w
  ∧ refused Redirected sess (admin_dataset_share rt sess req w) w
  ∧ refused Redirected sess (admin_sites_by_country rt obj_id sess req w) w
  ∧ refused Redirected sess (admin_sites_delete_by_country rt obj_id sess req w) w.
Proof.
  intros H. repeat split;
    first [ by apply gate_refuses | by apply gate_refuses_as ].
Qed.

Lemma refused_same_files {R} (to : string → R) sess out w :
  refused to sess out w → same_files (snd out) w.
Proof. unfold refused. destruct (logged_in sess); by intros ->. Qed.

Lemma first_index_none col v rs :
  length (List.filter (has_id col v) rs) = O → Frame.first_index col v rs = None.
Proof.
  unfold has_id. induction rs as [|r rs IH]; simpl; [done|].
  destruct (cell_eqb (Frame.get r col) v); simpl; [done|].
  intros H. by rewrite IH.
Qed.

(** X25: A request that is not a POST writes nothing: the add and the edit
    form are shown, or the request is turned away, and the files are as
    they were. *)
Theorem only_posts_write (entity : string) (obj_id : Z) (sess : Session)
    (req : Request) (w : World) :
  method req ≠ "POST" →
  same_files (snd (admin_entity_add rt entity sess req w)) w
  ∧ same_files (snd (admin_entity_edit rt entity obj_id sess req w)) w.
Proof.
  intros Hget.
  assert (String.eqb (method req) "POST" = false) as Hm
    by by apply String.eqb_neq.
  assert (∀ cfg title item fm errs w0,
            snd ((load_selects rt (cfg_selects cfg) ≫= λ selects,
                  session_role sess ≫= λ role,
                  mret (Render {| template := "admin_edit_generic.html";
                                  page_role := role;
                                  page_title := title;
                                  page_fields := fields_but_id cfg;
                                  page_item := item;
                                  base_endpoint := entity;
                                  select_options := selects;
                                  page_form := fm;
                                  page_errors := errs |})) w0) = w0) as Hpage.
  { intros cfg title item fm errs w0.
    destruct (load_selects_run rt (cfg_selects cfg) w0) as [m Hsel].
    erewrite bind_run by exact Hsel.
    unfold session_role. by destruct (sess_role sess). }
  destruct (decide (logged_in sess = true ∧ sess_role sess = Some "Administrator"))
    as [[Hl Hr]|Hno].
  - split.
    + unfold admin_entity_add. rewrite admin_gate by done.
      destruct (ENTITIES !! entity) as [cfg|] eqn:Hent; [|done].
      erewrite bind_run by (by apply load_entity_df_run).
      rewrite Hm. by rewrite Hpage.
    + unfold admin_entity_edit. rewrite admin_gate by done.
      destruct (ENTITIES !! entity) as [cfg|] eqn:Hent; [|done].
      erewrite bind_run by (by apply load_entity_df_run).
      set (df := default empty_frame _).
      destruct (Frame.getitem df (cfg_id cfg)) as [col|e] eqn:Eg.
      2:{ by erewrite bind_raised by apply lift_run. }
      erewrite bind_run by apply lift_run.
      destruct (Frame.first_index _ _ _) as [idx|]; [|done].
      rewrite Hm. by rewrite Hpage.
  - split.
    + apply (refused_same_files Redirect sess).
      unfold admin_entity_add. by apply gate_refuses.
    + apply (refused_same_files Redirect sess).
      unfold admin_entity_edit. by apply gate_refuses.
Qed.

(** X26: An edit names a record that must exist: for an identifier that no
    stored record has, whatever the method, the answer is the redirect to
    the list with the flash [Not found], and nothing is written.  An
    unknown entity is answered alike by the add, the edit and the
    delete. *)
Theorem edit_of_unknown_record (entity : string) (obj_id : Z)
    (sess : Session) (req : Request) (w : World) :
  logged_in sess = true → sess_role sess = Some "Administrator" →
  (∀ cfg df,
     ENTITIES !! entity = Some cfg →
     tables w !! data_file rt (cfg_csv cfg) = Some df →
     cfg_id cfg ∈ columns df →
     count_id (cfg_id cfg) (CInt obj_id) df = O →
     admin_entity_edit rt entity obj_id sess req w
     = (Ok (Redirect ("/admin/" +:+ entity)),
        add_flash ("Not found", "warning") w))
  ∧ (ENTITIES !! entity = None →
     let unknown := (Ok (Redirect "/admin"),
                     add_flash ("Unknown entity", "warning") w) in
     admin_entity_add rt entity sess req w = unknown
     ∧ admin_entity_edit rt entity obj_id sess req w = unknown
     ∧ admin_entity_delete rt entity obj_id sess req w = unknown).
Proof.
  intros Hl Hr. split.
  - intros cfg df Hent Hdf Hc Hcount. unfold admin_entity_edit.
    rewrite admin_gate by done. rewrite Hent.
    erewrite bind_run by (by apply load_entity_df_run).
    rewrite Hdf. change (default empty_frame (Some df)) with df.
    erewrite bind_run by (by rewrite lift_run, getitem_ok).
    by rewrite first_index_none.
  - intros Hent unknown. subst unknown.
    unfold admin_entity_add, admin_entity_edit, admin_entity_delete.
    rewrite !admin_gate by done. by rewrite Hent.
Qed.

End Gate.

(** *** The audit log from its creation on, and the reload *)

Section Startup.

Variable rt : Runtime.

Lemma log_event_missing username action path details w :
  texts w !! AUDIT_LOG rt = None →
  log_event rt username action path details w
  = (Ok tt,
     set_texts
       <[AUDIT_LOG rt :=
           Text (csv_line [utcnow_isoformat rt (clock w); username; action;
                           path; details])]>
       (log_write (AUDIT_LOG rt) (tick w))).
Proof.
  intros H. unfold log_event.
  erewrite bind_run by reflexivity.
  unfold append_text, open_a, modify.
  erewrite bind_run by reflexivity.
  unfold fwrite, modify, set_texts, log_write. simpl. rewrite !H. simpl.
  rewrite lookup_insert_eq. simpl. by rewrite insert_insert_eq.
Qed.

(** X27: The audit log that the module creates when none exists holds the
    header and no entry, and an event then logged with plain fields is
    the one row of the dashboard; an existing log is left as it is.  An
    event logged while the log is missing creates the log without its
    header: the event stands where the header is expected, and the
    dashboard does not list it. *)
Theorem created_audit_log_lists_events (username action path details : string)
    (w : World) :
  let ts := utcnow_isoformat rt (clock w) in
  let row := {| Timestamp := ts; Username := username; Action := action;
                Path := path; Details := details |} in
  plain ts → plain username → plain action → plain path → plain details →
  ts ≠ "," →
  let w1 := snd (create_audit_log rt w) in
  (is_Some (texts w !! AUDIT_LOG rt) → w1 = w)
  ∧ (texts w !! AUDIT_LOG rt = None →
     (∃ content,
        texts (snd (log_event rt username action path details w1))
        !! AUDIT_LOG rt = Some (Text content)
        ∧ dashboard_logs content = Some [row])
     ∧ (∃ content,
          texts (snd (log_event rt username action path details w))
          !! AUDIT_LOG rt = Some (Text content)
          ∧ dashboard_logs content = Some [])).
Proof.
  intros ts row Hts Hu Ha Hp Hd Hcomma w1. split.
  - intros [x Hx]. subst w1. unfold create_audit_log.
    erewrite bind_run by apply text_exists_run.
    rewrite Hx. by rewrite bool_decide_eq_true_2.
  - intros Hfile.
    destruct (csv_line_newline_free5 ts username action path details)
      as (x & Hx & Hfree); try by apply plain_one_line.
    assert (dashboard_row (csv_line [ts; username; action; path; details])
            = Some [row]) as Hrow.
    { destruct Hts as [Hts _], Hu as [Hu _], Ha as [Ha _], Hp as [Hp _],
        Hd as [Hd _]. by apply dashboard_row_line. }
    split.
    + assert (create_audit_log rt w
              = (Ok tt, set_texts <[AUDIT_LOG rt := Text audit_header]>
                          (log_write (AUDIT_LOG rt) w))) as Hcreate.
      { unfold create_audit_log.
        erewrite bind_run by apply text_exists_run.
        rewrite Hfile, bool_decide_eq_false_2 by (by intros [? ?]).
        exact (create_text_run _ _ _). }
      subst w1. rewrite Hcreate. cbn [snd].
      set (w1 := set_texts _ _).
      rewrite (log_event_run rt _ _ _ _ w1 audit_header)
        by apply lookup_insert_eq.
      cbn [snd]. change (clock w1) with (clock w). fold ts.
      exists (audit_header +:+ csv_line [ts; username; action; path; details]).
      split; [apply lookup_insert_eq|].
      unfold dashboard_logs.
      rewrite Hx, readlines_app, readlines_line, <- Hx by done.
      change (PyStr.readlines audit_header) with [audit_header].
      cbn [app length]. unfold last_lines. cbn [Nat.sub drop tail length].
      cbn [dashboard_rows]. by rewrite Hrow.
    + rewrite (log_event_missing _ _ _ _ _ Hfile). cbn [snd]. fold ts.
      exists (csv_line [ts; username; action; path; details]).
      split; [apply lookup_insert_eq|].
      unfold dashboard_logs. by rewrite Hx, readlines_line.
Qed.

(** X28: [reload_all_data] touches nothing but the module-level frames.
    With the six data files in place it returns normally and the frames
    are the stored collections; when one of them is missing it raises
    [FileNotFoundError]. *)
Theorem reload_all_data_mirrors_files (w : World) :
  let res := reload_all_data rt w in
  same_files (snd res) w
  ∧ flashes (snd res) = flashes w
  ∧ ((∀ name, name ∈ data_files → is_Some (tables w !! data_file rt name)) →
     fst res = Ok tt ∧ globals_mirror rt (snd res))
  ∧ (∀ name, name ∈ data_files → tables w !! data_file rt name = None →
     ∃ p, fst res = Raised (FileNotFoundError p)).
Proof.
  intros res. subst res.
  destruct (reload_frame rt w) as (r & w' & Hrun & Ht & Hx & Hw & Hf & _).
  split; [by rewrite Hrun|]. split; [by rewrite Hrun|]. split.
  - intros Hall.
    destruct (reload_ok rt w Hall) as (w2 & Hrun2 & _ & _ & _ & _ & _ & Hm).
    by rewrite Hrun2.
  - intros name Hin Hnone.
    destruct (reload_raises rt w name Hin Hnone) as (p & w2 & Hrun2 & _).
    exists p. by rewrite Hrun2.
Qed.

End Startup.

(** *** The properties at concrete inputs *)

Lemma plain_share_with_bob : Forall plain_share [share_with_bob].
Proof. repeat constructor. Qed.

Lemma dashboard_lists_at_most_199_witness :
  length (entries long_log) = 250%nat
  ∧ dashboard_logs long_log = Some (replicate 199 login_row)
  ∧ (length (replicate 199 login_row) ≤ 199)%nat
  ∧ length (entries short_log) = 2%nat
  ∧ dashboard_rows (entries short_log) = Some [login_row; login_row].
Proof.
  assert (dashboard_logs long_log = Some (replicate 199 login_row)) as Hlong
    by (vm_compute; reflexivity).
  assert (dashboard_logs short_log = Some [login_row; login_row]) as Hshort
    by (vm_compute; reflexivity).
  split; [vm_compute; reflexivity|]. split; [exact Hlong|].
  split;
    [exact (proj1 (dashboard_lists_at_most_199 long_log _ Hlong))|].
  split; [vm_compute; reflexivity|].
  apply (proj2 (dashboard_lists_at_most_199 short_log _ Hshort)).
  vm_compute. lia.
Defined.

Lemma six_files_of_one_country_world (name : string) :
  name ∈ data_files →
  is_Some (tables one_country_world !! data_file sample_runtime name).
Proof.
  intros H. unfold data_files in H.
  repeat (apply elem_of_cons in H as [->|H]; [by eexists|]).
  by apply elem_of_nil in H.
Qed.

Lemma six_files_of_sites_world (name : string) :
  name ∈ data_files →
  is_Some (tables sites_world !! data_file sample_runtime name).
Proof.
  intros H. unfold data_files in H.
  repeat (apply elem_of_cons in H as [->|H]; [by eexists|]).
  by apply elem_of_nil in H.
Qed.

Lemma wf_ids_one_country : wf_ids "CountryID" one_country.
Proof.
  split; [by left|]. repeat constructor. by exists 1.
Qed.

Lemma add_stores_record_with_fresh_id_witness :
  ∃ n r,
    rows (default empty_frame
            (tables (snd (admin_entity_add sample_runtime "countries"
                            admin_session otherland one_country_world))
             !! "data/countries.csv"))
    = [testland_row; r]
    ∧ Frame.get r "CountryID" = CInt n
    ∧ Frame.get r "CountryName" = CStr "Otherland".
Proof.
  destruct (add_stores_record_with_fresh_id sample_runtime "countries"
              countries_cfg admin_session otherland one_country_world
              one_country eq_refl eq_refl eq_refl eq_refl eq_refl eq_refl
              wf_ids_one_country)
    as (n & r & Ht & Hcells & Hid & _).
  exists n, r. rewrite Ht. split; [reflexivity|]. split; [exact Hid|].
  rewrite (Hcells "CountryName") by (right; left). reflexivity.
Defined.

Lemma add_survives_failed_reload_witness :
  ∃ p r,
    fst (admin_entity_add sample_runtime "countries" admin_session otherland
           no_roles_world) = Raised (FileNotFoundError p)
    ∧ tables (snd (admin_entity_add sample_runtime "countries" admin_session
                     otherland no_roles_world))
      !! data_file sample_runtime (cfg_csv countries_cfg)
      = Some {| columns := columns one_country;
                rows := rows one_country ++ [r] |}
    ∧ texts (snd (admin_entity_add sample_runtime "countries" admin_session
                    otherland no_roles_world)) = texts no_roles_world
    ∧ flashes (snd (admin_entity_add sample_runtime "countries" admin_session
                      otherland no_roles_world)) = flashes no_roles_world.
Proof.
  apply (add_survives_failed_reload sample_runtime "countries" countries_cfg
           admin_session otherland no_roles_world one_country "roles.csv"
           eq_refl eq_refl eq_refl eq_refl eq_refl eq_refl wf_ids_one_country);
    [right; left | reflexivity].
Defined.

Lemma accepted_add_is_reloaded_and_logged_witness :
  ∃ (n : Z) (r : gmap string cell),
    fst (admin_entity_add sample_runtime "countries" admin_session otherland
           one_country_world) = Ok (Redirect "/admin/countries")
    ∧ tables (snd (admin_entity_add sample_runtime "countries" admin_session
                     otherland one_country_world))
      = <[data_file sample_runtime (cfg_csv countries_cfg) :=
            {| columns := columns one_country;
               rows := rows one_country ++ [r] |}]> (tables one_country_world)
    ∧ Frame.get r (cfg_id countries_cfg) = CInt n
    ∧ Forall (λ r0, ∃ z, Frame.get r0 (cfg_id countries_cfg) = CInt z ∧ z < n)
        (rows one_country)
    ∧ flashes (snd (admin_entity_add sample_runtime "countries" admin_session
                      otherland one_country_world))
      = [("Added.", "success")].
Proof.
  destruct (accepted_add_is_reloaded_and_logged sample_runtime "countries"
              countries_cfg admin_session otherland one_country_world
              one_country eq_refl eq_refl eq_refl eq_refl eq_refl eq_refl
              wf_ids_one_country six_files_of_one_country_world)
    as (n & r & Hres & Htab & Hid & Hlt & _ & Hflash & _).
  exists n, r. split; [exact Hres|]. split; [exact Htab|].
  split; [exact Hid|]. split; [exact Hlt | exact Hflash].
Defined.

Lemma delete_reports_success_witness :
  fst (admin_entity_delete sample_runtime "countries" 7 admin_session (post [])
         one_country_world) = Ok (Redirect "/admin/countries")
  ∧ tables (snd (admin_entity_delete sample_runtime "countries" 7 admin_session
                   (post []) one_country_world))
    = tables one_country_world
  ∧ flashes (snd (admin_entity_delete sample_runtime "countries" 7
                    admin_session (post []) one_country_world))
    = [("Deleted.", "success")].
Proof.
  assert ("CountryID" ∈ columns one_country) as Hc by by left.
  destruct (delete_reports_success sample_runtime "countries" countries_cfg 7
              admin_session (post []) one_country_world one_country
              eq_refl eq_refl eq_refl eq_refl Hc six_files_of_one_country_world)
    as (Hres & _ & Hsame & _ & Hflash & _).
  split; [exact Hres|]. split; [apply Hsame; reflexivity | exact Hflash].
Defined.

Lemma delete_survives_failed_reload_witness :
  ∃ p,
    fst (admin_entity_delete sample_runtime "countries" 1 admin_session
           (post []) no_roles_world) = Raised (FileNotFoundError p)
    ∧ tables (snd (admin_entity_delete sample_runtime "countries" 1
                     admin_session (post []) no_roles_world))
      !! data_file sample_runtime (cfg_csv countries_cfg)
      = Some (Frame.keep_ne one_country (cfg_id countries_cfg) (CInt 1))
    ∧ texts (snd (admin_entity_delete sample_runtime "countries" 1
                    admin_session (post []) no_roles_world))
      = texts no_roles_world
    ∧ flashes (snd (admin_entity_delete sample_runtime "countries" 1
                      admin_session (post []) no_roles_world))
      = flashes no_roles_world.
Proof.
  apply (delete_survives_failed_reload sample_runtime "countries" countries_cfg
           1 admin_session (post []) no_roles_world one_country "roles.csv"
           eq_refl eq_refl eq_refl eq_refl);
    [by left | right; left | reflexivity].
Defined.

Lemma bulk_delete_removes_sites_of_country_witness :
  fst (admin_sites_delete_by_country sample_runtime 1 admin_session (post [])
         sites_world) = Ok (Redirected "/admin/sites")
  ∧ flashes (snd (admin_sites_delete_by_country sample_runtime 1 admin_session
                    (post []) sites_world))
    = [("Deleted 1 site(s) for the country.", "success")].
Proof.
  assert ("CountryID" ∈ columns two_sites) as Hc by (right; right; left).
  destruct (bulk_delete_removes_sites_of_country sample_runtime 1 admin_session
              (post []) sites_world two_sites eq_refl eq_refl eq_refl Hc
              six_files_of_sites_world)
    as (Hres & _ & _ & _ & Hflash).
  split; [exact Hres | exact Hflash].
Defined.

Lemma listed_sites_are_the_ones_deleted_witness :
  ∃ page,
    admin_sites_by_country sample_runtime 1 admin_session (post []) sites_world
    = (Ok (Rendered page), sites_world)
    ∧ length (sbc_items page) = 1%nat.
Proof.
  assert ("CountryID" ∈ columns two_sites) as Hs by (right; right; left).
  assert ("CountryID" ∈ columns one_country) as Hc by by left.
  assert ("CountryName" ∈ columns one_country) as Hn by (right; left).
  destruct (listed_sites_are_the_ones_deleted sample_runtime 1 admin_session
              (post []) sites_world two_sites one_country
              eq_refl eq_refl eq_refl eq_refl Hs Hc Hn)
    as [_ H].
  destruct H as (page & Hres & _ & Hlen & _); [discriminate|].
  exists page. split; [exact Hres | exact Hlen].
Defined.

Lemma only_administrators_reach_admin_views_witness :
  admin_entity_delete sample_runtime "countries" 1 guest_session (post [])
    one_country_world
  = (Ok (Redirect "/login"), one_country_world)
  ∧ admin_entity_delete sample_runtime "countries" 1 investor_bob (post [])
      one_country_world
    = (Ok (Redirect "/dashboard"),
       add_flash ("Administrator access required.", "danger") one_country_world).
Proof.
  split.
  - apply (only_administrators_reach_admin_views sample_runtime guest_session
             (post []) one_country_world "countries" 1).
    intros [H _]. discriminate H.
  - apply (only_administrators_reach_admin_views sample_runtime investor_bob
             (post []) one_country_world "countries" 1).
    intros [_ H]. discriminate H.
Defined.

Lemma only_posts_write_witness :
  same_files
    (snd (admin_entity_add sample_runtime "countries" admin_session
            {| method := "GET"; form := ∅ |} one_country_world))
    one_country_world
  ∧ same_files
      (snd (admin_entity_edit sample_runtime "countries" 1 admin_session
              {| method := "GET"; form := ∅ |} one_country_world))
      one_country_world.
Proof.
  apply (only_posts_write sample_runtime "countries" 1 admin_session
           {| method := "GET"; form := ∅ |} one_country_world).
  discriminate.
Defined.

Lemma edit_of_unknown_record_witness :
  admin_entity_edit sample_runtime "countries" 7 admin_session rename_request
    one_country_world
  = (Ok (Redirect "/admin/countries"),
     add_flash ("Not found", "warning") one_country_world).
Proof.
  destruct (edit_of_unknown_record sample_runtime "countries" 7 admin_session
              rename_request one_country_world eq_refl eq_refl) as [H _].
  apply (H countries_cfg one_country); [reflexivity | reflexivity | by left |].
  reflexivity.
Defined.

Lemma created_audit_log_lists_events_witness :
  ∃ content,
    texts (snd (log_event sample_runtime "alice" "logout" "/logout"
                  "User logged out"
                  (snd (create_audit_log sample_runtime
                          (world_of empty_tables ∅)))))
    !! AUDIT_LOG sample_runtime = Some (Text content)
    ∧ dashboard_logs content
      = Some [ {| Timestamp := "2025-01-01T00:00:00.0"; Username := "alice";
                  Action := "logout"; Path := "/logout";
                  Details := "User logged out" |} ].
Proof.
  destruct (created_audit_log_lists_events sample_runtime "alice" "logout"
              "/logout" "User logged out" (world_of empty_tables ∅))
    as [_ H];
    [ split; vm_compute; reflexivity .. | discriminate | ].
  destruct H as [H _]; [reflexivity|]. exact H.
Defined.

Lemma dataset_view_access_witness :
  (∃ w',
     dataset_view sample_runtime three_ids investor_bob bob_world
     = (Ok (Rendered {| dataset_role := Some "Investor";
                        dataset_records := rows three_ids;
                        dataset_cols := columns three_ids |}), w')
     ∧ tables w' = tables bob_world ∧ flashes w' = flashes bob_world)
  ∧ dataset_view sample_runtime three_ids investor_carol bob_world
    = (Ok (Redirected "/dashboard"),
       add_flash ("Dataset not shared with you.", "warning") bob_world).
Proof.
  split.
  - destruct (dataset_view_access sample_runtime three_ids investor_bob
                bob_world) as (_ & _ & H & _).
    destruct (H "Investor" [share_with_bob] eq_refl eq_refl
                ltac:(discriminate) eq_refl plain_share_with_bob)
      as [Hyes _].
    apply Hyes. exists share_with_bob. split; [by left|]. right. by split.
  - destruct (dataset_view_access sample_runtime three_ids investor_carol
                bob_world) as (_ & _ & H & _).
    destruct (H "Investor" [share_with_bob] eq_refl eq_refl
                ltac:(discriminate) eq_refl plain_share_with_bob)
      as [_ Hno].
    apply Hno. intros (e & Hin & Hn).
    apply list_elem_of_singleton in Hin as ->.
    by destruct Hn as [[[= ?] _]|[_ [= ?]]].
Defined.

Lemma backup_file_copies_witness :
  backup_file sample_runtime "data/audit_log.csv" demo_world
  = (Ok "data/audit_log_20250101T000000Z.bak.csv",
     set_texts <["data/audit_log_20250101T000000Z.bak.csv" := Text audit_header]>
       (log_write "data/audit_log_20250101T000000Z.bak.csv" (tick demo_world))).
Proof.
  destruct (backup_file_copies sample_runtime "data/audit_log.csv" demo_world)
    as (_ & H & _).
  apply (H audit_header). reflexivity.
Defined.

Lemma next_id_edges_witness :
  ∃ msg,
    next_id sample_store (world_of {[ "t.csv" := nan_ids ]} ∅)
    = (Raised (ValueError msg), world_of {[ "t.csv" := nan_ids ]} ∅).
Proof.
  destruct (next_id_edges sample_store (world_of {[ "t.csv" := nan_ids ]} ∅))
    as (_ & _ & H).
  destruct (H "ID" eq_refl) as [_ Hnan]; [discriminate | reflexivity |].
  apply Hnan; [by left|]. repeat constructor.
Defined.



(** C9 as worded fails for a site: an edit that submits a new name and
    leaves the latitude out is turned down with an error, nothing is
    written, and the stored record keeps its name; no value falls back
    to the stored latitude. *)
Lemma site_edit_without_latitude_is_rejected :
  ENTITIES !! "sites" = Some sites_cfg
  ∧ tables sites_world !! data_file sample_runtime (cfg_csv sites_cfg)
    = Some two_sites
  ∧ Frame.first_index (cfg_id sites_cfg) (CInt 1) (rows two_sites) = Some 0%nat
  ∧ form deepen_pit !! "Latitude" = None
  ∧ (∃ page,
       admin_entity_edit sample_runtime "sites" 1 admin_session deepen_pit
         sites_world = (Ok (Render page), sites_world)
       ∧ page_errors page = Some ["Latitude must be a valid number"])
  ∧ ¬ edit_stores_submitted sample_runtime sites_cfg 1 deepen_pit
        (snd (admin_entity_edit sample_runtime "sites" 1 admin_session
                deepen_pit sites_world)).
Proof.
  assert (ENTITIES !! "sites" = Some sites_cfg) as Hent
    by (vm_compute; reflexivity).
  assert (tables sites_world !! data_file sample_runtime (cfg_csv sites_cfg)
          = Some two_sites) as Hs by (vm_compute; reflexivity).
  assert (Frame.first_index (cfg_id sites_cfg) (CInt 1) (rows two_sites)
          = Some 0%nat) as Hidx by (vm_compute; reflexivity).
  assert (validate sample_runtime sites_cfg deepen_pit
          = ["Latitude must be a valid number"]) as Hval
    by (vm_compute; reflexivity).
  assert (∀ f, f ∈ cfg_id sites_cfg :: cfg_fields sites_cfg →
               f ∈ columns two_sites) as Hcols.
  { intros f [->|Hf]%elem_of_cons; [|exact Hf]. vm_compute. left. }
  assert (validate sample_runtime sites_cfg deepen_pit ≠ []) as Hbad
    by (rewrite Hval; discriminate).
  pose proof (edit_invalid sample_runtime "sites" sites_cfg 1 admin_session
                deepen_pit sites_world Hent eq_refl eq_refl eq_refl Hbad)
    as Hinv.
  cbv zeta in Hinv. destruct Hinv as [_ Hpage].
  destruct (Hpage two_sites 0%nat Hs Hcols Hidx) as (page & Hrun & Herr & _).
  rewrite Hval in Herr.
  split; [exact Hent|]. split; [exact Hs|]. split; [exact Hidx|].
  split; [vm_compute; reflexivity|].
  split; [exists page; split; [exact Hrun | exact Herr]|].
  rewrite Hrun. cbn [snd].
  intros (df' & r' & Hdf & Hin & Hid & Hall).
  rewrite Hs in Hdf. injection Hdf as <-.
  assert (Frame.get r' "SiteName" = CStr "Deep Pit") as Hname.
  { apply Hall; [|discriminate|vm_compute; reflexivity].
    vm_compute. right. left. }
  unfold two_sites in Hin. cbn [rows] in Hin.
  apply elem_of_cons in Hin as [->|Hin].
  - vm_compute in Hname. discriminate Hname.
  - apply list_elem_of_singleton in Hin as ->.
    vm_compute in Hid. discriminate Hid.
Qed.
